(** * Duplicate-session detection over a BroadcastChannel

    A shallow embedding of the session page ([main.js]) and of the message
    factories it imports ([utils.js]), followed by the properties of the
    query/claim handshake.

    One session is a record of the module-level bindings of [main.js]
    together with the parts of the browser the script acts on: the channel
    (closed flag, the transient listener, what has been posted), the promise
    returned by [checkForDuplicates], the timers it has scheduled, and the
    few DOM cells it writes.  Every callback the script registers is a
    computation in a small state-and-exception monad; the browser's event
    loop is the function [step], one call per task. *)

From Stdlib Require Import ZArith String List Bool Lia.
From stdpp Require Import gmap strings list fin_maps pretty.

Local Open Scope string_scope.
Local Open Scope list_scope.
Local Open Scope Z_scope.

(* ------------------------------------------------------------------------ *)
(** ** Values and messages                                                   *)
(* ------------------------------------------------------------------------ *)

(** The values carried by the protocol's messages: strings, and the numeric
    timestamp (epoch milliseconds, an integer).  The script only ever
    compares a property with a string, so any other kind of value a foreign
    page could post behaves like a number here: it is never [===] to a
    string. *)
Inductive JsVal : Type :=
  | VStr (s : string)
  | VNum (n : Z).

#[global] Instance JsVal_eq_dec : EqDecision JsVal.
Proof. solve_decision. Defined.

(** A message is a plain JS object: a finite map from property names to
    values.  Reading an absent property gives [None] (JS [undefined]). *)
Abbreviation Message := (gmap string JsVal).

(** [v === s] for a string [s]: true only when the property is present and
    is that very string. *)
Definition strict_eq_str (v : option JsVal) (s : string) : bool :=
  bool_decide (v = Some (VStr s)).

(** What a template literal prints for a property value. *)
Definition template (v : option JsVal) : string :=
  match v with
  | None => "undefined"
  | Some (VStr s) => s
  | Some (VNum n) => pretty n
  end.

(* ------------------------------------------------------------------------ *)
(** ** utils.js                                                              *)
(* ------------------------------------------------------------------------ *)

Definition CHANNEL_NAME : string := "poc-session-channel".

Module MESSAGE_TYPES.
Definition SESSION_HASH_QUERY : string := "session-hash-query".
Definition SESSION_HASH_CLAIM : string := "session-hash-claim".
Definition SESSION_REGISTERED : string := "session-registered".
Definition SESSION_CLOSED : string := "session-closed".
End MESSAGE_TYPES.

Module LOG_TYPES.
Definition INFO : string := "info".
Definition SUCCESS : string := "success".
Definition WARNING : string := "warning".
Definition ERROR : string := "error".
End LOG_TYPES.

(** [now] is the value [Date.now()] returns when the message is built. *)
Definition createBaseMessage (type : string) (now : Z) : Message :=
  <["timestamp" := VNum now]> (<["type" := VStr type]> ∅).

Definition createHashQueryMessage (hash queryId : string) (now : Z) : Message :=
  <["queryId" := VStr queryId]>
    (<["hash" := VStr hash]>
       (createBaseMessage MESSAGE_TYPES.SESSION_HASH_QUERY now)).

(** [handleMessage] passes [msgData.queryId] here as it found it, so the
    query id is any value or nothing at all ([undefined], which reads back
    like an absent property). *)
Definition set_prop (key : string) (v : option JsVal) (m : Message) : Message :=
  match v with
  | Some x => <[key := x]> m
  | None => delete key m
  end.

Definition createHashClaimMessage (hash : string) (queryId : option JsVal)
    (sessionId : string) (now : Z) : Message :=
  <["sessionId" := VStr sessionId]>
    (set_prop "queryId" queryId
       (<["hash" := VStr hash]>
          (createBaseMessage MESSAGE_TYPES.SESSION_HASH_CLAIM now))).

Definition createSessionRegisteredMessage (sessionId hash : string) (now : Z)
  : Message :=
  <["hash" := VStr hash]>
    (<["sessionId" := VStr sessionId]>
       (createBaseMessage MESSAGE_TYPES.SESSION_REGISTERED now)).

Definition createSessionClosedMessage (sessionId : string) (now : Z) : Message :=
  <["sessionId" := VStr sessionId]>
    (createBaseMessage MESSAGE_TYPES.SESSION_CLOSED now).

(** The type tag of a message, and the test used throughout the properties. *)
Definition has_type (m : Message) (type : string) : bool :=
  strict_eq_str (m !! "type") type.

(* ------------------------------------------------------------------------ *)
(** ** The session: main.js module state and the browser objects it drives   *)
(* ------------------------------------------------------------------------ *)

(** What [document.body] shows: the page as served, or one of the two
    fallback notices written when [window.close()] may have been refused. *)
Inductive Body : Type :=
  | PageMarkup
  | DuplicateNotice (hash : string)
  | ClosedNotice.

#[global] Instance Body_eq_dec : EqDecision Body.
Proof. solve_decision. Defined.

Record Session : Type := mkSession {
  (* const sessionHash, const sessionId *)
  sessionHash : string;
  sessionId : string;
  (* let isVerified, let isClosingAsDuplicate *)
  isVerified : bool;
  isClosingAsDuplicate : bool;
  (* the BroadcastChannel: closed flag, the handleClaim listener (with the
     queryId its closure captured) while it is registered, and every message
     handed to postMessage, oldest first *)
  channelClosed : bool;
  claimListener : option string;
  posted : list Message;
  (* the promise of checkForDuplicates: its settled value, every call made
     to its resolve function (oldest first), and the reaction job of the
     awaiting initialize() once the promise is settled and until it runs *)
  promise : option bool;
  resolveCalls : list bool;
  reactionJob : option bool;
  (* timers scheduled and not yet fired: the 300 ms one of
     checkForDuplicates and the 500 ms one of closeAsDuplicate *)
  checkTimers : nat;
  closeTimers : nat;
  (* DOM: document.title, the status badge (textContent, className), the log
     container (newest entry first: message and type), the body, and the
     number of calls to window.close() *)
  documentTitle : string;
  displayStatus : option (string * string);
  logEntries : list (string * string);
  body : Body;
  windowCloseCalls : nat
}.

#[global] Instance Session_eq_dec : EqDecision Session.
Proof. solve_decision. Defined.

Definition set_isVerified (v : bool) (s : Session) : Session :=
  mkSession (sessionHash s) (sessionId s) v (isClosingAsDuplicate s)
    (channelClosed s) (claimListener s) (posted s) (promise s) (resolveCalls s)
    (reactionJob s) (checkTimers s) (closeTimers s) (documentTitle s)
    (displayStatus s) (logEntries s) (body s) (windowCloseCalls s).

Definition set_isClosingAsDuplicate (v : bool) (s : Session) : Session :=
  mkSession (sessionHash s) (sessionId s) (isVerified s) v
    (channelClosed s) (claimListener s) (posted s) (promise s) (resolveCalls s)
    (reactionJob s) (checkTimers s) (closeTimers s) (documentTitle s)
    (displayStatus s) (logEntries s) (body s) (windowCloseCalls s).

Definition set_channelClosed (v : bool) (s : Session) : Session :=
  mkSession (sessionHash s) (sessionId s) (isVerified s) (isClosingAsDuplicate s)
    v (claimListener s) (posted s) (promise s) (resolveCalls s)
    (reactionJob s) (checkTimers s) (closeTimers s) (documentTitle s)
    (displayStatus s) (logEntries s) (body s) (windowCloseCalls s).

Definition set_claimListener (v : option string) (s : Session) : Session :=
  mkSession (sessionHash s) (sessionId s) (isVerified s) (isClosingAsDuplicate s)
    (channelClosed s) v (posted s) (promise s) (resolveCalls s)
    (reactionJob s) (checkTimers s) (closeTimers s) (documentTitle s)
    (displayStatus s) (logEntries s) (body s) (windowCloseCalls s).

Definition set_posted (v : list Message) (s : Session) : Session :=
  mkSession (sessionHash s) (sessionId s) (isVerified s) (isClosingAsDuplicate s)
    (channelClosed s) (claimListener s) v (promise s) (resolveCalls s)
    (reactionJob s) (checkTimers s) (closeTimers s) (documentTitle s)
    (displayStatus s) (logEntries s) (body s) (windowCloseCalls s).

Definition set_promise (p : option bool) (calls : list bool)
    (job : option bool) (s : Session) : Session :=
  mkSession (sessionHash s) (sessionId s) (isVerified s) (isClosingAsDuplicate s)
    (channelClosed s) (claimListener s) (posted s) p calls
    job (checkTimers s) (closeTimers s) (documentTitle s)
    (displayStatus s) (logEntries s) (body s) (windowCloseCalls s).

Definition set_checkTimers (v : nat) (s : Session) : Session :=
  mkSession (sessionHash s) (sessionId s) (isVerified s) (isClosingAsDuplicate s)
    (channelClosed s) (claimListener s) (posted s) (promise s) (resolveCalls s)
    (reactionJob s) v (closeTimers s) (documentTitle s)
    (displayStatus s) (logEntries s) (body s) (windowCloseCalls s).

Definition set_closeTimers (v : nat) (s : Session) : Session :=
  mkSession (sessionHash s) (sessionId s) (isVerified s) (isClosingAsDuplicate s)
    (channelClosed s) (claimListener s) (posted s) (promise s) (resolveCalls s)
    (reactionJob s) (checkTimers s) v (documentTitle s)
    (displayStatus s) (logEntries s) (body s) (windowCloseCalls s).

Definition set_documentTitle (v : string) (s : Session) : Session :=
  mkSession (sessionHash s) (sessionId s) (isVerified s) (isClosingAsDuplicate s)
    (channelClosed s) (claimListener s) (posted s) (promise s) (resolveCalls s)
    (reactionJob s) (checkTimers s) (closeTimers s) v
    (displayStatus s) (logEntries s) (body s) (windowCloseCalls s).

Definition set_displayStatus (v : option (string * string)) (s : Session)
  : Session :=
  mkSession (sessionHash s) (sessionId s) (isVerified s) (isClosingAsDuplicate s)
    (channelClosed s) (claimListener s) (posted s) (promise s) (resolveCalls s)
    (reactionJob s) (checkTimers s) (closeTimers s) (documentTitle s)
    v (logEntries s) (body s) (windowCloseCalls s).

Definition set_logEntries (v : list (string * string)) (s : Session) : Session :=
  mkSession (sessionHash s) (sessionId s) (isVerified s) (isClosingAsDuplicate s)
    (channelClosed s) (claimListener s) (posted s) (promise s) (resolveCalls s)
    (reactionJob s) (checkTimers s) (closeTimers s) (documentTitle s)
    (displayStatus s) v (body s) (windowCloseCalls s).

Definition set_body (v : Body) (s : Session) : Session :=
  mkSession (sessionHash s) (sessionId s) (isVerified s) (isClosingAsDuplicate s)
    (channelClosed s) (claimListener s) (posted s) (promise s) (resolveCalls s)
    (reactionJob s) (checkTimers s) (closeTimers s) (documentTitle s)
    (displayStatus s) (logEntries s) v (windowCloseCalls s).

Definition set_windowCloseCalls (v : nat) (s : Session) : Session :=
  mkSession (sessionHash s) (sessionId s) (isVerified s) (isClosingAsDuplicate s)
    (channelClosed s) (claimListener s) (posted s) (promise s) (resolveCalls s)
    (reactionJob s) (checkTimers s) (closeTimers s) (documentTitle s)
    (displayStatus s) (logEntries s) (body s) v.

(* ------------------------------------------------------------------------ *)
(** ** Script computations: state passing with exceptions                    *)
(* ------------------------------------------------------------------------ *)

(** A piece of script either completes or throws; either way the writes it
    made so far stay. *)
Inductive Completion (A : Type) : Type :=
  | Normal (a : A)
  | Thrown (name : string).
Arguments Normal {A} a.
Arguments Thrown {A} name.

#[global] Instance Completion_eq_dec {A} `{EqDecision A} : EqDecision (Completion A).
Proof. solve_decision. Defined.

Definition Js (A : Type) : Type := Session -> Completion A * Session.

Definition ret {A} (a : A) : Js A := fun s => (Normal a, s).

Definition bind {A B} (c : Js A) (k : A -> Js B) : Js B :=
  fun s =>
    match c s with
    | (Normal a, s') => k a s'
    | (Thrown e, s') => (Thrown e, s')
    end.

Definition get {A} (f : Session -> A) : Js A := fun s => (Normal (f s), s).
Definition modify (f : Session -> Session) : Js unit := fun s => (Normal tt, f s).
Definition throw {A} (name : string) : Js A := fun s => (Thrown name, s).
Definition when (b : bool) (c : Js unit) : Js unit := if b then c else ret tt.

Declare Scope js_scope.
Delimit Scope js_scope with js.
Notation "x <- c ;; k" := (bind c (fun x => k))
  (at level 100, c at next level, right associativity) : js_scope.
Notation "c ;; k" := (bind c (fun _ => k))
  (at level 100, right associativity) : js_scope.

Local Open Scope js_scope.

(** The double-quote character that some log lines put around a value. *)
Definition dq : string := String (Ascii.ascii_of_nat 34) EmptyString.

(** The texts main.js writes to its log, in the order they appear in the
    file; the template literals take the interpolated value as argument. *)
Module Text.
Definition checking (hash : string) : string :=
  "Checking for existing session with hash: " +:+ hash.
Definition duplicate_found (sid : option JsVal) : string :=
  "Duplicate found! Session " +:+ dq +:+ template sid +:+ dq
  +:+ " already owns this hash.".
Definition no_duplicate : string :=
  "No duplicate found. This session is unique.".
Definition closing_duplicate : string :=
  "Closing this window - another session with this hash is already active.".
Definition registered : string := "Session registered".
Definition closing : string := "Session closing".
Definition queried (hash : option JsVal) : string :=
  "Another session queried for hash " +:+ dq +:+ template hash +:+ dq
  +:+ " - responding with claim".
Definition sibling_opened (sid : option JsVal) : string :=
  "Sibling session opened: " +:+ template sid.
Definition sibling_closed (sid : option JsVal) : string :=
  "Sibling session closed: " +:+ template sid.
Definition deserialize_failed : string :=
  "Failed to deserialize incoming message".
Definition initialized (hash : string) : string :=
  "Session initialized with hash: " +:+ hash.
Definition status_checking : string := "Checking for duplicates...".
Definition status_duplicate : string := "Duplicate - Closing".
Definition status_active : string := "Active".
Definition title (sid : string) : string := "Session - " +:+ sid.
End Text.

(* ------------------------------------------------------------------------ *)
(** ** Browser primitives used by main.js                                    *)
(* ------------------------------------------------------------------------ *)

Definition InvalidStateError : string := "InvalidStateError".

(** [channel.postMessage(m)]: a closed BroadcastChannel throws
    [InvalidStateError]; an open one hands [m] to the bus. *)
Definition postMessage (m : Message) : Js unit :=
  closed <- get channelClosed ;;
  if closed then throw InvalidStateError
  else modify (fun s => set_posted (posted s ++ [m]) s).

(** [channel.close()]. *)
Definition channel_close : Js unit := modify (set_channelClosed true).

(** [window.close()]: the call is recorded; the script goes on, as it does
    when the browser refuses to close the window. *)
Definition window_close : Js unit :=
  modify (fun s => set_windowCloseCalls (S (windowCloseCalls s)) s).

(** [createLogger(logContainer)]: the entry goes in front of the others.
    The clock text that the real entry starts with is left out. *)
Definition log (message type : string) : Js unit :=
  modify (fun s => set_logEntries ((message, type) :: logEntries s) s).

(** The [resolve] function of the promise built in [checkForDuplicates]:
    only the first call settles the promise and queues the continuation of
    the awaiting [initialize]; every call is recorded. *)
Definition resolve (v : bool) : Js unit :=
  modify (fun s =>
    match promise s with
    | None => set_promise (Some v) (resolveCalls s ++ [v]) (Some v) s
    | Some p => set_promise (Some p) (resolveCalls s ++ [v]) (reactionJob s) s
    end).

(* ------------------------------------------------------------------------ *)
(** ** main.js                                                               *)
(* ------------------------------------------------------------------------ *)

Definition DUPLICATE_CHECK_TIMEOUT : Z := 300.

(** [urlParams.get("hash") || `session-${Date.now()}`]: an absent or empty
    parameter falls back to the clock. *)
Definition sessionHash_of (urlHash : option string) (now : Z) : string :=
  match urlHash with
  | Some h => if bool_decide (h = "") then "session-" +:+ pretty now else h
  | None => "session-" +:+ pretty now
  end.

(** [`status-badge ${isConnected ? "connected" : "disconnected"}`] *)
Definition badge_class (isConnected : bool) : string :=
  "status-badge " +:+ (if isConnected then "connected" else "disconnected").

Definition updateStatus (status : string) (isConnected : bool) : Js unit :=
  modify (set_displayStatus (Some (status, badge_class isConnected))).

(** The three text nodes that also receive [sessionId] and [sessionHash]
    are not kept: nothing reads them back. *)
Definition initializeDisplay : Js unit :=
  sid <- get sessionId ;;
  modify (set_documentTitle (Text.title sid)).

(** The transient listener of [checkForDuplicates]; [queryId] is the value
    its closure captured. *)
Definition handleClaim (queryId : string) (msgData : Message) : Js unit :=
  hash <- get sessionHash ;;
  if has_type msgData MESSAGE_TYPES.SESSION_HASH_CLAIM
     && strict_eq_str (msgData !! "queryId") queryId
     && strict_eq_str (msgData !! "hash") hash
  then
    log (Text.duplicate_found (msgData !! "sessionId")) LOG_TYPES.WARNING ;;
    modify (set_claimListener None) ;;
    resolve false
  else ret tt.

(** The query id: [`query-${Date.now()}-${Math.random().toString(36).slice(2, 9)}`];
    [rnd] is the random suffix. *)
Definition make_queryId (now : Z) (rnd : string) : string :=
  "query-" +:+ pretty now +:+ "-" +:+ rnd.

(** The executor of the promise, run when [checkForDuplicates] is called.
    [nowId] and [nowMsg] are the two clock readings it makes. *)
Definition checkForDuplicates (nowId : Z) (rnd : string) (nowMsg : Z) : Js unit :=
  let queryId := make_queryId nowId rnd in
  hash <- get sessionHash ;;
  log (Text.checking hash) LOG_TYPES.INFO ;;
  modify (set_claimListener (Some queryId)) ;;
  postMessage (createHashQueryMessage hash queryId nowMsg) ;;
  modify (fun s => set_checkTimers (S (checkTimers s)) s).

(** The callback given to [setTimeout] in [checkForDuplicates]. *)
Definition checkTimeout : Js unit :=
  modify (set_claimListener None) ;;
  closing <- get isClosingAsDuplicate ;;
  when (negb closing)
    (log Text.no_duplicate LOG_TYPES.SUCCESS ;;
     resolve true).

Definition closeAsDuplicate : Js unit :=
  modify (set_isClosingAsDuplicate true) ;;
  log Text.closing_duplicate LOG_TYPES.WARNING ;;
  updateStatus Text.status_duplicate false ;;
  modify (fun s => set_closeTimers (S (closeTimers s)) s).

(** The callback given to [setTimeout] in [closeAsDuplicate]. *)
Definition closeAsDuplicateTimeout : Js unit :=
  channel_close ;;
  window_close ;;
  hash <- get sessionHash ;;
  modify (set_body (DuplicateNotice hash)).

Definition registerSession (now : Z) : Js unit :=
  sid <- get sessionId ;;
  hash <- get sessionHash ;;
  postMessage (createSessionRegisteredMessage sid hash now) ;;
  updateStatus Text.status_active true ;;
  log Text.registered LOG_TYPES.SUCCESS.

Definition closeSession (now : Z) : Js unit :=
  sid <- get sessionId ;;
  postMessage (createSessionClosedMessage sid now) ;;
  log Text.closing LOG_TYPES.WARNING ;;
  channel_close ;;
  window_close ;;
  modify (set_body ClosedNotice).

Definition handleMessage (now : Z) (msgData : Message) : Js unit :=
  if has_type msgData MESSAGE_TYPES.SESSION_HASH_QUERY then
    verified <- get isVerified ;;
    hash <- get sessionHash ;;
    when (verified && strict_eq_str (msgData !! "hash") hash)
      (log (Text.queried (msgData !! "hash")) LOG_TYPES.INFO ;;
       sid <- get sessionId ;;
       postMessage (createHashClaimMessage hash (msgData !! "queryId") sid now))
  else
    sid <- get sessionId ;;
    if strict_eq_str (msgData !! "sessionId") sid then ret tt
    else if has_type msgData MESSAGE_TYPES.SESSION_REGISTERED then
      log (Text.sibling_opened (msgData !! "sessionId")) LOG_TYPES.INFO
    else if has_type msgData MESSAGE_TYPES.SESSION_CLOSED then
      log (Text.sibling_closed (msgData !! "sessionId")) LOG_TYPES.INFO
    else ret tt.

Definition handleMessageError : Js unit :=
  log Text.deserialize_failed LOG_TYPES.ERROR.

(** The [beforeunload] listener. *)
Definition beforeunload (now : Z) : Js unit :=
  closing <- get isClosingAsDuplicate ;;
  when (negb closing)
    (sid <- get sessionId ;;
     postMessage (createSessionClosedMessage sid now)) ;;
  channel_close.

(** [initialize] up to its [await]. *)
Definition initialize_start (nowId : Z) (rnd : string) (nowMsg : Z) : Js unit :=
  initializeDisplay ;;
  updateStatus Text.status_checking false ;;
  checkForDuplicates nowId rnd nowMsg.

(** [initialize] after its [await], with the value the promise settled to. *)
Definition initialize_resume (isUnique : bool) (now : Z) : Js unit :=
  if isUnique then
    modify (set_isVerified true) ;;
    registerSession now ;;
    hash <- get sessionHash ;;
    log (Text.initialized hash) LOG_TYPES.INFO
  else closeAsDuplicate.

(** The module's bindings before any function has run. *)
Definition module_state (urlHash : option string) (nowHash : Z) : Session :=
  let h := sessionHash_of urlHash nowHash in
  {| sessionHash := h; sessionId := h;
     isVerified := false; isClosingAsDuplicate := false;
     channelClosed := false; claimListener := None; posted := [];
     promise := None; resolveCalls := []; reactionJob := None;
     checkTimers := 0%nat; closeTimers := 0%nat;
     documentTitle := ""; displayStatus := None; logEntries := [];
     body := PageMarkup; windowCloseCalls := 0%nat |}.

(** The session once the module has been evaluated: [initialize()] has run
    to its [await]; the query is out, the listener and the timer are set. *)
Definition initialize (urlHash : option string) (nowHash nowId : Z)
    (rnd : string) (nowMsg : Z) : Session :=
  snd (initialize_start nowId rnd nowMsg (module_state urlHash nowHash)).

(* ------------------------------------------------------------------------ *)
(** ** The event loop                                                        *)
(* ------------------------------------------------------------------------ *)

(** The tasks the browser can run on the page. *)
Inductive Event : Type :=
  | EvMessage (msgData : Message)   (* a message event on the channel *)
  | EvMessageError                  (* a messageerror event *)
  | EvCheckTimeout                  (* the 300 ms timer *)
  | EvCloseTimeout                  (* the 500 ms timer *)
  | EvCloseClick                    (* a click on the close button *)
  | EvBeforeUnload.                 (* beforeunload on the window *)

(** An exception that a callback does not catch ends the callback and
    nothing else: the event loop reports it and goes on. *)
Definition uncaught (c : Js unit) : Js unit :=
  fun s =>
    match c s with
    | (_, s') => (Normal tt, s')
    end.

(** After a callback returns, the pending reaction job (if any) runs: the
    awaiting [initialize] goes on.  An exception there only rejects the
    promise of [initialize], which nobody observes. *)
Definition microtaskCheckpoint (now : Z) : Js unit :=
  job <- get reactionJob ;;
  match job with
  | Some v =>
      modify (fun s => set_promise (promise s) (resolveCalls s) None s) ;;
      uncaught (initialize_resume v now)
  | None => ret tt
  end.

(** Run one callback to completion, then the microtasks. *)
Definition callback (now : Z) (c : Js unit) : Js unit :=
  uncaught c ;;
  microtaskCheckpoint now.

(** One task; [now] is what [Date.now()] returns during it (no task reads
    the clock twice).  A closed channel receives no events; [onmessage] was
    set before the transient listener was added, so [handleMessage] runs
    first, and [handleClaim] runs if it is still registered then; a timer
    fires only if it is pending; the close button can be clicked only while
    it is on the page, that is until a fallback notice replaces the body.
    [window.close()] is taken to be refused: the page lives on, so that
    every behaviour of a page that does close is a prefix of one here. *)
Definition task (now : Z) (e : Event) : Js unit :=
  match e with
  | EvMessage msgData =>
      closed <- get channelClosed ;;
      if closed then ret tt
      else
        callback now (handleMessage now msgData) ;;
        listener <- get claimListener ;;
        match listener with
        | Some queryId => callback now (handleClaim queryId msgData)
        | None => ret tt
        end
  | EvMessageError =>
      closed <- get channelClosed ;;
      if closed then ret tt else callback now handleMessageError
  | EvCheckTimeout =>
      pending <- get checkTimers ;;
      match pending with
      | O => ret tt
      | S n => modify (set_checkTimers n) ;; callback now checkTimeout
      end
  | EvCloseTimeout =>
      pending <- get closeTimers ;;
      match pending with
      | O => ret tt
      | S n => modify (set_closeTimers n) ;; callback now closeAsDuplicateTimeout
      end
  | EvCloseClick =>
      page <- get body ;;
      match page with
      | PageMarkup => callback now (closeSession now)
      | _ => ret tt
      end
  | EvBeforeUnload => callback now (beforeunload now)
  end.

Definition step (now : Z) (e : Event) (s : Session) : Session :=
  snd (task now e s).

(** A run of the page: the tasks in order, each with its clock reading. *)
Definition run (tr : list (Z * Event)) (s : Session) : Session :=
  fold_left (fun st te => step (fst te) (snd te) st) tr s.

(* ------------------------------------------------------------------------ *)
(** ** Vocabulary of the properties                                          *)
(* ------------------------------------------------------------------------ *)

(** The test [handleClaim] makes, as a predicate on messages. *)
Definition matches_claim (queryId hash : string) (m : Message) : bool :=
  has_type m MESSAGE_TYPES.SESSION_HASH_CLAIM
  && strict_eq_str (m !! "queryId") queryId
  && strict_eq_str (m !! "hash") hash.

(** No message of the given type among those posted. *)
Definition never_posted (type : string) (s : Session) : Prop :=
  Forall (fun m => has_type m type = false) (posted s).

(** The session is still running its check: traffic on the channel that
    holds no matching claim, and timers that are not pending.  The page is
    neither closed by its button nor unloaded, and the 300 ms timer has not
    fired. *)
Definition quiet (queryId hash : string) (te : Z * Event) : bool :=
  match snd te with
  | EvMessage m => negb (matches_claim queryId hash m)
  | EvMessageError => true
  | EvCloseTimeout => true
  | EvCheckTimeout | EvCloseClick | EvBeforeUnload => false
  end.

(** The three phases of the handshake, as seen in the session's state. *)
Record Checking (queryId : string) (s : Session) : Prop := {
  chk_promise : promise s = None;
  chk_calls : resolveCalls s = [];
  chk_job : reactionJob s = None;
  chk_verified : isVerified s = false;
  chk_closing : isClosingAsDuplicate s = false;
  chk_listener : claimListener s = Some queryId;
  chk_timer : checkTimers s = 1%nat;
  chk_close_timer : closeTimers s = 0%nat
}.

Record ResolvedUnique (s : Session) : Prop := {
  uni_promise : promise s = Some true;
  uni_calls : resolveCalls s = [true];
  uni_job : reactionJob s = None;
  uni_verified : isVerified s = true;
  uni_closing : isClosingAsDuplicate s = false;
  uni_listener : claimListener s = None;
  uni_timer : checkTimers s = 0%nat
}.

Record ResolvedDuplicate (s : Session) : Prop := {
  dup_promise : promise s = Some false;
  dup_calls : resolveCalls s = [false];
  dup_job : reactionJob s = None;
  dup_verified : isVerified s = false;
  dup_closing : isClosingAsDuplicate s = true;
  dup_listener : claimListener s = None;
  dup_timer : (checkTimers s <= 1)%nat;
  dup_close_timer : (closeTimers s <= 1)%nat;
  dup_status :
    displayStatus s = Some (Text.status_duplicate, badge_class false)
}.

Definition Phase (queryId : string) (s : Session) : Prop :=
  Checking queryId s \/ ResolvedUnique s \/ ResolvedDuplicate s.

(** A check that is running undisturbed: the channel is open and the only
    message out is the query, built at clock reading [tq]. *)
Record StillChecking (queryId hash : string) (tq : Z) (s : Session) : Prop := {
  still_checking : Checking queryId s;
  still_open : channelClosed s = false;
  still_posted : posted s = [createHashQueryMessage hash queryId tq];
  still_hash : sessionHash s = hash;
  still_id : sessionId s = hash
}.

(** A registered owner: resolved Unique, with its channel open. *)
Record Owner (hash : string) (s : Session) : Prop := {
  owner_unique : ResolvedUnique s;
  owner_open : channelClosed s = false;
  owner_hash : sessionHash s = hash
}.

(** What one task hands to [postMessage]. *)
Definition published (now : Z) (e : Event) (s : Session) : list Message :=
  drop (List.length (posted s)) (posted (step now e s)).

(** One task publishes at most one message, and there are only three ways
    it does: a verified owner answers a query for its hash; the timer
    resolves a running check and the session registers; the page is closed
    by its button or unloaded (the latter only when the session is not
    closing as a duplicate). *)
Inductive Publication (now : Z) (e : Event) (s : Session) : list Message -> Prop :=
  | pub_nothing :
      Publication now e s []
  | pub_claim m :
      e = EvMessage m ->
      isVerified s = true ->
      has_type m MESSAGE_TYPES.SESSION_HASH_QUERY = true ->
      m !! "hash" = Some (VStr (sessionHash s)) ->
      Publication now e s
        [createHashClaimMessage (sessionHash s) (m !! "queryId") (sessionId s) now]
  | pub_registered :
      e = EvCheckTimeout ->
      promise s = None ->
      Publication now e s
        [createSessionRegisteredMessage (sessionId s) (sessionHash s) now]
  | pub_closed_click :
      e = EvCloseClick ->
      Publication now e s [createSessionClosedMessage (sessionId s) now]
  | pub_closed_unload :
      e = EvBeforeUnload ->
      isClosingAsDuplicate s = false ->
      Publication now e s [createSessionClosedMessage (sessionId s) now].

(** While a session is not verified it has published neither a claim nor a
    registration. *)
Definition silent (s : Session) : Prop :=
  isVerified s = false ->
  never_posted MESSAGE_TYPES.SESSION_HASH_CLAIM s
  /\ never_posted MESSAGE_TYPES.SESSION_REGISTERED s.

(** How many of the messages a session has posted have the given type. *)
Definition count_posted (type : string) (s : Session) : nat :=
  List.length (List.filter (fun m => has_type m type) (posted s)).

(** [s'] differs from [s] at most in its log and in what it has posted. *)
Definition same_but_log_and_posted (s s' : Session) : Prop :=
  set_posted (posted s) (set_logEntries (logEntries s) s') = s.

(* ======================================================================== *)
(** * The fan-out demo: a controller and the sessions it launches            *)
(* ======================================================================== *)

(** The other demo of the repository: a controller page that opens session
    pages, keeps the list of those that registered, and sends them
    broadcast, direct and close messages.  Its utils file has the same
    [createBaseMessage] and its own message types and factories. *)
Module Fanout.

Module MESSAGE_TYPES.
(* Controller -> Sessions *)
Definition CONTROLLER_READY : string := "controller-ready".
Definition BROADCAST : string := "broadcast".
Definition DIRECT_MESSAGE : string := "direct-message".
Definition CLOSE_SESSION : string := "close-session".
Definition CLOSE_ALL : string := "close-all".
Definition CONTROLLER_CLOSING : string := "controller-closing".
(* Sessions -> Controller *)
Definition SESSION_REGISTERED : string := "session-registered".
Definition SESSION_CLOSED : string := "session-closed".
Definition SESSION_MESSAGE : string := "session-message".
Definition SESSION_PING : string := "session-ping".
End MESSAGE_TYPES.

Module LOG_TYPES.
Definition INFO : string := "info".
Definition SUCCESS : string := "success".
Definition WARNING : string := "warning".
Definition ERROR : string := "error".
Definition SENT : string := "sent".
Definition RECEIVED : string := "received".
End LOG_TYPES.

Definition createBaseMessage (type : string) (now : Z) : Message :=
  <["timestamp" := VNum now]> (<["type" := VStr type]> ∅).

Definition from_controller (m : Message) : Message :=
  <["source" := VStr "controller"]> m.

Definition createBroadcastMessage (message : string) (now : Z) : Message :=
  <["message" := VStr message]>
    (from_controller (createBaseMessage MESSAGE_TYPES.BROADCAST now)).

Definition createDirectMessage (targetSession message : string) (now : Z)
  : Message :=
  <["message" := VStr message]>
    (<["targetSession" := VStr targetSession]>
       (from_controller (createBaseMessage MESSAGE_TYPES.DIRECT_MESSAGE now))).

Definition createCloseSessionMessage (targetSession : string) (now : Z)
  : Message :=
  <["targetSession" := VStr targetSession]>
    (from_controller (createBaseMessage MESSAGE_TYPES.CLOSE_SESSION now)).

Definition createCloseAllMessage (now : Z) : Message :=
  from_controller (createBaseMessage MESSAGE_TYPES.CLOSE_ALL now).

Definition createControllerReadyMessage (now : Z) : Message :=
  from_controller (createBaseMessage MESSAGE_TYPES.CONTROLLER_READY now).

Definition createControllerClosingMessage (now : Z) : Message :=
  from_controller (createBaseMessage MESSAGE_TYPES.CONTROLLER_CLOSING now).

Definition createSessionRegisteredMessage (sessionId data : string) (now : Z)
  : Message :=
  <["data" := VStr data]>
    (<["sessionId" := VStr sessionId]>
       (createBaseMessage MESSAGE_TYPES.SESSION_REGISTERED now)).

Definition createSessionClosedMessage (sessionId : string) (now : Z) : Message :=
  <["sessionId" := VStr sessionId]>
    (createBaseMessage MESSAGE_TYPES.SESSION_CLOSED now).

Definition createSessionMessage (sessionId message : string) (now : Z)
  : Message :=
  <["message" := VStr message]>
    (<["sessionId" := VStr sessionId]>
       (createBaseMessage MESSAGE_TYPES.SESSION_MESSAGE now)).

Definition createSessionPingMessage (sessionId : string) (now : Z) : Message :=
  <["sessionId" := VStr sessionId]>
    (createBaseMessage MESSAGE_TYPES.SESSION_PING now).

(** JS truthiness of a property value: [undefined], the empty string and
    zero are falsy. *)
Definition truthy (v : option JsVal) : bool :=
  match v with
  | None => false
  | Some (VStr s) => negb (bool_decide (s = ""))
  | Some (VNum n) => negb (bool_decide (n = 0))
  end.

(** Script computations over any page state. *)
Definition Eff (St A : Type) : Type := St -> Completion A * St.

Definition ret {St A} (a : A) : Eff St A := fun s => (Normal a, s).

Definition bind {St A B} (c : Eff St A) (k : A -> Eff St B) : Eff St B :=
  fun s =>
    match c s with
    | (Normal a, s') => k a s'
    | (Thrown e, s') => (Thrown e, s')
    end.

Definition get {St A} (f : St -> A) : Eff St A := fun s => (Normal (f s), s).
Definition modify {St} (f : St -> St) : Eff St unit := fun s => (Normal tt, f s).
Definition throw {St A} (name : string) : Eff St A := fun s => (Thrown name, s).
Definition when {St} (b : bool) (c : Eff St unit) : Eff St unit :=
  if b then c else ret tt.

(** An exception a callback does not catch ends the callback only. *)
Definition uncaught {St} (c : Eff St unit) : Eff St unit :=
  fun s =>
    match c s with
    | (_, s') => (Normal tt, s')
    end.

Declare Scope fan_scope.
Delimit Scope fan_scope with fan.
Notation "x <- c ;; k" := (bind c (fun x => k))
  (at level 100, c at next level, right associativity) : fan_scope.
Notation "c ;; k" := (bind c (fun _ => k))
  (at level 100, right associativity) : fan_scope.

Local Open Scope fan_scope.

(* ------------------------------------------------------------------------ *)
(** ** The controller page                                                   *)
(* ------------------------------------------------------------------------ *)

Module Controller.

(** A value of [activeSessions]: [{ data, registeredAt, lastPing? }]. *)
Record Entry : Type := mkEntry {
  data : option JsVal;
  registeredAt : option JsVal;
  lastPing : option JsVal
}.

#[global] Instance Entry_eq_dec : EqDecision Entry.
Proof. solve_decision. Defined.

(** [activeSessions] is a JS [Map]: its keys are whatever the messages held
    under [sessionId] (possibly nothing), it iterates in insertion order,
    and setting a key that is present keeps the key's place. *)
Abbreviation SessionMap := (list (option JsVal * Entry)).

Fixpoint map_get (k : option JsVal) (m : SessionMap) : option Entry :=
  match m with
  | [] => None
  | (k', v) :: m' => if bool_decide (k' = k) then Some v else map_get k m'
  end.

Definition map_has (k : option JsVal) (m : SessionMap) : bool :=
  match map_get k m with
  | Some _ => true
  | None => false
  end.

Fixpoint map_set (k : option JsVal) (v : Entry) (m : SessionMap) : SessionMap :=
  match m with
  | [] => [(k, v)]
  | (k', v') :: m' =>
      if bool_decide (k' = k) then (k, v) :: m' else (k', v') :: map_set k v m'
  end.

Fixpoint map_delete (k : option JsVal) (m : SessionMap) : SessionMap :=
  match m with
  | [] => []
  | (k', v') :: m' =>
      if bool_decide (k' = k) then map_delete k m' else (k', v') :: map_delete k m'
  end.

(** What the session list shows: the markup as served, the empty-state
    paragraph, or one item per session; an item is kept as the two values
    its markup interpolates, the id (also the [data-session] attribute of
    its two buttons) and the data text. *)
Inductive ListView : Type :=
  | AsServed
  | EmptyState
  | Items (items : list (string * string)).

#[global] Instance ListView_eq_dec : EqDecision ListView.
Proof. solve_decision. Defined.

Record State : Type := mkState {
  (* const activeSessions, let sessionCounter *)
  activeSessions : SessionMap;
  sessionCounter : nat;
  (* the channel *)
  channelClosed : bool;
  posted : list Message;
  (* the URLs given to window.open *)
  opened : list string;
  (* DOM: the count next to the title, the list, the log (newest first),
     the values of the two inputs *)
  sessionCountText : option string;
  sessionList : ListView;
  logEntries : list (string * string);
  sessionDataInput : string;
  broadcastMsgInput : string
}.

#[global] Instance State_eq_dec : EqDecision State.
Proof. solve_decision. Defined.

Definition set_activeSessions (v : SessionMap) (s : State) : State :=
  mkState v (sessionCounter s) (channelClosed s) (posted s) (opened s)
    (sessionCountText s) (sessionList s) (logEntries s) (sessionDataInput s)
    (broadcastMsgInput s).

Definition set_sessionCounter (v : nat) (s : State) : State :=
  mkState (activeSessions s) v (channelClosed s) (posted s) (opened s)
    (sessionCountText s) (sessionList s) (logEntries s) (sessionDataInput s)
    (broadcastMsgInput s).

Definition set_channelClosed (v : bool) (s : State) : State :=
  mkState (activeSessions s) (sessionCounter s) v (posted s) (opened s)
    (sessionCountText s) (sessionList s) (logEntries s) (sessionDataInput s)
    (broadcastMsgInput s).

Definition set_posted (v : list Message) (s : State) : State :=
  mkState (activeSessions s) (sessionCounter s) (channelClosed s) v (opened s)
    (sessionCountText s) (sessionList s) (logEntries s) (sessionDataInput s)
    (broadcastMsgInput s).

Definition set_opened (v : list string) (s : State) : State :=
  mkState (activeSessions s) (sessionCounter s) (channelClosed s) (posted s) v
    (sessionCountText s) (sessionList s) (logEntries s) (sessionDataInput s)
    (broadcastMsgInput s).

Definition set_view (count : option string) (view : ListView) (s : State)
  : State :=
  mkState (activeSessions s) (sessionCounter s) (channelClosed s) (posted s)
    (opened s) count view (logEntries s) (sessionDataInput s)
    (broadcastMsgInput s).

Definition set_logEntries (v : list (string * string)) (s : State) : State :=
  mkState (activeSessions s) (sessionCounter s) (channelClosed s) (posted s)
    (opened s) (sessionCountText s) (sessionList s) v (sessionDataInput s)
    (broadcastMsgInput s).

Definition set_sessionDataInput (v : string) (s : State) : State :=
  mkState (activeSessions s) (sessionCounter s) (channelClosed s) (posted s)
    (opened s) (sessionCountText s) (sessionList s) (logEntries s) v
    (broadcastMsgInput s).

Definition set_broadcastMsgInput (v : string) (s : State) : State :=
  mkState (activeSessions s) (sessionCounter s) (channelClosed s) (posted s)
    (opened s) (sessionCountText s) (sessionList s) (logEntries s)
    (sessionDataInput s) v.

(** The texts the controller logs. *)
Module Text.
Definition launched (sid : string) : string := "Launched: " +:+ sid.
Definition enter_message : string := "Please enter a message to broadcast".
Definition broadcasted (message : string) : string :=
  "Broadcasted: " +:+ dq +:+ message +:+ dq.
Definition sent_to (sid message : string) : string :=
  "Sent to " +:+ sid +:+ ": " +:+ dq +:+ message +:+ dq.
Definition requested_close (sid : string) : string :=
  "Requested " +:+ sid +:+ " to close".
Definition requested_close_all : string := "Requested all sessions to close".
Definition registered (sid : option JsVal) : string :=
  "Session registered: " +:+ template sid.
Definition closed (sid : option JsVal) : string :=
  "Session closed: " +:+ template sid.
Definition from (sid message : option JsVal) : string :=
  "From " +:+ template sid +:+ ": " +:+ template message.
Definition message_error : string :=
  "Message error - data could not be deserialized".
Definition initialized : string :=
  "Controller initialized. BroadcastChannel is active.".
Definition count (size : nat) : string := "(" +:+ pretty size +:+ ")".
Definition not_available : string := "N/A".
Definition session_id (counter : nat) : string := "Session-" +:+ pretty counter.
Definition url (sid encodedData : string) : string :=
  "session.html?sessionId=" +:+ sid +:+ "&data=" +:+ encodedData.
End Text.

Definition log (message type : string) : Eff State unit :=
  modify (fun s => set_logEntries ((message, type) :: logEntries s) s).

Definition postMessage (m : Message) : Eff State unit :=
  closed <- get channelClosed ;;
  if closed then throw InvalidStateError
  else modify (fun s => set_posted (posted s ++ [m]) s).

(** One item of the list: [id] and [session.data || "N/A"]. *)
Definition render (kv : option JsVal * Entry) : string * string :=
  (template (fst kv),
   if truthy (data (snd kv)) then template (data (snd kv))
   else Text.not_available).

Definition updateSessionList : Eff State unit :=
  m <- get activeSessions ;;
  modify (set_view (Some (Text.count (List.length m)))
            (match m with
             | [] => EmptyState
             | _ => Items (List.map render m)
             end)).

Section Builtins.

(** [encodeURIComponent] and [String.prototype.trim], as given by the
    browser. *)
Variables encodeURIComponent trim : string -> string.

Definition launchSession : Eff State unit :=
  modify (fun s => set_sessionCounter (S (sessionCounter s)) s) ;;
  counter <- get sessionCounter ;;
  let sessionId := Text.session_id counter in
  data <- get sessionDataInput ;;
  modify (fun s =>
            set_opened (opened s ++ [Text.url sessionId (encodeURIComponent data)])
              s) ;;
  log (Text.launched sessionId) LOG_TYPES.SUCCESS.

Definition broadcastMessage (now : Z) : Eff State unit :=
  value <- get broadcastMsgInput ;;
  let message := trim value in
  if bool_decide (message = "") then
    log Text.enter_message LOG_TYPES.WARNING
  else
    postMessage (createBroadcastMessage message now) ;;
    log (Text.broadcasted message) LOG_TYPES.SENT ;;
    modify (set_broadcastMsgInput "").

(** [answer] is what [prompt] returned: nothing when it was cancelled. *)
Definition sendToSession (sessionId : string) (answer : option string) (now : Z)
  : Eff State unit :=
  match answer with
  | None => ret tt
  | Some message =>
      if bool_decide (message = "") then ret tt
      else
        postMessage (createDirectMessage sessionId message now) ;;
        log (Text.sent_to sessionId message) LOG_TYPES.SENT
  end.

Definition closeSession (sessionId : string) (now : Z) : Eff State unit :=
  postMessage (createCloseSessionMessage sessionId now) ;;
  log (Text.requested_close sessionId) LOG_TYPES.WARNING.

(** [confirmed] is what [confirm] returned. *)
Definition closeAllSessions (confirmed : bool) (now : Z) : Eff State unit :=
  if confirmed then
    postMessage (createCloseAllMessage now) ;;
    log Text.requested_close_all LOG_TYPES.WARNING
  else ret tt.

(** [channel.onmessage]. *)
Definition onmessage (data : Message) : Eff State unit :=
  let type := data !! "type" in
  let sessionId := data !! "sessionId" in
  if strict_eq_str type MESSAGE_TYPES.SESSION_REGISTERED then
    modify (fun s =>
              set_activeSessions
                (map_set sessionId
                   (mkEntry (data !! "data") (data !! "timestamp") None)
                   (activeSessions s)) s) ;;
    updateSessionList ;;
    log (Text.registered sessionId) LOG_TYPES.SUCCESS
  else if strict_eq_str type MESSAGE_TYPES.SESSION_CLOSED then
    modify (fun s =>
              set_activeSessions (map_delete sessionId (activeSessions s)) s) ;;
    updateSessionList ;;
    log (Text.closed sessionId) LOG_TYPES.WARNING
  else if strict_eq_str type MESSAGE_TYPES.SESSION_MESSAGE then
    log (Text.from sessionId (data !! "message")) LOG_TYPES.RECEIVED
  else if strict_eq_str type MESSAGE_TYPES.SESSION_PING then
    m <- get activeSessions ;;
    match map_get sessionId m with
    | Some entry =>
        modify (set_activeSessions
                  (map_set sessionId
                     (mkEntry (Controller.data entry) (registeredAt entry)
                        (data !! "timestamp")) m))
    | None => ret tt
    end
  else ret tt.

Definition onmessageerror : Eff State unit :=
  log Text.message_error LOG_TYPES.ERROR.

(** The [beforeunload] listener. *)
Definition beforeunload (now : Z) : Eff State unit :=
  postMessage (createControllerClosingMessage now) ;;
  modify (set_channelClosed true).

(** The last statements of the module. *)
Definition initialize (now : Z) : Eff State unit :=
  postMessage (createControllerReadyMessage now) ;;
  log Text.initialized LOG_TYPES.INFO.

(** The module's bindings before [initialize]; the two inputs hold what the
    page was served with. *)
Definition module_state (dataInput broadcastInput : string) : State :=
  {| activeSessions := []; sessionCounter := 0%nat;
     channelClosed := false; posted := []; opened := [];
     sessionCountText := None; sessionList := AsServed; logEntries := [];
     sessionDataInput := dataInput; broadcastMsgInput := broadcastInput |}.

Definition load (dataInput broadcastInput : string) (now : Z) : State :=
  snd (initialize now (module_state dataInput broadcastInput)).

(** The tasks of the controller page.  A click in the session list comes
    with the button it hit, if any (its [data-action] and [data-session]),
    and with the answer the user gives should a [prompt] open. *)
Inductive Event : Type :=
  | EvMessage (data : Message)
  | EvMessageError
  | EvLaunchClick
  | EvBroadcastClick
  | EvCloseAllClick (confirmed : bool)
  | EvDataKeypress (key : string)
  | EvBroadcastKeypress (key : string)
  | EvListClick (button : option (string * string)) (answer : option string)
  | EvDataInput (value : string)
  | EvBroadcastInput (value : string)
  | EvBeforeUnload.

Definition task (now : Z) (e : Event) : Eff State unit :=
  match e with
  | EvMessage data =>
      closed <- get channelClosed ;;
      if closed then ret tt else uncaught (onmessage data)
  | EvMessageError =>
      closed <- get channelClosed ;;
      if closed then ret tt else uncaught onmessageerror
  | EvLaunchClick => uncaught launchSession
  | EvBroadcastClick => uncaught (broadcastMessage now)
  | EvCloseAllClick confirmed => uncaught (closeAllSessions confirmed now)
  | EvDataKeypress key =>
      if bool_decide (key = "Enter") then uncaught launchSession else ret tt
  | EvBroadcastKeypress key =>
      if bool_decide (key = "Enter") then uncaught (broadcastMessage now)
      else ret tt
  | EvListClick button answer =>
      match button with
      | None => ret tt
      | Some (action, sessionId) =>
          uncaught
            (when (bool_decide (action = "send"))
               (sendToSession sessionId answer now) ;;
             when (bool_decide (action = "close"))
               (closeSession sessionId now))
      end
  | EvDataInput value => modify (set_sessionDataInput value)
  | EvBroadcastInput value => modify (set_broadcastMsgInput value)
  | EvBeforeUnload => uncaught (beforeunload now)
  end.

Definition step (now : Z) (e : Event) (s : State) : State :=
  snd (task now e s).

Definition run (tr : list (Z * Event)) (s : State) : State :=
  fold_left (fun st te => step (fst te) (snd te) st) tr s.

End Builtins.

(** The messages a run of the controller page handles: those delivered
    before the page unloads (the channel is closed from then on). *)
Fixpoint received (tr : list (Z * Event)) : list Message :=
  match tr with
  | [] => []
  | (_, EvMessage data) :: rest => data :: received rest
  | (_, EvBeforeUnload) :: _ => []
  | _ :: rest => received rest
  end.

(** How many sessions a run of the controller page launches. *)
Fixpoint launches (tr : list (Z * Event)) : nat :=
  match tr with
  | [] => 0
  | (_, EvLaunchClick) :: rest => S (launches rest)
  | (_, EvDataKeypress key) :: rest =>
      if bool_decide (key = "Enter") then S (launches rest) else launches rest
  | _ :: rest => launches rest
  end.

(** The list as [updateSessionList] draws it. *)
Definition view_of (m : SessionMap) : ListView :=
  match m with
  | [] => EmptyState
  | _ => Items (List.map render m)
  end.

(** The list on screen agrees with the map: no session twice, and either
    nothing was drawn yet (and nothing is registered) or the count and the
    items are those of the map. *)
Definition in_sync (s : State) : Prop :=
  NoDup (activeSessions s).*1
  /\ ((sessionCountText s = None /\ sessionList s = AsServed
       /\ activeSessions s = [])
      \/ (sessionCountText s = Some (Text.count (List.length (activeSessions s)))
          /\ sessionList s = view_of (activeSessions s))).

(** The mark of the controller's messages: a [source], and no [sessionId]. *)
Definition controller_stamp (m : Message) : Prop :=
  m !! "source" = Some (VStr "controller") /\ m !! "sessionId" = None.

(** The i-th tab opened is that of [Session-(i+1)]. *)
Definition launched_in_order (encodeURIComponent : string -> string)
    (s : State) : Prop :=
  List.length (opened s) = sessionCounter s
  /\ forall (i : nat) (url : string),
       opened s !! i = Some url ->
       exists data, url = Text.url (Text.session_id (S i)) (encodeURIComponent data).

(** The last registration or closure that a list of delivered messages
    holds for the key [k]: [Some true] when it is a registration. *)
Definition lifecycle (k : option JsVal) (data : Message) : option bool :=
  if bool_decide (data !! "sessionId" = k) then
    if strict_eq_str (data !! "type") MESSAGE_TYPES.SESSION_REGISTERED
    then Some true
    else if strict_eq_str (data !! "type") MESSAGE_TYPES.SESSION_CLOSED
    then Some false
    else None
  else None.

Fixpoint last_lifecycle (k : option JsVal) (msgs : list Message) (acc : option bool)
  : option bool :=
  match msgs with
  | [] => acc
  | data :: rest =>
      last_lifecycle k rest
        (match lifecycle k data with
         | Some b => Some b
         | None => acc
         end)
  end.

End Controller.

(* ------------------------------------------------------------------------ *)
(** ** The session page that the controller launches                         *)
(* ------------------------------------------------------------------------ *)

Module Child.

(** What a pending [setTimeout] will do. *)
Inductive Timer : Type :=
  | RemoveClass (className : string)   (* flashBody *)
  | CloseSession.                      (* setTimeout(closeSession, 1000) *)

#[global] Instance Timer_eq_dec : EqDecision Timer.
Proof. solve_decision. Defined.

Record State : Type := mkState {
  (* const sessionId, const data *)
  sessionId : string;
  data : string;
  (* the channel *)
  channelClosed : bool;
  posted : list Message;
  (* DOM: the title, the data cell, the status badge, the log (newest
     first), the classes of the body, the value of the message input, the
     body, the calls to window.close() *)
  documentTitle : string;
  displayData : string;
  displayStatus : option (string * string);
  logEntries : list (string * string);
  classList : list string;
  messageInput : string;
  body : Body;
  windowCloseCalls : nat;
  (* timeouts set and not yet fired *)
  timers : list Timer
}.

#[global] Instance State_eq_dec : EqDecision State.
Proof. solve_decision. Defined.

Definition set_channelClosed (v : bool) (s : State) : State :=
  mkState (sessionId s) (data s) v (posted s) (documentTitle s) (displayData s)
    (displayStatus s) (logEntries s) (classList s) (messageInput s) (body s)
    (windowCloseCalls s) (timers s).

Definition set_posted (v : list Message) (s : State) : State :=
  mkState (sessionId s) (data s) (channelClosed s) v (documentTitle s)
    (displayData s) (displayStatus s) (logEntries s) (classList s)
    (messageInput s) (body s) (windowCloseCalls s) (timers s).

Definition set_display (title cell : string) (s : State) : State :=
  mkState (sessionId s) (data s) (channelClosed s) (posted s) title cell
    (displayStatus s) (logEntries s) (classList s) (messageInput s) (body s)
    (windowCloseCalls s) (timers s).

Definition set_displayStatus (v : option (string * string)) (s : State)
  : State :=
  mkState (sessionId s) (data s) (channelClosed s) (posted s) (documentTitle s)
    (displayData s) v (logEntries s) (classList s) (messageInput s) (body s)
    (windowCloseCalls s) (timers s).

Definition set_logEntries (v : list (string * string)) (s : State) : State :=
  mkState (sessionId s) (data s) (channelClosed s) (posted s) (documentTitle s)
    (displayData s) (displayStatus s) v (classList s) (messageInput s) (body s)
    (windowCloseCalls s) (timers s).

Definition set_classList (v : list string) (s : State) : State :=
  mkState (sessionId s) (data s) (channelClosed s) (posted s) (documentTitle s)
    (displayData s) (displayStatus s) (logEntries s) v (messageInput s) (body s)
    (windowCloseCalls s) (timers s).

Definition set_messageInput (v : string) (s : State) : State :=
  mkState (sessionId s) (data s) (channelClosed s) (posted s) (documentTitle s)
    (displayData s) (displayStatus s) (logEntries s) (classList s) v (body s)
    (windowCloseCalls s) (timers s).

Definition set_body (v : Body) (s : State) : State :=
  mkState (sessionId s) (data s) (channelClosed s) (posted s) (documentTitle s)
    (displayData s) (displayStatus s) (logEntries s) (classList s)
    (messageInput s) v (windowCloseCalls s) (timers s).

Definition set_windowCloseCalls (v : nat) (s : State) : State :=
  mkState (sessionId s) (data s) (channelClosed s) (posted s) (documentTitle s)
    (displayData s) (displayStatus s) (logEntries s) (classList s)
    (messageInput s) (body s) v (timers s).

Definition set_timers (v : list Timer) (s : State) : State :=
  mkState (sessionId s) (data s) (channelClosed s) (posted s) (documentTitle s)
    (displayData s) (displayStatus s) (logEntries s) (classList s)
    (messageInput s) (body s) (windowCloseCalls s) v.

(** The texts the session page logs and shows. *)
Module Text.
Definition registered : string := "Session registered with controller".
Definition enter_message : string := "Please enter a message".
Definition sent (message : string) : string := "Sent: " +:+ dq +:+ message +:+ dq.
Definition closure_notified : string := "Notified controller of session closure".
Definition broadcast (message : option JsVal) : string :=
  "Broadcast from controller: " +:+ dq +:+ template message +:+ dq.
Definition direct (message : option JsVal) : string :=
  "Direct message: " +:+ dq +:+ template message +:+ dq.
Definition close_requested : string :=
  "Controller requested this session to close".
Definition close_all_requested : string :=
  "Controller requested all sessions to close".
Definition orphaned : string :=
  "Controller is closing. This session is now orphaned.".
Definition reregistering : string :=
  "Controller is ready. Re-registering session.".
Definition sibling_new (sid : option JsVal) : string :=
  "New sibling session: " +:+ template sid.
Definition sibling_closed (sid : option JsVal) : string :=
  "Sibling session closed: " +:+ template sid.
Definition deserialize_failed : string :=
  "Failed to deserialize incoming message".
Definition initialized (data : string) : string :=
  "Session initialized"
  +:+ (if bool_decide (data = "") then "" else " with data: " +:+ data).
Definition status_connected : string := "Connected".
Definition status_disconnected : string := "Disconnected".
Definition title (sid : string) : string := "Session - " +:+ sid.
Definition none : string := "None".
Definition flash : string := "flash".
Definition flash_direct : string := "flash-direct".
End Text.

Definition log (message type : string) : Eff State unit :=
  modify (fun s => set_logEntries ((message, type) :: logEntries s) s).

Definition postMessage (m : Message) : Eff State unit :=
  closed <- get channelClosed ;;
  if closed then throw InvalidStateError
  else modify (fun s => set_posted (posted s ++ [m]) s).

Definition updateStatus (status : string) (isConnected : bool) : Eff State unit :=
  modify (set_displayStatus (Some (status, badge_class isConnected))).

(** The two cells that also show [sessionId] are not kept. *)
Definition initializeDisplay : Eff State unit :=
  sid <- get sessionId ;;
  d <- get data ;;
  modify (set_display (Text.title sid)
            (if bool_decide (d = "") then Text.none else d)).

(** [classList.add] leaves a class that is there alone; [classList.remove]
    takes it away. *)
Definition flashBody (className : string) : Eff State unit :=
  modify (fun s =>
            set_classList
              (if bool_decide (className ∈ classList s) then classList s
               else classList s ++ [className]) s) ;;
  modify (fun s => set_timers (timers s ++ [RemoveClass className]) s).

Definition removeClass (className : string) : Eff State unit :=
  modify (fun s =>
            set_classList
              (List.filter (fun c => negb (bool_decide (c = className)))
                 (classList s)) s).

Definition registerSession (now : Z) : Eff State unit :=
  sid <- get sessionId ;;
  d <- get data ;;
  postMessage (createSessionRegisteredMessage sid d now) ;;
  updateStatus Text.status_connected true ;;
  log Text.registered LOG_TYPES.SUCCESS.

Definition closeSession (now : Z) : Eff State unit :=
  sid <- get sessionId ;;
  postMessage (createSessionClosedMessage sid now) ;;
  log Text.closure_notified LOG_TYPES.WARNING ;;
  modify (set_channelClosed true) ;;
  modify (fun s => set_windowCloseCalls (S (windowCloseCalls s)) s) ;;
  modify (set_body ClosedNotice).

Section Builtins.

(** [String.prototype.trim], as given by the browser. *)
Variable trim : string -> string.

Definition sendMessage (now : Z) : Eff State unit :=
  value <- get messageInput ;;
  let message := trim value in
  if bool_decide (message = "") then
    log Text.enter_message LOG_TYPES.WARNING
  else
    sid <- get sessionId ;;
    postMessage (createSessionMessage sid message now) ;;
    log (Text.sent message) LOG_TYPES.SENT ;;
    modify (set_messageInput "").

(** [channel.onmessage]. *)
Definition onmessage (now : Z) (msgData : Message) : Eff State unit :=
  sid <- get sessionId ;;
  let type := msgData !! "type" in
  if strict_eq_str (msgData !! "sessionId") sid then ret tt
  else if strict_eq_str type MESSAGE_TYPES.BROADCAST then
    log (Text.broadcast (msgData !! "message")) LOG_TYPES.RECEIVED ;;
    flashBody Text.flash
  else if strict_eq_str type MESSAGE_TYPES.DIRECT_MESSAGE then
    when (strict_eq_str (msgData !! "targetSession") sid)
      (log (Text.direct (msgData !! "message")) LOG_TYPES.RECEIVED ;;
       flashBody Text.flash_direct)
  else if strict_eq_str type MESSAGE_TYPES.CLOSE_SESSION then
    when (strict_eq_str (msgData !! "targetSession") sid)
      (log Text.close_requested LOG_TYPES.WARNING ;;
       modify (fun s => set_timers (timers s ++ [CloseSession]) s))
  else if strict_eq_str type MESSAGE_TYPES.CLOSE_ALL then
    log Text.close_all_requested LOG_TYPES.WARNING ;;
    modify (fun s => set_timers (timers s ++ [CloseSession]) s)
  else if strict_eq_str type MESSAGE_TYPES.CONTROLLER_CLOSING then
    log Text.orphaned LOG_TYPES.WARNING ;;
    updateStatus Text.status_disconnected false
  else if strict_eq_str type MESSAGE_TYPES.CONTROLLER_READY then
    log Text.reregistering LOG_TYPES.INFO ;;
    registerSession now
  else if strict_eq_str type MESSAGE_TYPES.SESSION_REGISTERED then
    when (negb (strict_eq_str (msgData !! "sessionId") sid))
      (log (Text.sibling_new (msgData !! "sessionId")) LOG_TYPES.INFO)
  else if strict_eq_str type MESSAGE_TYPES.SESSION_CLOSED then
    when (negb (strict_eq_str (msgData !! "sessionId") sid))
      (log (Text.sibling_closed (msgData !! "sessionId")) LOG_TYPES.INFO)
  else ret tt.

Definition onmessageerror : Eff State unit :=
  log Text.deserialize_failed LOG_TYPES.ERROR.

(** The [beforeunload] listener. *)
Definition beforeunload (now : Z) : Eff State unit :=
  sid <- get sessionId ;;
  postMessage (createSessionClosedMessage sid now) ;;
  modify (set_channelClosed true).

(** The callback of [setInterval]. *)
Definition heartbeat (now : Z) : Eff State unit :=
  sid <- get sessionId ;;
  postMessage (createSessionPingMessage sid now).

(** The last statements of the module. *)
Definition initialize (now : Z) : Eff State unit :=
  initializeDisplay ;;
  registerSession now ;;
  d <- get data ;;
  log (Text.initialized d) LOG_TYPES.INFO.

(** [urlParams.get("sessionId") || `Session-${Date.now()}`] and
    [urlParams.get("data") || ""]. *)
Definition sessionId_of (param : option string) (now : Z) : string :=
  match param with
  | Some v => if bool_decide (v = "") then "Session-" +:+ pretty now else v
  | None => "Session-" +:+ pretty now
  end.

Definition data_of (param : option string) : string :=
  match param with
  | Some v => v
  | None => ""
  end.

Definition module_state (sessionIdParam dataParam : option string)
    (nowId : Z) (input : string) : State :=
  {| sessionId := sessionId_of sessionIdParam nowId;
     data := data_of dataParam;
     channelClosed := false; posted := [];
     documentTitle := ""; displayData := ""; displayStatus := None;
     logEntries := []; classList := []; messageInput := input;
     body := PageMarkup; windowCloseCalls := 0%nat; timers := [] |}.

Definition load (sessionIdParam dataParam : option string) (nowId : Z)
    (input : string) (now : Z) : State :=
  snd (initialize now (module_state sessionIdParam dataParam nowId input)).

(** The tasks of the session page.  A timeout fires only if it is pending;
    the buttons and the input can be used only while they are on the
    page. *)
Inductive Event : Type :=
  | EvMessage (msgData : Message)
  | EvMessageError
  | EvTimeout (timer : Timer)
  | EvHeartbeat
  | EvSendClick
  | EvCloseClick
  | EvKeypress (key : string)
  | EvInput (value : string)
  | EvBeforeUnload.

(** Take one pending occurrence of a timer out of the list. *)
Fixpoint take_timer (t : Timer) (l : list Timer) : option (list Timer) :=
  match l with
  | [] => None
  | t' :: l' =>
      if bool_decide (t' = t) then Some l'
      else match take_timer t l' with
           | Some r => Some (t' :: r)
           | None => None
           end
  end.

Definition on_page (c : Eff State unit) : Eff State unit :=
  page <- get body ;;
  match page with
  | PageMarkup => c
  | _ => ret tt
  end.

Definition task (now : Z) (e : Event) : Eff State unit :=
  match e with
  | EvMessage msgData =>
      closed <- get channelClosed ;;
      if closed then ret tt else uncaught (onmessage now msgData)
  | EvMessageError =>
      closed <- get channelClosed ;;
      if closed then ret tt else uncaught onmessageerror
  | EvTimeout timer =>
      pending <- get timers ;;
      match take_timer timer pending with
      | None => ret tt
      | Some rest =>
          modify (set_timers rest) ;;
          match timer with
          | RemoveClass className => uncaught (removeClass className)
          | CloseSession => uncaught (closeSession now)
          end
      end
  | EvHeartbeat => uncaught (heartbeat now)
  | EvSendClick => on_page (uncaught (sendMessage now))
  | EvCloseClick => on_page (uncaught (closeSession now))
  | EvKeypress key =>
      on_page (if bool_decide (key = "Enter") then uncaught (sendMessage now)
               else ret tt)
  | EvInput value => on_page (modify (set_messageInput value))
  | EvBeforeUnload => uncaught (beforeunload now)
  end.

Definition step (now : Z) (e : Event) (s : State) : State :=
  snd (task now e s).

Definition run (tr : list (Z * Event)) (s : State) : State :=
  fold_left (fun st te => step (fst te) (snd te) st) tr s.

End Builtins.

(** How many session-closed messages a session page has posted. *)
Definition closed_count (s : State) : nat :=
  List.length
    (List.filter
       (fun m => strict_eq_str (m !! "type") MESSAGE_TYPES.SESSION_CLOSED)
       (posted s)).

End Child.

End Fanout.

(* ------------------------------------------------------------------------ *)
(** ** Reasoning about one task                                              *)
(* ------------------------------------------------------------------------ *)

(** Symbolic execution of one task.  The script is reduced to weak head
    normal form, call by value, without ever looking inside a branch that
    is not taken; when the reduction stops at a test the script makes
    ([channelClosed], a comparison on the incoming message, ...) the proof
    splits on that test, or uses what is already known about it. *)
Ltac js_whnf t :=
  eval cbv head beta iota zeta delta
    [step task callback microtaskCheckpoint uncaught
     handleMessage handleClaim handleMessageError checkTimeout
     closeAsDuplicate closeAsDuplicateTimeout registerSession closeSession
     beforeunload initialize_resume initialize_start checkForDuplicates
     initializeDisplay updateStatus
     postMessage channel_close window_close log resolve
     bind ret get modify throw when
     set_isVerified set_isClosingAsDuplicate set_channelClosed
     set_claimListener set_posted set_promise set_checkTimers
     set_closeTimers set_documentTitle set_displayStatus set_logEntries
     set_body set_windowCloseCalls
     sessionHash sessionId isVerified isClosingAsDuplicate channelClosed
     claimListener posted promise resolveCalls reactionJob checkTimers
     closeTimers documentTitle displayStatus logEntries body
     windowCloseCalls
     fst snd negb andb] in t.

(** The test on which a stuck term waits. *)
Ltac stuck_head t :=
  match t with
  | match ?c with _ => _ end =>
      match c with
      | _ => stuck_head c
      | _ => c
      end
  | ?f _ => stuck_head f
  end.

Ltac js_loop :=
  repeat match goal with
  | |- ?x = ?T -> ?G =>
      let T' := js_whnf T in
      change (x = T' -> G);
      let a := stuck_head T' in
      first [ match goal with H : a = _ |- _ => rewrite H end
            | destruct a eqn:? ]
  end;
  match goal with
  | |- ?x = ?T -> ?G =>
      let T' := js_whnf T in
      change (x = T' -> G); intros ->
  end.

(** Run the computation [t] that the goal talks about. *)
Ltac js_exec_on t :=
  let x := fresh "x" in
  let Hx := fresh "Hx" in
  remember t as x eqn:Hx; revert Hx; js_loop.

(** Run the task that the goal talks about, then read the fields of the
    state it ends in. *)
Ltac js_exec :=
  match goal with
  | |- context [step ?now ?e ?s] => js_exec_on (step now e s)
  end;
  cbv [sessionHash sessionId isVerified isClosingAsDuplicate channelClosed
       claimListener posted promise resolveCalls reactionJob checkTimers
       closeTimers documentTitle displayStatus logEntries body
       windowCloseCalls].

(** Decide a closed statement by evaluating its decision procedure. *)
Ltac by_computation :=
  apply (bool_decide_unpack _); vm_compute; exact I.

(** Bring what the case analysis has learnt about the tests into [H]. *)
Ltac js_known H :=
  repeat match goal with
  | E : ?a = _ |- _ =>
      lazymatch E with H => fail | _ => idtac end;
      lazymatch type of H with context [a] => rewrite E in H end
  end.

(** Open a session record and read its fields in the hypotheses. *)
Ltac open_session s :=
  destruct s;
  cbv [sessionHash sessionId isVerified isClosingAsDuplicate channelClosed
       claimListener posted promise resolveCalls reactionJob checkTimers
       closeTimers documentTitle displayStatus logEntries body
       windowCloseCalls] in *;
  subst.

(* ------------------------------------------------------------------------ *)
(** ** Facts about the message factories                                     *)
(* ------------------------------------------------------------------------ *)

Lemma strict_eq_str_true v s : strict_eq_str v s = true <-> v = Some (VStr s).
Proof. unfold strict_eq_str. apply bool_decide_eq_true. Qed.

Lemma strict_eq_str_false v s : strict_eq_str v s = false <-> v <> Some (VStr s).
Proof. unfold strict_eq_str. apply bool_decide_eq_false. Qed.

(** A message has at most one type. *)
Lemma has_type_unique m a b :
  has_type m a = true -> has_type m b = true -> a = b.
Proof.
  unfold has_type. rewrite !strict_eq_str_true. intros Ha Hb.
  rewrite Ha in Hb. by inversion Hb.
Qed.

Lemma has_type_other m a b : has_type m a = true -> a <> b -> has_type m b = false.
Proof.
  intros Ha Hne. destruct (has_type m b) eqn:Hb; [|done].
  destruct Hne. eapply has_type_unique; eauto.
Qed.

Lemma query_type h q now :
  createHashQueryMessage h q now !! "type"
  = Some (VStr MESSAGE_TYPES.SESSION_HASH_QUERY).
Proof. reflexivity. Qed.

Lemma query_hash h q now : createHashQueryMessage h q now !! "hash" = Some (VStr h).
Proof. reflexivity. Qed.

Lemma query_queryId h q now :
  createHashQueryMessage h q now !! "queryId" = Some (VStr q).
Proof. reflexivity. Qed.

(** The properties of a query object: these four and no other. *)
Lemma query_dom h q now :
  dom (createHashQueryMessage h q now)
  = ({[ "type"; "timestamp"; "hash"; "queryId" ]} : gset string).
Proof. by_computation. Qed.

Lemma query_no_sessionId h q now :
  createHashQueryMessage h q now !! "sessionId" = None.
Proof. reflexivity. Qed.

Lemma claim_type h q sid now :
  createHashClaimMessage h q sid now !! "type"
  = Some (VStr MESSAGE_TYPES.SESSION_HASH_CLAIM).
Proof. destruct q; reflexivity. Qed.

Lemma claim_hash h q sid now :
  createHashClaimMessage h q sid now !! "hash" = Some (VStr h).
Proof. destruct q; reflexivity. Qed.

Lemma claim_queryId h q sid now : createHashClaimMessage h q sid now !! "queryId" = q.
Proof. destruct q; reflexivity. Qed.

Lemma claim_sessionId h q sid now :
  createHashClaimMessage h q sid now !! "sessionId" = Some (VStr sid).
Proof. destruct q; reflexivity. Qed.

Lemma registered_type sid h now :
  createSessionRegisteredMessage sid h now !! "type"
  = Some (VStr MESSAGE_TYPES.SESSION_REGISTERED).
Proof. reflexivity. Qed.

Lemma closed_type sid now :
  createSessionClosedMessage sid now !! "type"
  = Some (VStr MESSAGE_TYPES.SESSION_CLOSED).
Proof. reflexivity. Qed.

(** The claim a verified owner of [h] builds for a query [q] is the one the
    transient listener of that query waits for. *)
Lemma claim_matches h q sid now :
  matches_claim q h (createHashClaimMessage h (Some (VStr q)) sid now) = true.
Proof.
  unfold matches_claim, has_type.
  rewrite claim_type, claim_queryId, claim_hash.
  unfold strict_eq_str. by rewrite !bool_decide_eq_true_2.
Qed.

Lemma matches_claim_false q h m :
  matches_claim q h m = false <->
  has_type m MESSAGE_TYPES.SESSION_HASH_CLAIM = false
  \/ m !! "queryId" <> Some (VStr q)
  \/ m !! "hash" <> Some (VStr h).
Proof.
  unfold matches_claim. rewrite !andb_false_iff, !strict_eq_str_false. tauto.
Qed.

(* ------------------------------------------------------------------------ *)
(** ** What never changes, and what only grows                               *)
(* ------------------------------------------------------------------------ *)

Lemma run_cons now e tr s : run ((now, e) :: tr) s = run tr (step now e s).
Proof. reflexivity. Qed.

Lemma run_app tr1 tr2 s : run (tr1 ++ tr2) s = run tr2 (run tr1 s).
Proof. apply fold_left_app. Qed.

Lemma run_snoc tr now e s : run (tr ++ [(now, e)]) s = step now e (run tr s).
Proof. by rewrite run_app. Qed.

(** The session id is the session hash, from the first state on. *)
Lemma initialize_identity urlHash t0 t1 rnd t2 :
  let s := initialize urlHash t0 t1 rnd t2 in
  sessionHash s = sessionHash_of urlHash t0 /\ sessionId s = sessionHash_of urlHash t0.
Proof. split; reflexivity. Qed.

(** The state in which the module leaves the session. *)
Lemma initialize_checking urlHash t0 t1 rnd t2 :
  Checking (make_queryId t1 rnd) (initialize urlHash t0 t1 rnd t2).
Proof. constructor; reflexivity. Qed.

Lemma initialize_posted urlHash t0 t1 rnd t2 :
  posted (initialize urlHash t0 t1 rnd t2)
  = [createHashQueryMessage (sessionHash_of urlHash t0) (make_queryId t1 rnd) t2].
Proof. reflexivity. Qed.

Lemma initialize_open urlHash t0 t1 rnd t2 :
  channelClosed (initialize urlHash t0 t1 rnd t2) = false.
Proof. reflexivity. Qed.

(* ------------------------------------------------------------------------ *)
(** ** The phases are an invariant                                           *)
(* ------------------------------------------------------------------------ *)

Lemma phase_step q now e s : Phase q s -> Phase q (step now e s).
Proof.
  intros [H|[H|H]]; destruct H; open_session s;
    destruct e; js_exec;
    first [ left; constructor; reflexivity
          | right; left; constructor; reflexivity
          | right; right; constructor; first [reflexivity | cbn; lia] ].
Qed.

Lemma phase_run q tr s : Phase q s -> Phase q (run tr s).
Proof.
  revert s. induction tr as [|[now e] tr IH]; intros s Hs; [done|].
  rewrite run_cons. by apply IH, phase_step.
Qed.

Lemma phase_reachable urlHash t0 t1 rnd t2 tr :
  Phase (make_queryId t1 rnd) (run tr (initialize urlHash t0 t1 rnd t2)).
Proof. apply phase_run. left. apply initialize_checking. Qed.

(** The identity of the session never changes. *)
Lemma step_identity q now e s :
  Phase q s ->
  sessionHash (step now e s) = sessionHash s
  /\ sessionId (step now e s) = sessionId s.
Proof.
  intros [H|[H|H]]; destruct H; open_session s;
    destruct e; js_exec; split; reflexivity.
Qed.

Lemma run_identity q tr s :
  Phase q s ->
  sessionHash (run tr s) = sessionHash s /\ sessionId (run tr s) = sessionId s.
Proof.
  revert s. induction tr as [|[now e] tr IH]; intros s Hs; [done|].
  rewrite run_cons.
  destruct (IH (step now e s)) as [-> ->]; [by apply phase_step|].
  by eapply step_identity.
Qed.

Lemma step_posted_grows q now e s :
  Phase q s ->
  posted (step now e s) = posted s ++ published now e s.
Proof.
  intros Hs. unfold published.
  assert (exists new, posted (step now e s) = posted s ++ new) as [new Hnew].
  { destruct Hs as [H|[H|H]]; destruct H; open_session s;
      destruct e; js_exec;
      first [ by exists [] ; rewrite app_nil_r
            | by eexists [_] ]. }
  rewrite Hnew. by rewrite drop_app_length.
Qed.

(** Once the check has resolved Duplicate it stays so, whatever happens. *)
Lemma duplicate_step now e s : ResolvedDuplicate s -> ResolvedDuplicate (step now e s).
Proof.
  intros H; destruct H; open_session s;
    destruct e; js_exec; constructor; first [reflexivity | cbn; lia].
Qed.


(** A message that the transient listener does not accept leaves the
    handshake where it was. *)
Lemma unmatched_message_step q now m s :
  Phase q s ->
  matches_claim q (sessionHash s) m = false ->
  let s' := step now (EvMessage m) s in
  promise s' = promise s /\ resolveCalls s' = resolveCalls s
  /\ reactionJob s' = reactionJob s /\ claimListener s' = claimListener s
  /\ isVerified s' = isVerified s
  /\ isClosingAsDuplicate s' = isClosingAsDuplicate s
  /\ checkTimers s' = checkTimers s /\ closeTimers s' = closeTimers s
  /\ channelClosed s' = channelClosed s.
Proof.
  intros [H|[H|H]] Hm; destruct H; open_session s;
    unfold matches_claim in Hm; cbv zeta; js_exec;
    try (repeat split; reflexivity);
    js_known Hm; discriminate Hm.
Qed.

Lemma matches_claim_true q h m :
  matches_claim q h m = true <->
  has_type m MESSAGE_TYPES.SESSION_HASH_CLAIM = true
  /\ strict_eq_str (m !! "queryId") q = true
  /\ strict_eq_str (m !! "hash") h = true.
Proof. unfold matches_claim. rewrite !andb_true_iff. tauto. Qed.

(** A message has one type: a claim is not a query. *)
Ltac type_clash :=
  match goal with
  | H1 : has_type ?m ?a = true, H2 : has_type ?m ?b = true |- _ =>
      exfalso; pose proof (has_type_unique m a b H1 H2); discriminate
  end.

(** The first matching claim resolves the check as Duplicate. *)
Lemma matched_claim_step q now m s :
  Checking q s ->
  channelClosed s = false ->
  matches_claim q (sessionHash s) m = true ->
  ResolvedDuplicate (step now (EvMessage m) s).
Proof.
  intros H Hopen Hm; destruct H; open_session s.
  apply matches_claim_true in Hm as (Ht & Hq & Hh).
  js_exec; try type_clash; constructor; first [reflexivity | cbn; lia].
Qed.

(** The timer resolves a check that is still running as Unique. *)
Lemma timeout_step q now s :
  Checking q s -> ResolvedUnique (step now EvCheckTimeout s).
Proof.
  intros H; destruct H; open_session s. js_exec; constructor; reflexivity.
Qed.








(* ------------------------------------------------------------------------ *)
(** ** Everything a session ever publishes                                   *)
(* ------------------------------------------------------------------------ *)

Lemma published_cases q now e s :
  Phase q s -> Publication now e s (published now e s).
Proof.
  intros [H|[H|H]]; destruct H; open_session s; unfold published;
    destruct e; js_exec; rewrite ?drop_app_length, ?drop_all;
    first [ apply pub_nothing
          | match goal with
            | Hh : strict_eq_str _ _ = true |- Publication ?t (EvMessage ?m) ?st _ =>
                apply strict_eq_str_true in Hh;
                exact (pub_claim t _ st m eq_refl eq_refl ltac:(assumption) Hh)
            end
          | by apply pub_registered
          | by apply pub_closed_click
          | by apply pub_closed_unload ].
Qed.


(** Induction over the states a session reaches. *)
Lemma run_ind (P : Session -> Prop) s0 :
  P s0 ->
  (forall now e s, P s -> P (step now e s)) ->
  forall tr, P (run tr s0).
Proof.
  intros H0 Hstep tr. revert s0 H0.
  induction tr as [|[now e] tr IH]; intros s0 H0; [done|].
  rewrite run_cons. by apply IH, Hstep.
Qed.

Lemma unique_step now e s : ResolvedUnique s -> ResolvedUnique (step now e s).
Proof.
  intros H; destruct H; open_session s;
    destruct e; js_exec; constructor; reflexivity.
Qed.

(** Only a session resolved Unique is verified. *)
Lemma verified_is_unique q s : Phase q s -> isVerified s = true -> ResolvedUnique s.
Proof. intros [H|[H|H]] Hv; [destruct H; congruence | done | destruct H; congruence]. Qed.

Lemma unverified_step q now e s :
  Phase q s -> isVerified (step now e s) = false -> isVerified s = false.
Proof.
  intros Hs Hv. destruct (isVerified s) eqn:E; [|done].
  apply (verified_is_unique q) in E; [|done].
  apply (unique_step now e) in E. destruct E. congruence.
Qed.

Lemma never_posted_step q type now e s :
  Phase q s ->
  never_posted type s ->
  Forall (fun m => has_type m type = false) (published now e s) ->
  never_posted type (step now e s).
Proof.
  intros Hs Hn Hp. unfold never_posted.
  rewrite (step_posted_grows q) by done. by apply Forall_app.
Qed.

Lemma silent_step q now e s :
  Phase q s -> silent s -> silent (step now e s).
Proof.
  intros Hs Hsil Hv'.
  pose proof (unverified_step q now e s Hs Hv') as Hv.
  destruct (Hsil Hv) as [Hc Hr].
  pose proof (published_cases q now e s Hs) as Hpub.
  assert (isVerified (step now EvCheckTimeout s) = false -> promise s <> None)
    as Hfired.
  { intros Hu Hp. destruct Hs as [H|[H|H]]; [|destruct H; congruence..].
    apply (timeout_step q now) in H. destruct H. congruence. }
  split; (eapply never_posted_step; [done..|]);
    destruct Hpub as [|m He Hver Ht Hh|He Hp|He|He Hc'];
    first [ by constructor | congruence | subst e; by destruct Hfired
          | by repeat constructor ].
Qed.

Lemma reachable_silent urlHash t0 t1 rnd t2 tr :
  silent (run tr (initialize urlHash t0 t1 rnd t2)).
Proof.
  pose (q := make_queryId t1 rnd).
  enough (Phase q (run tr (initialize urlHash t0 t1 rnd t2))
          /\ silent (run tr (initialize urlHash t0 t1 rnd t2))) by tauto.
  apply run_ind.
  - split; [left; apply initialize_checking|].
    intros _. split; repeat constructor.
  - intros now e s [Hs Hsil]. split; [by apply phase_step|by eapply silent_step].
Qed.

(** Undisturbed traffic keeps the check running as it was. *)
Lemma quiet_step q h tq now e s :
  StillChecking q h tq s ->
  quiet q h (now, e) = true ->
  StillChecking q h tq (step now e s).
Proof.
  intros [Hc Ho Hp Hh Hi] Hq; destruct Hc; open_session s.
  destruct e; try discriminate Hq; cbv [quiet snd matches_claim] in Hq;
    js_exec; try (js_known Hq; discriminate Hq);
    repeat constructor.
Qed.

Lemma quiet_run q h tq tr s :
  StillChecking q h tq s ->
  Forall (fun te => quiet q h te = true) tr ->
  StillChecking q h tq (run tr s).
Proof.
  revert s. induction tr as [|[now e] tr IH]; intros s Hs Hq; [done|].
  rewrite run_cons. inversion Hq; subst. apply IH; [|done].
  by apply quiet_step.
Qed.

Lemma initialize_still_checking urlHash t0 t1 rnd t2 :
  StillChecking (make_queryId t1 rnd) (sessionHash_of urlHash t0) t2
    (initialize urlHash t0 t1 rnd t2).
Proof. repeat constructor. Qed.

(** The timer on an undisturbed check: Unique, verified, registered. *)
Lemma timeout_registers q h tq now s :
  StillChecking q h tq s ->
  let s' := step now EvCheckTimeout s in
  Owner h s'
  /\ posted s' = [createHashQueryMessage h q tq;
                  createSessionRegisteredMessage h h now]
  /\ displayStatus s' = Some (Text.status_active, badge_class true)
  /\ sessionId s' = h.
Proof.
  intros [Hc Ho Hp Hh Hi]; destruct Hc; open_session s. cbv zeta.
  js_exec. repeat constructor.
Qed.

(** A registered owner answers a query for its hash, with the query's id and
    its own session id. *)
Lemma owner_answers h now m s :
  Owner h s ->
  has_type m MESSAGE_TYPES.SESSION_HASH_QUERY = true ->
  m !! "hash" = Some (VStr h) ->
  published now (EvMessage m) s
  = [createHashClaimMessage h (m !! "queryId") (sessionId s) now].
Proof.
  intros [Hu Ho Hh] Ht Hm; destruct Hu; open_session s.
  apply strict_eq_str_true in Hm. unfold published.
  js_exec. by rewrite drop_app_length.
Qed.

(** An unverified session answers no query. *)
Lemma unverified_answers_nothing q now m s :
  Phase q s ->
  isVerified s = false ->
  has_type m MESSAGE_TYPES.SESSION_HASH_QUERY = true ->
  published now (EvMessage m) s = [].
Proof.
  intros Hs Hv Ht.
  destruct (published_cases q now (EvMessage m) s Hs)
    as [|m' He Hver Ht' Hh|He Hp|He|He Hc']; try done; congruence.
Qed.



(** A reachable session that is verified and whose channel is open is an
    owner of its hash. *)
Lemma reachable_owner urlHash t0 t1 rnd t2 tr :
  let s := run tr (initialize urlHash t0 t1 rnd t2) in
  isVerified s = true -> channelClosed s = false -> Owner (sessionHash s) s.
Proof.
  intros s Hv Ho. constructor; [|done..].
  eapply verified_is_unique; [apply phase_reachable|done].
Qed.

(** The dispatcher on a message that is not a query and carries the
    session's own id: nothing happens. *)
Lemma handleMessage_self_echo now m s :
  has_type m MESSAGE_TYPES.SESSION_HASH_QUERY = false ->
  m !! "sessionId" = Some (VStr (sessionId s)) ->
  handleMessage now m s = (Normal tt, s).
Proof.
  intros Ht Hs. apply strict_eq_str_true in Hs.
  cbv [handleMessage bind get]. by rewrite Ht, Hs.
Qed.

Lemma reachable_identity urlHash t0 t1 rnd t2 tr :
  let s := run tr (initialize urlHash t0 t1 rnd t2) in
  sessionHash s = sessionHash_of urlHash t0
  /\ sessionId s = sessionHash_of urlHash t0.
Proof.
  cbv zeta.
  destruct (run_identity (make_queryId t1 rnd) tr
              (initialize urlHash t0 t1 rnd t2)) as [-> ->]; [|done].
  left. apply initialize_checking.
Qed.

(** The transient listener, seen as a function of the state, does nothing on
    a message it does not accept. *)
Lemma handleClaim_unmatched q m s :
  matches_claim q (sessionHash s) m = false ->
  handleClaim q m s = (Normal tt, s).
Proof.
  intros Hm. cbv [handleClaim bind get].
  change (has_type m MESSAGE_TYPES.SESSION_HASH_CLAIM
          && strict_eq_str (m !! "queryId") q
          && strict_eq_str (m !! "hash") (sessionHash s))
    with (matches_claim q (sessionHash s) m).
  by rewrite Hm.
Qed.

(** *** Teardown of a duplicate *)

(** [closeAsDuplicate] raises the flag and posts nothing. *)
Lemma closeAsDuplicate_effect s :
  let s' := snd (closeAsDuplicate s) in
  isClosingAsDuplicate s' = true /\ posted s' = posted s
  /\ channelClosed s' = channelClosed s.
Proof. destruct s. repeat split. Qed.

(** With the flag up, the [beforeunload] listener posts nothing and closes
    the channel. *)
Lemma beforeunload_suppressed now s :
  isClosingAsDuplicate s = true ->
  let s' := snd (beforeunload now s) in
  posted s' = posted s /\ channelClosed s' = true.
Proof.
  intros Hc; open_session s. cbv zeta.
  js_exec_on (beforeunload now
    (mkSession sessionHash0 sessionId0 isVerified0 true channelClosed0
       claimListener0 posted0 promise0 resolveCalls0 reactionJob0 checkTimers0
       closeTimers0 documentTitle0 displayStatus0 logEntries0 body0
       windowCloseCalls0)).
  by split.
Qed.

(** A session resolved Duplicate publishes on no message, timer or unload
    task: only a click on the close button makes it post. *)
Lemma duplicate_silent_unless_clicked now e s :
  ResolvedDuplicate s -> e <> EvCloseClick -> published now e s = [].
Proof.
  intros Hd He.
  destruct (published_cases "" now e s (or_intror (or_intror Hd)))
    as [|m' _ Hver _ _|_ Hp|He'|_ Hc']; try done; destruct Hd; congruence.
Qed.

(** The click does post, while the button is on the page and the channel
    open. *)
Lemma duplicate_click_publishes now s :
  ResolvedDuplicate s -> body s = PageMarkup -> channelClosed s = false ->
  published now EvCloseClick s = [createSessionClosedMessage (sessionId s) now].
Proof.
  intros Hd Hb Ho; destruct Hd; open_session s. unfold published.
  js_exec. by rewrite drop_app_length.
Qed.

(** *** The dispatcher *)

(** The query test of [handleMessage] does not look at [sessionId]. *)
Lemma handleMessage_query_any_sender now m sender s :
  has_type m MESSAGE_TYPES.SESSION_HASH_QUERY = true ->
  handleMessage now (set_prop "sessionId" sender m) s = handleMessage now m s.
Proof.
  intros Ht. unfold handleMessage, has_type in *.
  assert (forall k, k <> "sessionId" ->
            set_prop "sessionId" sender m !! k = m !! k) as Hk.
  { intros k Hne. destruct sender; cbn [set_prop].
    - by rewrite lookup_insert_ne.
    - by rewrite lookup_delete_ne. }
  rewrite !Hk by done. by rewrite Ht.
Qed.

(** A query for the session's hash is answered by a verified session whose
    channel is open, in any state. *)
Lemma handleMessage_answers now m s :
  has_type m MESSAGE_TYPES.SESSION_HASH_QUERY = true ->
  isVerified s = true ->
  channelClosed s = false ->
  m !! "hash" = Some (VStr (sessionHash s)) ->
  posted (snd (handleMessage now m s))
  = posted s ++ [createHashClaimMessage (sessionHash s) (m !! "queryId")
                   (sessionId s) now].
Proof.
  intros Ht Hv Ho Hh. apply strict_eq_str_true in Hh. open_session s.
  js_exec_on (handleMessage now m
    (mkSession sessionHash0 sessionId0 true isClosingAsDuplicate0 false
       claimListener0 posted0 promise0 resolveCalls0 reactionJob0 checkTimers0
       closeTimers0 documentTitle0 displayStatus0 logEntries0 body0
       windowCloseCalls0)).
  reflexivity.
Qed.

(* ======================================================================== *)
(** * The properties                                                         *)
(* ======================================================================== *)

Section Handshake.

(** The inputs of a session: the [hash] parameter of its URL, the three
    clock readings made while the module loads, and the random suffix of
    its query id. *)
Variables (urlHash : option string) (t0 t1 : Z) (rnd : string) (t2 : Z).

Let s0 : Session := initialize urlHash t0 t1 rnd t2.
Let Q : string := make_queryId t1 rnd.
Let H : string := sessionHash_of urlHash t0.


(** C5 (correlation correctness).  In every state the session reaches, a
    delivered message that is not a hash-claim, or whose [queryId] is not
    the one generated locally, or whose [hash] is not the session's hash,
    is not accepted by the transient listener: [handleClaim] returns with
    the state untouched, and after the whole message task the promise,
    the calls to [resolve], the listener and the two flags are what they
    were. *)
Theorem correlation_correctness (tr : list (Z * Event)) (now : Z) (m : Message) :
  let s := run tr s0 in
  has_type m MESSAGE_TYPES.SESSION_HASH_CLAIM = false
  \/ m !! "queryId" <> Some (VStr Q)
  \/ m !! "hash" <> Some (VStr H) ->
  handleClaim Q m s = (Normal tt, s)
  /\ let s' := step now (EvMessage m) s in
     promise s' = promise s
     /\ resolveCalls s' = resolveCalls s
     /\ claimListener s' = claimListener s
     /\ isVerified s' = isVerified s
     /\ isClosingAsDuplicate s' = isClosingAsDuplicate s.
Proof.
  intros s Hm. apply matches_claim_false in Hm.
  destruct (reachable_identity urlHash t0 t1 rnd t2 tr) as [Hh _].
  fold s0 s H in Hh. rewrite <- Hh in Hm.
  split; [by apply handleClaim_unmatched|].
  pose proof (phase_reachable urlHash t0 t1 rnd t2 tr) as Hs. fold s0 s in Hs.
  destruct (unmatched_message_step _ now m s Hs Hm)
    as (? & ? & ? & ? & ? & ? & ?).
  cbv zeta. tauto.
Qed.

(** C3 (unregistered silence).  In every state the session reaches: a
    task publishes a hash-claim only when [isVerified] is true and the
    task is the delivery of a hash-query whose hash is the session's own;
    as long as [isVerified] is false no hash-claim has ever been posted;
    and [isVerified] is true only once the session's own check has
    resolved Unique. *)
Theorem unregistered_silence (tr : list (Z * Event)) :
  let s := run tr s0 in
  (forall now e c,
      c ∈ published now e s ->
      has_type c MESSAGE_TYPES.SESSION_HASH_CLAIM = true ->
      isVerified s = true
      /\ exists m, e = EvMessage m
           /\ has_type m MESSAGE_TYPES.SESSION_HASH_QUERY = true
           /\ m !! "hash" = Some (VStr (sessionHash s)))
  /\ (isVerified s = false -> never_posted MESSAGE_TYPES.SESSION_HASH_CLAIM s)
  /\ (isVerified s = true -> promise s = Some true).
Proof.
  intros s.
  pose proof (phase_reachable urlHash t0 t1 rnd t2 tr) as Hs. fold s0 s in Hs.
  split; [|split].
  - intros now e c Hin Hc.
    destruct (published_cases _ now e s Hs) as [|m He Hver Ht Hh|He Hp|He|He Hc'].
    + by apply elem_of_nil in Hin.
    + split; [done|]. by exists m.
    + apply list_elem_of_singleton in Hin. subst c. discriminate Hc.
    + apply list_elem_of_singleton in Hin. subst c. discriminate Hc.
    + apply list_elem_of_singleton in Hin. subst c. discriminate Hc.
  - intros Hv. by apply (reachable_silent urlHash t0 t1 rnd t2 tr).
  - intros Hv. apply (verified_is_unique _ _ Hs) in Hv. by destruct Hv.
Qed.


(** C9 (a hash-query carries no session id).  The object built by
    [createHashQueryMessage] has exactly the properties [type],
    [timestamp], [hash] and [queryId]; its [sessionId] is undefined, so
    the comparison [msgData.sessionId === sessionId] is false for every
    session.  The session's own query, were it delivered back to it, is
    left unanswered while its check is running, because [isVerified] is
    false; the same message delivered once the session is verified (and
    its channel open) is answered with a claim. *)
Theorem query_has_no_sender (tr : list (Z * Event)) (now : Z) :
  let query := createHashQueryMessage H Q t2 in
  let s := run tr s0 in
  posted s0 = [query]
  /\ dom query = ({[ "type"; "timestamp"; "hash"; "queryId" ]} : gset string)
  /\ query !! "sessionId" = None
  /\ (forall s1 : Session,
        strict_eq_str (query !! "sessionId") (sessionId s1) = false)
  /\ (promise s = None ->
      isVerified s = false /\ published now (EvMessage query) s = [])
  /\ (isVerified s = true -> channelClosed s = false ->
      published now (EvMessage query) s
      = [createHashClaimMessage H (Some (VStr Q)) H now]).
Proof.
  intros query s.
  pose proof (phase_reachable urlHash t0 t1 rnd t2 tr) as Hs. fold s0 s Q in Hs.
  destruct (reachable_identity urlHash t0 t1 rnd t2 tr) as [Hh Hi].
  fold s0 s H in Hh, Hi.
  split; [done|]. split; [apply query_dom|]. split; [done|]. split; [done|].
  split.
  - intros Hp.
    assert (isVerified s = false) as Hv.
    { destruct Hs as [[]|[[]|[]]]; congruence. }
    split; [done|]. by eapply unverified_answers_nothing.
  - intros Hv Ho.
    pose proof (reachable_owner urlHash t0 t1 rnd t2 tr Hv Ho) as Hown.
    fold s0 s in Hown. rewrite Hh in Hown.
    rewrite (owner_answers H now query s Hown); [|done..].
    by rewrite Hi.
Qed.

(** *** Two sessions on one hash *)

Section WithOwner.

(** A second session, the owner, with its own inputs and history.  It is
    verified, its channel is open and its hash is the checker's. *)
Variables (ownerUrl : option string) (a0 a1 : Z) (ownerRnd : string) (a2 : Z).
Variable trA : list (Z * Event).

Let A : Session := run trA (initialize ownerUrl a0 a1 ownerRnd a2).

Hypothesis A_verified : isVerified A = true.
Hypothesis A_open : channelClosed A = false.
Hypothesis A_hash : sessionHash A = H.


(** C8 (the resolving claim carries the checker's own id).  The claim
    the owner publishes for the checker's query carries a session id
    equal to the checker's; the checker's dispatcher treats it as one of
    its own messages and does nothing; the transient listener, which
    does not look at the sender, resolves the check as Duplicate on it,
    as it does on any message with the awaited type, query id and hash
    whatever its [sessionId] property. *)
Theorem claim_carries_checker_id (ta tb : Z) (pre : list (Z * Event)) :
  let query := createHashQueryMessage H Q t2 in
  let claim := createHashClaimMessage H (Some (VStr Q)) (sessionId A) ta in
  let B := run pre s0 in
  Forall (fun te => quiet Q H te = true) pre ->
  published ta (EvMessage query) A = [claim]
  /\ sessionId A = sessionHash A
  /\ sessionId B = sessionHash B
  /\ claim !! "sessionId" = Some (VStr (sessionId B))
  /\ handleMessage tb claim B = (Normal tt, B)
  /\ promise B = None
  /\ promise (step tb (EvMessage claim) B) = Some false
  /\ (forall (m : Message) (sender : option JsVal),
        matches_claim Q H m = true ->
        promise (step tb (EvMessage (set_prop "sessionId" sender m)) B)
        = Some false).
Proof.
  intros query claim B Hpre.
  pose proof (reachable_owner ownerUrl a0 a1 ownerRnd a2 trA A_verified A_open)
    as Hown.
  fold A in Hown. rewrite A_hash in Hown.
  destruct (reachable_identity ownerUrl a0 a1 ownerRnd a2 trA) as [HhA HiA].
  fold A in HhA, HiA.
  destruct (reachable_identity urlHash t0 t1 rnd t2 pre) as [HhB HiB].
  fold s0 B H in HhB, HiB.
  pose proof (quiet_run Q H t2 pre s0
                (initialize_still_checking urlHash t0 t1 rnd t2) Hpre) as Hrun.
  fold B in Hrun. destruct Hrun as [Hc Ho _ Hh _].
  assert (claim !! "sessionId" = Some (VStr (sessionId B))) as Hsid.
  { unfold claim. rewrite claim_sessionId, HiA, HiB.
    rewrite <- HhA, A_hash. done. }
  split; [by apply owner_answers|].
  split; [congruence|]. split; [congruence|]. split; [done|].
  split; [by apply handleMessage_self_echo|].
  split; [by destruct Hc|].
  split.
  - assert (ResolvedDuplicate (step tb (EvMessage claim) B)) as [? ? ? ? ? ? ? ? ?].
    { apply (matched_claim_step Q); [done..|]. rewrite Hh. apply claim_matches. }
    done.
  - intros m sender Hm.
    assert (ResolvedDuplicate
              (step tb (EvMessage (set_prop "sessionId" sender m)) B))
      as [? ? ? ? ? ? ? ? ?]; [|done].
    apply (matched_claim_step Q); [done..|]. rewrite Hh.
    apply matches_claim_true in Hm as (Ht & Hq & Hhash).
    apply matches_claim_true. unfold has_type in *.
    destruct sender; cbn [set_prop].
    + rewrite !lookup_insert_ne by done. done.
    + rewrite !lookup_delete_ne by done. done.
Qed.

End WithOwner.

End Handshake.

(* ------------------------------------------------------------------------ *)
(** ** The dispatcher and the sender's identity                              *)
(* ------------------------------------------------------------------------ *)

(** C4, as the code has it (self-echo filtering comes after the query
    test).  For a message that is not a hash-query, [handleMessage] ignores
    it when its [sessionId] is the session's own: nothing is posted, logged
    or changed.  A hash-query is handled before that comparison is made: it
    is handled the same whatever [sessionId] it carries, and a verified
    session with an open channel answers it when its hash is the session's
    hash. *)
Theorem self_echo_filter_follows_query_dispatch
    (now : Z) (m : Message) (s : Session) :
  (has_type m MESSAGE_TYPES.SESSION_HASH_QUERY = false ->
   m !! "sessionId" = Some (VStr (sessionId s)) ->
   handleMessage now m s = (Normal tt, s))
  /\ (has_type m MESSAGE_TYPES.SESSION_HASH_QUERY = true ->
      forall sender : option JsVal,
        handleMessage now (set_prop "sessionId" sender m) s
        = handleMessage now m s)
  /\ (has_type m MESSAGE_TYPES.SESSION_HASH_QUERY = true ->
      isVerified s = true ->
      channelClosed s = false ->
      m !! "hash" = Some (VStr (sessionHash s)) ->
      posted (snd (handleMessage now m s))
      = posted s ++ [createHashClaimMessage (sessionHash s) (m !! "queryId")
                       (sessionId s) now]).
Proof.
  split; [|split].
  - apply handleMessage_self_echo.
  - intros Ht sender. by apply handleMessage_query_any_sender.
  - apply handleMessage_answers.
Qed.

(** C4 as stated fails: a verified session whose id is "abc" receives a
    hash-query for "abc" that carries [sessionId: "abc"]; the message is not
    ignored, the session answers it with a claim. *)
Lemma self_echo_query_is_answered :
  let s := run [(1300, EvCheckTimeout)]
             (initialize (Some "abc") 1000 1001 "k3j2h1x" 1002) in
  let m := <["sessionId" := VStr "abc"]>
             (createHashQueryMessage "abc" "query-2000-zzzzzzz" 2000) in
  m !! "sessionId" = Some (VStr (sessionId s))
  /\ has_type m MESSAGE_TYPES.SESSION_HASH_QUERY = true
  /\ posted (snd (handleMessage 2001 m s))
     = posted s ++ [createHashClaimMessage "abc"
                      (Some (VStr "query-2000-zzzzzzz")) "abc" 2001]
  /\ handleMessage 2001 m s <> (Normal tt, s).
Proof.
  intros s m. split; [by_computation|]. split; [by_computation|].
  split; by_computation.
Qed.

Lemma self_echo_filter_follows_query_dispatch_witness :
  let s := run [(1300, EvCheckTimeout)]
             (initialize (Some "abc") 1000 1001 "k3j2h1x" 1002) in
  let m := createSessionClosedMessage "abc" 2000 in
  handleMessage 2001 m s = (Normal tt, s).
Proof.
  intros s m.
  destruct (self_echo_filter_follows_query_dispatch 2001 m s) as (Hecho & _ & _).
  apply Hecho; by_computation.
Defined.

(* ------------------------------------------------------------------------ *)
(** ** A duplicate and the close button                                      *)
(* ------------------------------------------------------------------------ *)

(** C7 at the failing input.  The session for "abc" receives the claim that
    answers its query and resolves Duplicate: [closeAsDuplicate] has set
    [isClosingAsDuplicate] and posted nothing.  The close button is clicked
    before the 500 ms timer fires: [closeSession] posts session-closed for a
    session that never registered. *)
Theorem duplicate_close_click_posts_session_closed :
  let checker := initialize (Some "abc") 1000 1001 "k3j2h1x" 1002 in
  let claim := createHashClaimMessage "abc"
                 (Some (VStr "query-1001-k3j2h1x")) "abc" 1100 in
  let dup := step 1100 (EvMessage claim) checker in
  let s := step 1200 EvCloseClick dup in
  promise dup = Some false
  /\ isClosingAsDuplicate dup = true
  /\ posted dup = posted checker
  /\ closeTimers dup = 1%nat
  /\ posted s = posted dup ++ [createSessionClosedMessage "abc" 1200]
  /\ ~ never_posted MESSAGE_TYPES.SESSION_CLOSED s.
Proof.
  intros checker claim dup s.
  repeat (split; [by_computation|]).
  intros Hn.
  assert (posted s = posted dup ++ [createSessionClosedMessage "abc" 1200]) as Hp
    by by_computation.
  unfold never_posted in Hn. rewrite Hp in Hn.
  apply Forall_app in Hn as [_ Hn]. inversion Hn as [|? ? Hc _]; subst.
  discriminate Hc.
Qed.

(** C10 at the failing input.  A session opened without a [hash] parameter
    at clock reading 1000 contests "session-1000"; a claim for its query
    resolves it Duplicate.  No further message, timer or unload makes it
    publish, but the click on the close button does: the task publishes a
    message, so the session is not silent from the resolution on. *)
Theorem duplicate_publishes_on_close_click :
  let checker := initialize None 1000 1001 "k3j2h1x" 1002 in
  let claim := createHashClaimMessage "session-1000"
                 (Some (VStr "query-1001-k3j2h1x")) "session-1000" 1100 in
  let dup := step 1100 (EvMessage claim) checker in
  promise dup = Some false
  /\ isVerified dup = false
  /\ published 1100 (EvMessage claim) checker = []
  /\ published 1200 EvCloseClick dup
     = [createSessionClosedMessage "session-1000" 1200]
  /\ published 1200 EvBeforeUnload dup = []
  /\ published 1200 EvCheckTimeout dup = [].
Proof.
  intros checker claim dup. repeat apply conj; by_computation.
Qed.

(* ------------------------------------------------------------------------ *)
(** ** Scenarios                                                             *)
(* ------------------------------------------------------------------------ *)

(** Hash "abc", no prior session: Unique at the timer, then one
    session-registered message with hash "abc". *)
Example scenario_alone :
  let s := run [(1301, EvCheckTimeout)]
             (initialize (Some "abc") 1000 1001 "k3j2h1x" 1002) in
  promise s = Some true
  /\ posted s = [createHashQueryMessage "abc" "query-1001-k3j2h1x" 1002;
                 createSessionRegisteredMessage "abc" "abc" 1301]
  /\ logEntries s
     = [("Session initialized with hash: abc", "info");
        ("Session registered", "success");
        ("No duplicate found. This session is unique.", "success");
        ("Checking for existing session with hash: abc", "info")].
Proof. repeat apply conj; by_computation. Qed.

(** X is registered for "abc"; Y starts a check for "abc": X answers with a
    claim carrying Y's query id and X's session id; Y resolves Duplicate and
    posts nothing more, also when its own timer fires later. *)
Example scenario_duplicate :
  let X := run [(402, EvCheckTimeout)]
             (initialize (Some "abc") 100 101 "aaaaaaa" 102) in
  let Y := initialize (Some "abc") 1000 1001 "k3j2h1x" 1002 in
  let query := createHashQueryMessage "abc" "query-1001-k3j2h1x" 1002 in
  let claim := createHashClaimMessage "abc"
                 (Some (VStr "query-1001-k3j2h1x")) "abc" 1003 in
  let Y' := run [(1004, EvMessage claim); (1302, EvCheckTimeout);
                 (1504, EvCloseTimeout); (1505, EvBeforeUnload)] Y in
  posted Y = [query]
  /\ published 1003 (EvMessage query) X = [claim]
  /\ promise Y' = Some false /\ resolveCalls Y' = [false]
  /\ isVerified Y' = false /\ posted Y' = [query]
  /\ channelClosed Y' = true /\ body Y' = DuplicateNotice "abc".
Proof. repeat apply conj; by_computation. Qed.

(** X is registered for "abc"; Z asks for "xyz": X does not answer. *)
Example scenario_other_hash :
  let X := run [(402, EvCheckTimeout)]
             (initialize (Some "abc") 100 101 "aaaaaaa" 102) in
  let Z := initialize (Some "xyz") 1000 1001 "k3j2h1x" 1002 in
  posted Z = [createHashQueryMessage "xyz" "query-1001-k3j2h1x" 1002]
  /\ published 1003
       (EvMessage (createHashQueryMessage "xyz" "query-1001-k3j2h1x" 1002)) X
     = [].
Proof. repeat apply conj; by_computation. Qed.

(** Two claims for one query: the second is not even logged. *)
Example scenario_two_claims :
  let Y := initialize (Some "abc") 1000 1001 "k3j2h1x" 1002 in
  let claim := createHashClaimMessage "abc"
                 (Some (VStr "query-1001-k3j2h1x")) "abc" 1003 in
  let once := run [(1004, EvMessage claim)] Y in
  let twice := run [(1004, EvMessage claim); (1005, EvMessage claim)] Y in
  resolveCalls twice = [false]
  /\ logEntries twice = logEntries once
  /\ closeTimers twice = 1%nat.
Proof. repeat apply conj; by_computation. Qed.

(* ------------------------------------------------------------------------ *)
(** ** The properties at work on one scenario                                *)
(* ------------------------------------------------------------------------ *)

(** The owner was opened on [?hash=abc] at clock reading 100 and its timer
    fired at 402.  The checker is opened on the same hash at 1000; its query
    id is [make_queryId 1001 "k3j2h1x"], that is "query-1001-k3j2h1x". *)



Lemma unregistered_silence_witness :
  let query := createHashQueryMessage (sessionHash_of (Some "abc") 1000)
                 (make_queryId 1001 "k3j2h1x") 1002 in
  let s := run [(1010, EvMessage query)]
             (initialize (Some "abc") 1000 1001 "k3j2h1x" 1002) in
  never_posted MESSAGE_TYPES.SESSION_HASH_CLAIM s.
Proof.
  intros query s.
  destruct (unregistered_silence (Some "abc") 1000 1001 "k3j2h1x" 1002
              [(1010, EvMessage query)])
    as (_ & Hsilent & _).
  apply Hsilent. by_computation.
Defined.

Lemma correlation_correctness_witness :
  let other := createHashClaimMessage (sessionHash_of (Some "abc") 1000)
                 (Some (VStr (make_queryId 1001 "0000000"))) "abc" 1050 in
  let s := run [] (initialize (Some "abc") 1000 1001 "k3j2h1x" 1002) in
  handleClaim (make_queryId 1001 "k3j2h1x") other s = (Normal tt, s)
  /\ promise (step 1060 (EvMessage other) s) = promise s.
Proof.
  intros other s.
  destruct (correlation_correctness (Some "abc") 1000 1001 "k3j2h1x" 1002
              [] 1060 other)
    as (Hlistener & Hp & _).
  - right; left. by_computation.
  - exact (conj Hlistener Hp).
Defined.


Lemma claim_carries_checker_id_witness :
  let A := run [(402, EvCheckTimeout)]
             (initialize (Some "abc") 100 101 "aaaaaaa" 102) in
  let claim := createHashClaimMessage (sessionHash_of (Some "abc") 1000)
                 (Some (VStr (make_queryId 1001 "k3j2h1x"))) (sessionId A) 1050 in
  let B := run [] (initialize (Some "abc") 1000 1001 "k3j2h1x" 1002) in
  claim !! "sessionId" = Some (VStr (sessionId B))
  /\ handleMessage 1060 claim B = (Normal tt, B)
  /\ promise (step 1060 (EvMessage claim) B) = Some false.
Proof.
  intros A claim B.
  destruct (claim_carries_checker_id (Some "abc") 1000 1001 "k3j2h1x" 1002
              (Some "abc") 100 101 "aaaaaaa" 102 [(402, EvCheckTimeout)]
              ltac:(by_computation) ltac:(by_computation) ltac:(by_computation)
              1050 1060 [] ltac:(by_computation))
    as (_ & _ & _ & Hsid & Hecho & _ & Hdup & _).
  exact (conj Hsid (conj Hecho Hdup)).
Defined.

Lemma query_has_no_sender_witness :
  let query := createHashQueryMessage (sessionHash_of (Some "abc") 1000)
                 (make_queryId 1001 "k3j2h1x") 1002 in
  let checking := run [] (initialize (Some "abc") 1000 1001 "k3j2h1x" 1002) in
  let verified := run [(1301, EvCheckTimeout)]
                    (initialize (Some "abc") 1000 1001 "k3j2h1x" 1002) in
  published 1010 (EvMessage query) checking = []
  /\ published 1400 (EvMessage query) verified
     = [createHashClaimMessage (sessionHash_of (Some "abc") 1000)
          (Some (VStr (make_queryId 1001 "k3j2h1x")))
          (sessionHash_of (Some "abc") 1000) 1400].
Proof.
  intros query checking verified. split.
  - destruct (query_has_no_sender (Some "abc") 1000 1001 "k3j2h1x" 1002 [] 1010)
      as (_ & _ & _ & _ & Hflight & _).
    destruct Hflight as [_ Hnone]; [by_computation|]. exact Hnone.
  - destruct (query_has_no_sender (Some "abc") 1000 1001 "k3j2h1x" 1002
                [(1301, EvCheckTimeout)] 1400)
      as (_ & _ & _ & _ & _ & Hanswered).
    apply Hanswered; by_computation.
Defined.

(* ======================================================================== *)
(** * Further properties of the session page                                 *)
(* ======================================================================== *)

(** ** What the outbox of a session looks like *)

Lemma claim_has_no_other_type h q sid now type :
  type <> MESSAGE_TYPES.SESSION_HASH_CLAIM ->
  has_type (createHashClaimMessage h q sid now) type = false.
Proof.
  intros Hne. apply (has_type_other _ MESSAGE_TYPES.SESSION_HASH_CLAIM); [|done].
  unfold has_type. rewrite claim_type. by apply strict_eq_str_true.
Qed.

Lemma closed_has_type sid now type :
  has_type (createSessionClosedMessage sid now) type
  = bool_decide (type = MESSAGE_TYPES.SESSION_CLOSED).
Proof.
  unfold has_type, strict_eq_str. rewrite closed_type.
  apply bool_decide_ext. split; congruence.
Qed.

Lemma registered_has_type sid h now type :
  has_type (createSessionRegisteredMessage sid h now) type
  = bool_decide (type = MESSAGE_TYPES.SESSION_REGISTERED).
Proof.
  unfold has_type, strict_eq_str. rewrite registered_type.
  apply bool_decide_ext. split; congruence.
Qed.

Lemma query_has_type h q now type :
  has_type (createHashQueryMessage h q now) type
  = bool_decide (type = MESSAGE_TYPES.SESSION_HASH_QUERY).
Proof.
  unfold has_type, strict_eq_str. rewrite query_type.
  apply bool_decide_ext. split; congruence.
Qed.

Lemma count_posted_step q type now e s :
  Phase q s ->
  count_posted type (step now e s)
  = (count_posted type s
     + List.length (List.filter (fun m => has_type m type) (published now e s)))%nat.
Proof.
  intros Hs. unfold count_posted.
  rewrite (step_posted_grows q) by done.
  by rewrite List.filter_app, length_app.
Qed.

(** A closed channel stays closed, and nothing more is posted on it. *)
Lemma closed_step q now e s :
  Phase q s ->
  channelClosed s = true ->
  channelClosed (step now e s) = true /\ posted (step now e s) = posted s.
Proof.
  intros [Hp|[Hp|Hp]] Hc; destruct Hp; open_session s;
    destruct e; js_exec; by split.
Qed.

Lemma singleton_same_type (m1 m2 : Message) :
  [m1] = [m2] -> m1 !! "type" = m2 !! "type".
Proof. intros Heq. by inversion Heq. Qed.

(** A task that posts session-closed finds the channel open and leaves it
    closed. *)
Lemma closed_message_closes q now e s :
  Phase q s ->
  published now e s = [createSessionClosedMessage (sessionId s) now] ->
  channelClosed s = false /\ channelClosed (step now e s) = true.
Proof.
  intros [Hp|[Hp|Hp]]; destruct Hp; open_session s; unfold published;
    destruct e; js_exec; rewrite ?drop_app_length, ?drop_all;
    intros Hpub; try discriminate Hpub; try (by split);
    apply singleton_same_type in Hpub;
    rewrite closed_type, ?claim_type, ?registered_type in Hpub;
    discriminate Hpub.
Qed.

Lemma open_step q now e s :
  Phase q s -> channelClosed (step now e s) = false -> channelClosed s = false.
Proof.
  intros Hs Ho. destruct (channelClosed s) eqn:Hc; [|done].
  destruct (closed_step q now e s Hs Hc). congruence.
Qed.

Lemma session_closed_count_step q now e s :
  Phase q s ->
  (count_posted MESSAGE_TYPES.SESSION_CLOSED s <= 1)%nat
  /\ (channelClosed s = false -> count_posted MESSAGE_TYPES.SESSION_CLOSED s = 0%nat) ->
  (count_posted MESSAGE_TYPES.SESSION_CLOSED (step now e s) <= 1)%nat
  /\ (channelClosed (step now e s) = false ->
      count_posted MESSAGE_TYPES.SESSION_CLOSED (step now e s) = 0%nat).
Proof.
  intros Hs [Hle Hopen].
  rewrite (count_posted_step q) by done.
  pose proof (open_step q now e s Hs) as Hback.
  pose proof (closed_message_closes q now e s Hs) as Hcl.
  destruct (published_cases q now e s Hs) as [|m He Hver Ht Hh|He Hp|He|He Hc'];
    cbn [List.filter List.length];
    rewrite ?claim_has_no_other_type, ?closed_has_type, ?registered_has_type
      by done;
    rewrite ?bool_decide_eq_true_2, ?bool_decide_eq_false_2 by done;
    cbn [List.filter List.length]; rewrite ?Nat.add_0_r.
  - split; [done|]. intros Ho. by apply Hopen, Hback.
  - split; [done|]. intros Ho. by apply Hopen, Hback.
  - split; [done|]. intros Ho. by apply Hopen, Hback.
  - destruct (Hcl eq_refl) as [Ho Hc]. rewrite (Hopen Ho).
    split; [cbn; lia|]. congruence.
  - destruct (Hcl eq_refl) as [Ho Hc]. rewrite (Hopen Ho).
    split; [cbn; lia|]. congruence.
Qed.

(** X1 (session-closed at most once).  Over every run of a session, the
    close button and [beforeunload] together publish session-closed at most
    once: whichever posts it closes the channel right after, and the other
    then throws on the closed channel before anything is sent.  While the
    channel is open no session-closed has been posted. *)
Theorem session_closed_at_most_once
    (urlHash : option string) (t0 t1 : Z) (rnd : string) (t2 : Z)
    (tr : list (Z * Event)) :
  let s := run tr (initialize urlHash t0 t1 rnd t2) in
  (count_posted MESSAGE_TYPES.SESSION_CLOSED s <= 1)%nat
  /\ (channelClosed s = false ->
      count_posted MESSAGE_TYPES.SESSION_CLOSED s = 0%nat).
Proof.
  cbv zeta.
  enough (Phase (make_queryId t1 rnd) (run tr (initialize urlHash t0 t1 rnd t2))
          /\ ((count_posted MESSAGE_TYPES.SESSION_CLOSED
                 (run tr (initialize urlHash t0 t1 rnd t2)) <= 1)%nat
              /\ (channelClosed (run tr (initialize urlHash t0 t1 rnd t2)) = false ->
                  count_posted MESSAGE_TYPES.SESSION_CLOSED
                    (run tr (initialize urlHash t0 t1 rnd t2)) = 0%nat)))
    by tauto.
  apply run_ind.
  - split; [left; apply initialize_checking|].
    unfold count_posted. rewrite initialize_posted. cbn [List.filter].
    rewrite query_has_type, bool_decide_eq_false_2 by done. cbn. split; [lia|done].
  - intros now e s [Hs Hinv]. split; [by apply phase_step|].
    by apply (session_closed_count_step (make_queryId t1 rnd)).
Qed.

(** The only task that shows the status Active is the one that publishes
    session-registered; apart from it the status changes only to the
    duplicate one, and only in a session that is not verified. *)
Lemma status_step q now e s :
  Phase q s ->
  let s' := step now e s in
  (promise s = None /\ isVerified s' = true
   /\ published now e s
      = [createSessionRegisteredMessage (sessionId s) (sessionHash s) now]
   /\ displayStatus s' = Some (Text.status_active, badge_class true))
  \/ (List.filter (fun m => has_type m MESSAGE_TYPES.SESSION_REGISTERED)
        (published now e s) = []
      /\ (displayStatus s' = displayStatus s
          \/ (isVerified s = false
              /\ displayStatus s'
                 = Some (Text.status_duplicate, badge_class false)))).
Proof.
  intros [Hp|[Hp|Hp]]; destruct Hp; open_session s; unfold published; cbv zeta;
    destruct e; js_exec; rewrite ?drop_app_length, ?drop_all;
    first
      [ left; repeat apply conj; reflexivity
      | right; split;
        [ cbn [List.filter];
          rewrite ?claim_has_no_other_type, ?closed_has_type by done;
          rewrite ?bool_decide_eq_false_2 by done; reflexivity
        | first [ left; reflexivity | right; split; reflexivity ] ] ].
Qed.

(** The badge and the outbox agree: either the status is Active, the session
    is verified and one session-registered is out, or the status is another
    one and no session-registered was ever posted. *)
Lemma badge_invariant urlHash t0 t1 rnd t2 tr :
  let s := run tr (initialize urlHash t0 t1 rnd t2) in
  (displayStatus s = Some (Text.status_active, badge_class true)
   /\ isVerified s = true
   /\ count_posted MESSAGE_TYPES.SESSION_REGISTERED s = 1%nat)
  \/ (displayStatus s <> Some (Text.status_active, badge_class true)
      /\ count_posted MESSAGE_TYPES.SESSION_REGISTERED s = 0%nat).
Proof.
  cbv zeta. set (q := make_queryId t1 rnd).
  enough (Phase q (run tr (initialize urlHash t0 t1 rnd t2))
          /\ ((displayStatus (run tr (initialize urlHash t0 t1 rnd t2))
               = Some (Text.status_active, badge_class true)
               /\ isVerified (run tr (initialize urlHash t0 t1 rnd t2)) = true
               /\ count_posted MESSAGE_TYPES.SESSION_REGISTERED
                    (run tr (initialize urlHash t0 t1 rnd t2)) = 1%nat)
              \/ (displayStatus (run tr (initialize urlHash t0 t1 rnd t2))
                  <> Some (Text.status_active, badge_class true)
                  /\ count_posted MESSAGE_TYPES.SESSION_REGISTERED
                       (run tr (initialize urlHash t0 t1 rnd t2)) = 0%nat)))
    by tauto.
  apply run_ind.
  - split; [left; apply initialize_checking|]. right. split; [by vm_compute|].
    unfold count_posted. rewrite initialize_posted. cbn [List.filter].
    by rewrite query_has_type, bool_decide_eq_false_2.
  - intros now e s [Hs Hinv]. split; [by apply phase_step|].
    rewrite (count_posted_step q) by done.
    destruct (status_step q now e s Hs)
      as [(Hp & Hv' & Hpub & Hst)|(Hnone & Hst)].
    + left. split; [done|]. split; [done|].
      rewrite Hpub. cbn [List.filter].
      rewrite registered_has_type, bool_decide_eq_true_2 by done.
      destruct Hinv as [(_ & Hv & _)|(_ & ->)]; [|done].
      apply (verified_is_unique q) in Hv; [|done]. destruct Hv. congruence.
    + rewrite Hnone. cbn [List.length]. rewrite Nat.add_0_r.
      destruct Hinv as [(Ha & Hv & Hc)|(Hna & Hc)].
      * left. split; [|split; [|done]].
        -- destruct Hst as [->|[Hnv _]]; [done|congruence].
        -- apply (verified_is_unique q) in Hv; [|done].
           by destruct (unique_step now e s Hv).
      * right. split; [|done].
        destruct Hst as [->|[_ ->]]; [done|]. by vm_compute.
Qed.

(** X2 (the badge tells the truth).  In every state a session reaches, the
    status badge reads Active exactly when the session has published its
    session-registered message, and that message is published at most
    once.  In particular a session whose channel was closed before its
    timer fired is verified but never shows Active. *)
Theorem status_active_iff_registered
    (urlHash : option string) (t0 t1 : Z) (rnd : string) (t2 : Z)
    (tr : list (Z * Event)) :
  let s := run tr (initialize urlHash t0 t1 rnd t2) in
  (count_posted MESSAGE_TYPES.SESSION_REGISTERED s <= 1)%nat
  /\ (displayStatus s = Some (Text.status_active, badge_class true)
      <-> count_posted MESSAGE_TYPES.SESSION_REGISTERED s = 1%nat).
Proof.
  cbv zeta.
  destruct (badge_invariant urlHash t0 t1 rnd t2 tr)
    as [(Ha & _ & Hc)|(Hna & Hc)]; rewrite Hc.
  - split; [lia|]. by split.
  - split; [lia|]. split; [done|lia].
Qed.

(** No task publishes a hash-query: the only one is posted while the module
    loads. *)
Lemma no_query_published q now e s :
  Phase q s ->
  Forall (fun m => has_type m MESSAGE_TYPES.SESSION_HASH_QUERY = false)
    (published now e s).
Proof.
  intros Hs.
  destruct (published_cases q now e s Hs) as [|m He Hver Ht Hh|He Hp|He|He Hc'];
    repeat constructor.
  by apply claim_has_no_other_type.
Qed.

(** X3 (one query, sent first).  Everything a session ever posts starts with
    the hash-query of its own check, carrying its hash and query id, and no
    second hash-query follows, whatever the session goes through. *)
Theorem query_is_posted_once_and_first
    (urlHash : option string) (t0 t1 : Z) (rnd : string) (t2 : Z)
    (tr : list (Z * Event)) :
  let s := run tr (initialize urlHash t0 t1 rnd t2) in
  exists rest : list Message,
    posted s
    = createHashQueryMessage (sessionHash_of urlHash t0) (make_queryId t1 rnd) t2
      :: rest
    /\ Forall (fun m => has_type m MESSAGE_TYPES.SESSION_HASH_QUERY = false) rest
    /\ count_posted MESSAGE_TYPES.SESSION_HASH_QUERY s = 1%nat.
Proof.
  cbv zeta. set (q := make_queryId t1 rnd).
  set (query := createHashQueryMessage (sessionHash_of urlHash t0) q t2).
  enough (Phase q (run tr (initialize urlHash t0 t1 rnd t2))
          /\ exists rest,
               posted (run tr (initialize urlHash t0 t1 rnd t2)) = query :: rest
               /\ Forall (fun m => has_type m MESSAGE_TYPES.SESSION_HASH_QUERY = false)
                    rest) as [_ (rest & Hp & Hrest)].
  { exists rest. split; [done|]. split; [done|].
    unfold count_posted. rewrite Hp. cbn [List.filter].
    unfold query. rewrite query_has_type, bool_decide_eq_true_2 by done.
    cbn [List.length]. f_equal.
    clear Hp. induction Hrest as [|m rest Hm _ IH]; [done|].
    cbn [List.filter]. by rewrite Hm. }
  apply run_ind.
  - split; [left; apply initialize_checking|]. exists []. by split.
  - intros now e s [Hs (rest & Hp & Hrest)]. split; [by apply phase_step|].
    exists (rest ++ published now e s). split.
    + by rewrite (step_posted_grows q), Hp.
    + apply Forall_app. split; [done|]. by apply (no_query_published q).
Qed.

(** ** A closed channel *)

Lemma closed_run q tr s :
  Phase q s ->
  channelClosed s = true ->
  channelClosed (run tr s) = true /\ posted (run tr s) = posted s.
Proof.
  revert s. induction tr as [|[now e] tr IH]; intros s Hs Hc; [done|].
  rewrite run_cons.
  destruct (closed_step q now e s Hs Hc) as [Hc' Hp'].
  destruct (IH (step now e s)) as [? ->]; [by apply phase_step|done|done].
Qed.

(** X4 (a closed channel is final).  Once the channel of a session is
    closed, by the close button, by [beforeunload] or by the duplicate
    teardown, it stays closed and nothing is ever posted again, whatever
    timers and user events follow; messages and message errors that arrive
    are not handled at all. *)
Theorem closed_channel_is_final
    (urlHash : option string) (t0 t1 : Z) (rnd : string) (t2 : Z)
    (tr : list (Z * Event)) :
  let s := run tr (initialize urlHash t0 t1 rnd t2) in
  channelClosed s = true ->
  (forall later,
      channelClosed (run later s) = true /\ posted (run later s) = posted s)
  /\ (forall now m, step now (EvMessage m) s = s)
  /\ (forall now, step now EvMessageError s = s).
Proof.
  intros s Hc. split; [|split].
  - intros later. eapply closed_run; [apply phase_reachable|done].
  - intros now m. unfold step, task, bind, get. by rewrite Hc.
  - intros now. unfold step, task, bind, get. by rewrite Hc.
Qed.

Lemma closed_channel_is_final_witness :
  let s := run [(1100, EvCloseClick)]
             (initialize (Some "abc") 1000 1001 "k3j2h1x" 1002) in
  posted (run [(1301, EvCheckTimeout); (1400, EvBeforeUnload)] s) = posted s.
Proof.
  intros s.
  destruct (closed_channel_is_final (Some "abc") 1000 1001 "k3j2h1x" 1002
              [(1100, EvCloseClick)] ltac:(by_computation))
    as (Hlater & _ & _).
  exact (proj2 (Hlater [(1301, EvCheckTimeout); (1400, EvBeforeUnload)])).
Defined.

(** X5 (posting on a closed channel).  On a closed channel each of
    [closeSession], [registerSession] and the [beforeunload] listener of a
    session that is not closing as a duplicate throws [InvalidStateError] at
    its [postMessage], before it has logged, changed the status or touched
    the page: the session is left exactly as it was.  On an open channel
    [closeSession] posts one session-closed carrying the session id, logs,
    closes the channel, calls [window.close()] and shows the closed
    notice. *)
Theorem posting_on_closed_channel_throws (now : Z) (s : Session) :
  (channelClosed s = true ->
   closeSession now s = (Thrown InvalidStateError, s)
   /\ registerSession now s = (Thrown InvalidStateError, s)
   /\ (isClosingAsDuplicate s = false ->
       beforeunload now s = (Thrown InvalidStateError, s)))
  /\ (channelClosed s = false ->
      closeSession now s
      = (Normal tt,
         set_body ClosedNotice
           (set_windowCloseCalls (S (windowCloseCalls s))
              (set_channelClosed true
                 (set_logEntries ((Text.closing, LOG_TYPES.WARNING) :: logEntries s)
                    (set_posted
                       (posted s ++ [createSessionClosedMessage (sessionId s) now])
                       s)))))).
Proof.
  split.
  - intros Hc. destruct s; cbn in Hc; subst.
    split; [reflexivity|]. split; [reflexivity|].
    intros Hd; cbn in Hd; subst. reflexivity.
  - intros Ho. destruct s; cbn in Ho; subst. reflexivity.
Qed.

Lemma posting_on_closed_channel_throws_witness :
  let s := run [(1100, EvBeforeUnload)]
             (initialize (Some "abc") 1000 1001 "k3j2h1x" 1002) in
  closeSession 1200 s = (Thrown InvalidStateError, s)
  /\ registerSession 1200 s = (Thrown InvalidStateError, s).
Proof.
  intros s.
  destruct (posting_on_closed_channel_throws 1200 s) as [Hclosed _].
  destruct (Hclosed ltac:(by_computation)) as (Hclose & Hreg & _).
  exact (conj Hclose Hreg).
Defined.

(** ** The dispatcher, in any state *)

(** Run [handleMessage] on an opened session record. *)
Ltac run_handleMessage :=
  match goal with
  | |- context [handleMessage ?now ?m ?s] => js_exec_on (handleMessage now m s)
  end;
  cbv [same_but_log_and_posted fst snd
       set_posted set_logEntries
       sessionHash sessionId isVerified isClosingAsDuplicate channelClosed
       claimListener posted promise resolveCalls reactionJob checkTimers
       closeTimers documentTitle displayStatus logEntries body
       windowCloseCalls].


(** Unknown types are ignored.  A message that is neither a
    hash-query, nor session-registered, nor session-closed (a hash-claim,
    say, or a message of another application on the channel) is ignored by
    [handleMessage] without a log line and without an error, in any state. *)
Theorem handleMessage_ignores_other_types (now : Z) (m : Message) (s : Session) :
  has_type m MESSAGE_TYPES.SESSION_HASH_QUERY = false ->
  has_type m MESSAGE_TYPES.SESSION_REGISTERED = false ->
  has_type m MESSAGE_TYPES.SESSION_CLOSED = false ->
  handleMessage now m s = (Normal tt, s).
Proof.
  intros Hq Hr Hc. destruct s. run_handleMessage; reflexivity.
Qed.

Lemma handleMessage_ignores_other_types_witness :
  let s := initialize (Some "abc") 1000 1001 "k3j2h1x" 1002 in
  let m := createHashClaimMessage "xyz" (Some (VStr "query-7-zzzzzzz")) "xyz" 1050 in
  handleMessage 1060 m s = (Normal tt, s).
Proof.
  intros s m.
  apply (handleMessage_ignores_other_types 1060 m s); by_computation.
Defined.

(** Siblings are noticed, oneself is not.  A session-registered or
    session-closed message from another session id adds exactly one log
    line naming that session and changes nothing else; the same message
    carrying the session's own id is dropped without a trace. *)
Theorem handleMessage_sibling_notice (now : Z) (m : Message) (s : Session) :
  (has_type m MESSAGE_TYPES.SESSION_REGISTERED = true ->
   m !! "sessionId" <> Some (VStr (sessionId s)) ->
   handleMessage now m s
   = (Normal tt,
      set_logEntries
        ((Text.sibling_opened (m !! "sessionId"), LOG_TYPES.INFO) :: logEntries s) s))
  /\ (has_type m MESSAGE_TYPES.SESSION_CLOSED = true ->
      m !! "sessionId" <> Some (VStr (sessionId s)) ->
      handleMessage now m s
      = (Normal tt,
         set_logEntries
           ((Text.sibling_closed (m !! "sessionId"), LOG_TYPES.INFO) :: logEntries s) s))
  /\ (has_type m MESSAGE_TYPES.SESSION_HASH_QUERY = false ->
      m !! "sessionId" = Some (VStr (sessionId s)) ->
      handleMessage now m s = (Normal tt, s)).
Proof.
  split; [|split].
  - intros Ht Hs. apply strict_eq_str_false in Hs. destruct s.
    cbv [sessionId] in Hs. run_handleMessage; first [reflexivity | type_clash].
  - intros Ht Hs. apply strict_eq_str_false in Hs. destruct s.
    cbv [sessionId] in Hs. run_handleMessage; first [reflexivity | type_clash].
  - apply handleMessage_self_echo.
Qed.

Lemma handleMessage_sibling_notice_witness :
  let s := initialize (Some "abc") 1000 1001 "k3j2h1x" 1002 in
  let m := createSessionRegisteredMessage "xyz" "xyz" 1050 in
  logEntries (snd (handleMessage 1060 m s))
  = ("Sibling session opened: xyz", "info") :: logEntries s.
Proof.
  intros s m.
  destruct (handleMessage_sibling_notice 1060 m s) as (Hopened & _ & _).
  rewrite Hopened; by_computation.
Defined.

(** ** The log *)

Lemma log_step q now e s :
  Phase q s ->
  exists new, logEntries (step now e s) = new ++ logEntries s
              /\ (List.length new <= 3)%nat.
Proof.
  intros [Hp|[Hp|Hp]]; destruct Hp; open_session s;
    destruct e; js_exec;
    first [ exists []; split; [reflexivity | cbn; lia]
          | eexists [_]; split; [reflexivity | cbn; lia]
          | eexists [_; _]; split; [reflexivity | cbn; lia]
          | eexists [_; _; _]; split; [reflexivity | cbn; lia] ].
Qed.

(** X7 (the log only grows).  Whatever happens to a session, the lines
    already in its log stay there, in their order, below the new ones: every
    task puts its lines (three at most) on top and never removes or rewrites
    one. *)
Theorem log_only_grows
    (urlHash : option string) (t0 t1 : Z) (rnd : string) (t2 : Z)
    (tr later : list (Z * Event)) (now : Z) (e : Event) :
  let s := run tr (initialize urlHash t0 t1 rnd t2) in
  (exists new, logEntries (step now e s) = new ++ logEntries s
               /\ (List.length new <= 3)%nat)
  /\ (exists new, logEntries (run later s) = new ++ logEntries s).
Proof.
  intros s.
  pose proof (phase_reachable urlHash t0 t1 rnd t2 tr) as Hs. fold s in Hs.
  split; [by eapply log_step|].
  clearbody s. revert s Hs.
  induction later as [|[now' e'] later IH]; intros s Hs; [by exists []|].
  rewrite run_cons.
  destruct (log_step _ now' e' s Hs) as (new1 & H1 & _).
  destruct (IH (step now' e' s)) as (new2 & H2); [by apply phase_step|].
  exists (new2 ++ new1). by rewrite H2, H1, app_assoc.
Qed.

(** A message that cannot be deserialized.  A [messageerror] event on
    an open channel adds the one error line to the log and changes nothing
    else, in whatever phase the session is. *)
Theorem messageerror_only_logs
    (urlHash : option string) (t0 t1 : Z) (rnd : string) (t2 : Z)
    (tr : list (Z * Event)) (now : Z) :
  let s := run tr (initialize urlHash t0 t1 rnd t2) in
  channelClosed s = false ->
  step now EvMessageError s
  = set_logEntries
      ((Text.deserialize_failed, LOG_TYPES.ERROR) :: logEntries s) s.
Proof.
  intros s Ho.
  pose proof (phase_reachable urlHash t0 t1 rnd t2 tr) as Hs. fold s in Hs.
  clearbody s. destruct Hs as [Hp|[Hp|Hp]]; destruct Hp; open_session s;
    js_exec; reflexivity.
Qed.

Lemma messageerror_only_logs_witness :
  let s := run [(1301, EvCheckTimeout)]
             (initialize (Some "abc") 1000 1001 "k3j2h1x" 1002) in
  step 1400 EvMessageError s
  = set_logEntries
      ((Text.deserialize_failed, LOG_TYPES.ERROR) :: logEntries s) s.
Proof.
  intros s.
  apply (messageerror_only_logs (Some "abc") 1000 1001 "k3j2h1x" 1002
           [(1301, EvCheckTimeout)] 1400).
  by_computation.
Defined.

(** ** The teardown of a duplicate *)

(** The 500 ms timer is pending only in a session resolved Duplicate. *)
Lemma close_timer_step q now e s :
  Phase q s ->
  ResolvedDuplicate s \/ closeTimers s = 0%nat ->
  ResolvedDuplicate (step now e s) \/ closeTimers (step now e s) = 0%nat.
Proof.
  intros Hs [Hd|H0]; [left; by apply duplicate_step|].
  destruct Hs as [Hp|[Hp|Hp]]; destruct Hp; open_session s;
    destruct e; js_exec;
    first [ right; reflexivity
          | left; constructor; first [reflexivity | cbn; lia] ].
Qed.

Lemma close_timer_reachable urlHash t0 t1 rnd t2 tr :
  let s := run tr (initialize urlHash t0 t1 rnd t2) in
  ResolvedDuplicate s \/ closeTimers s = 0%nat.
Proof.
  cbv zeta.
  enough (Phase (make_queryId t1 rnd) (run tr (initialize urlHash t0 t1 rnd t2))
          /\ (ResolvedDuplicate (run tr (initialize urlHash t0 t1 rnd t2))
              \/ closeTimers (run tr (initialize urlHash t0 t1 rnd t2)) = 0%nat))
    by tauto.
  apply run_ind.
  - split; [left; apply initialize_checking|by right].
  - intros now e s [Hs Hinv]. split; [by apply phase_step|].
    by eapply close_timer_step.
Qed.

Lemma teardown_step now s :
  ResolvedDuplicate s ->
  closeTimers s = 1%nat ->
  let s' := step now EvCloseTimeout s in
  channelClosed s' = true
  /\ body s' = DuplicateNotice (sessionHash s)
  /\ windowCloseCalls s' = S (windowCloseCalls s)
  /\ closeTimers s' = 0%nat
  /\ posted s' = posted s
  /\ logEntries s' = logEntries s.
Proof.
  intros Hd Ht; destruct Hd; open_session s. cbv zeta.
  js_exec. by repeat apply conj.
Qed.

(** X8 (the teardown of a duplicate).  The 500 ms timer of
    [closeAsDuplicate] is armed at most once, and only in a session whose
    check resolved Duplicate.  When it fires it closes the channel, calls
    [window.close()] once and replaces the page by the duplicate notice for
    the session's hash, without posting or logging anything; from then on
    the session never posts again. *)
Theorem duplicate_teardown
    (urlHash : option string) (t0 t1 : Z) (rnd : string) (t2 : Z)
    (tr : list (Z * Event)) (now : Z) :
  let s := run tr (initialize urlHash t0 t1 rnd t2) in
  (closeTimers s <= 1)%nat
  /\ (closeTimers s = 1%nat ->
      promise s = Some false /\ isClosingAsDuplicate s = true)
  /\ (closeTimers s = 1%nat ->
      let s' := step now EvCloseTimeout s in
      channelClosed s' = true
      /\ body s' = DuplicateNotice (sessionHash s)
      /\ windowCloseCalls s' = S (windowCloseCalls s)
      /\ closeTimers s' = 0%nat
      /\ posted s' = posted s
      /\ logEntries s' = logEntries s
      /\ forall later, posted (run later s') = posted s).
Proof.
  intros s.
  pose proof (phase_reachable urlHash t0 t1 rnd t2 tr) as Hs. fold s in Hs.
  pose proof (close_timer_reachable urlHash t0 t1 rnd t2 tr) as Hc. fold s in Hc.
  assert (closeTimers s = 1%nat -> ResolvedDuplicate s) as Hdup.
  { intros H1. destruct Hc as [Hd|H0]; [done|congruence]. }
  split; [|split].
  - destruct Hc as [Hd| ->]; [by destruct Hd|lia].
  - intros H1. by destruct (Hdup H1).
  - intros H1 s'.
    destruct (teardown_step now s (Hdup H1) H1) as (Hcl & Hb & Hw & Ht & Hp & Hl).
    fold s' in Hcl, Hb, Hw, Ht, Hp, Hl.
    repeat (split; [done|]).
    intros later.
    destruct (closed_run (make_queryId t1 rnd) later s') as [_ ->];
      [by apply phase_step|done|done].
Qed.

Lemma duplicate_teardown_witness :
  let claim := createHashClaimMessage (sessionHash_of (Some "abc") 1000)
                 (Some (VStr (make_queryId 1001 "k3j2h1x"))) "abc" 1050 in
  let s := run [(1060, EvMessage claim)]
             (initialize (Some "abc") 1000 1001 "k3j2h1x" 1002) in
  let s' := step 1560 EvCloseTimeout s in
  channelClosed s' = true /\ body s' = DuplicateNotice (sessionHash s).
Proof.
  intros claim s s'.
  destruct (duplicate_teardown (Some "abc") 1000 1001 "k3j2h1x" 1002
              [(1060, EvMessage claim)] 1560)
    as (_ & _ & Hfire).
  destruct (Hfire ltac:(by_computation)) as (Hcl & Hb & _).
  exact (conj Hcl Hb).
Defined.

(** ** Two checks at the same time *)

Lemma query_is_quiet q h h' q' now t :
  quiet q h (t, EvMessage (createHashQueryMessage h' q' now)) = true.
Proof.
  cbv [quiet snd matches_claim].
  by rewrite query_has_type, bool_decide_eq_false_2.
Qed.

(** X9 (two simultaneous checks both win).  Two sessions opened on the same
    non-empty hash, each receiving the other's query while its own check is
    running: neither answers (neither is verified yet), so at their timers
    both resolve Unique, both are verified and both publish
    session-registered for the same hash. *)
Theorem simultaneous_checks_both_unique
    (h : string) (a0 a1 : Z) (rndA : string) (a2 : Z)
    (b0 b1 : Z) (rndB : string) (b2 : Z) (ta ta' tb tb' : Z) :
  h <> "" ->
  let A0 := initialize (Some h) a0 a1 rndA a2 in
  let B0 := initialize (Some h) b0 b1 rndB b2 in
  let queryA := createHashQueryMessage h (make_queryId a1 rndA) a2 in
  let queryB := createHashQueryMessage h (make_queryId b1 rndB) b2 in
  let A := run [(ta, EvMessage queryB); (ta', EvCheckTimeout)] A0 in
  let B := run [(tb, EvMessage queryA); (tb', EvCheckTimeout)] B0 in
  posted A0 = [queryA] /\ posted B0 = [queryB]
  /\ published ta (EvMessage queryB) A0 = []
  /\ published tb (EvMessage queryA) B0 = []
  /\ isVerified A = true /\ isVerified B = true
  /\ sessionHash A = h /\ sessionHash B = h
  /\ posted A = [queryA; createSessionRegisteredMessage h h ta']
  /\ posted B = [queryB; createSessionRegisteredMessage h h tb'].
Proof.
  intros Hh A0 B0 queryA queryB A B.
  assert (forall t, sessionHash_of (Some h) t = h) as Hhash.
  { intros t. unfold sessionHash_of. by rewrite bool_decide_eq_false_2. }
  pose proof (initialize_still_checking (Some h) a0 a1 rndA a2) as HA0.
  pose proof (initialize_still_checking (Some h) b0 b1 rndB b2) as HB0.
  rewrite Hhash in HA0, HB0. fold A0 in HA0. fold B0 in HB0.
  pose proof (quiet_step _ _ _ ta (EvMessage queryB) A0 HA0
                (query_is_quiet _ _ _ _ _ _)) as HA1.
  pose proof (quiet_step _ _ _ tb (EvMessage queryA) B0 HB0
                (query_is_quiet _ _ _ _ _ _)) as HB1.
  destruct (timeout_registers _ _ _ ta' _ HA1) as ([[] _ HhA] & HpA & _ & _).
  destruct (timeout_registers _ _ _ tb' _ HB1) as ([[] _ HhB] & HpB & _ & _).
  split; [by destruct HA0|]. split; [by destruct HB0|].
  split.
  { eapply unverified_answers_nothing;
      [left; by destruct HA0 | by destruct HA0 as [[]]
      | unfold queryB; by rewrite query_has_type]. }
  split.
  { eapply unverified_answers_nothing;
      [left; by destruct HB0 | by destruct HB0 as [[]]
      | unfold queryA; by rewrite query_has_type]. }
  by repeat apply conj.
Qed.

Lemma simultaneous_checks_both_unique_witness :
  let A := run [(1010, EvMessage (createHashQueryMessage "abc"
                                    (make_queryId 1006 "bbbbbbb") 1007));
                (1302, EvCheckTimeout)]
             (initialize (Some "abc") 1000 1001 "aaaaaaa" 1002) in
  let B := run [(1011, EvMessage (createHashQueryMessage "abc"
                                    (make_queryId 1001 "aaaaaaa") 1002));
                (1307, EvCheckTimeout)]
             (initialize (Some "abc") 1005 1006 "bbbbbbb" 1007) in
  isVerified A = true /\ isVerified B = true.
Proof.
  intros A B.
  destruct (simultaneous_checks_both_unique "abc" 1000 1001 "aaaaaaa" 1002
              1005 1006 "bbbbbbb" 1007 1010 1302 1011 1307 ltac:(by_computation))
    as (_ & _ & _ & _ & HA & HB & _).
  exact (conj HA HB).
Defined.

(** ** Sessions on other hashes *)

(** X10 (another hash is none of my business).  A hash-query or a hash-claim
    about a hash other than the session's own leaves the session exactly as
    it was, in every state it reaches: no answer, no resolution, not even a
    log line. *)
Theorem other_hash_is_ignored
    (urlHash : option string) (t0 t1 : Z) (rnd : string) (t2 : Z)
    (tr : list (Z * Event)) (now : Z) (m : Message) :
  let s := run tr (initialize urlHash t0 t1 rnd t2) in
  has_type m MESSAGE_TYPES.SESSION_HASH_QUERY = true
  \/ has_type m MESSAGE_TYPES.SESSION_HASH_CLAIM = true ->
  m !! "hash" <> Some (VStr (sessionHash s)) ->
  step now (EvMessage m) s = s.
Proof.
  intros s Ht Hh.
  pose proof (phase_reachable urlHash t0 t1 rnd t2 tr) as Hs. fold s in Hs.
  clearbody s. apply strict_eq_str_false in Hh.
  destruct Hs as [Hp|[Hp|Hp]]; destruct Hp; open_session s;
    destruct Ht as [Ht|Ht]; js_exec;
    first [reflexivity | type_clash | congruence].
Qed.

Lemma other_hash_is_ignored_witness :
  let s := run [(1301, EvCheckTimeout)]
             (initialize (Some "abc") 1000 1001 "k3j2h1x" 1002) in
  let m := createHashQueryMessage "xyz" "query-2000-zzzzzzz" 2001 in
  step 2002 (EvMessage m) s = s.
Proof.
  intros s m.
  apply (other_hash_is_ignored (Some "abc") 1000 1001 "k3j2h1x" 1002
           [(1301, EvCheckTimeout)] 2002 m); [left|]; by_computation.
Defined.

(* ------------------------------------------------------------------------ *)
(** ** Identities: the session hash and the query id                         *)
(* ------------------------------------------------------------------------ *)

Lemma string_app_length (s1 s2 : string) :
  String.length (s1 +:+ s2) = (String.length s1 + String.length s2)%nat.
Proof.
  induction s1 as [|a s1 IH]; [done|].
  change (S (String.length (s1 +:+ s2))
          = S (String.length s1 + String.length s2)).
  by rewrite IH.
Qed.

Lemma string_app_inv_tail (s1 s2 t : string) : s1 +:+ t = s2 +:+ t -> s1 = s2.
Proof.
  revert s2. induction s1 as [|a s1 IH]; intros [|b s2] Heq; [done| | |].
  - apply (f_equal String.length) in Heq.
    rewrite !string_app_length in Heq. cbn in Heq. lia.
  - apply (f_equal String.length) in Heq.
    rewrite !string_app_length in Heq. cbn in Heq. lia.
  - cbn in Heq. injection Heq as -> Heq. f_equal. by apply IH.
Qed.

(** X11 (every session has a hash).  At any time the id of a session is its
    hash, and the hash is not empty: it is the [hash] parameter of the URL
    when there is one and it is not empty, and ["session-"] followed by the
    clock reading when the parameter is missing or empty; two such
    synthesized hashes are equal only for the same clock reading. *)
Theorem session_hash_is_never_empty
    (urlHash : option string) (t0 t1 : Z) (rnd : string) (t2 : Z)
    (tr : list (Z * Event)) :
  let s := run tr (initialize urlHash t0 t1 rnd t2) in
  sessionId s = sessionHash s
  /\ sessionHash s <> ""
  /\ (forall h, urlHash = Some h -> h <> "" -> sessionHash s = h)
  /\ (urlHash = None \/ urlHash = Some "" ->
      sessionHash s = "session-" +:+ pretty t0)
  /\ (forall t t' : Z,
        sessionHash_of None t = sessionHash_of None t' -> t = t').
Proof.
  intros s.
  destruct (reachable_identity urlHash t0 t1 rnd t2 tr) as [Hh Hi].
  fold s in Hh, Hi. rewrite Hi, Hh. unfold sessionHash_of.
  split; [done|]. split; [|split; [|split]].
  - destruct urlHash as [h|]; [case_bool_decide|]; done.
  - intros h -> Hne. by rewrite bool_decide_eq_false_2.
  - intros [->| ->]; done.
  - intros t t' Heq. apply (inj (String.app "session-")) in Heq.
    by apply (inj pretty).
Qed.

(** X12 (query ids do not collide by accident).  Two query ids built at the
    same clock reading are equal only if their random suffixes are, and two
    built with the same suffix only if their clock readings are; so a claim
    that answers the query of another check started in the same millisecond
    is accepted by the transient listener only if the random suffixes
    coincide. *)
Theorem queryId_distinguishes_checks (t t' : Z) (r r' : string) :
  (make_queryId t r = make_queryId t' r' ->
   (t = t' -> r = r') /\ (r = r' -> t = t'))
  /\ (forall (h sid : string) (now : Z),
        matches_claim (make_queryId t r) h
          (createHashClaimMessage h (Some (VStr (make_queryId t r'))) sid now)
        = true ->
        r = r').
Proof.
  assert (make_queryId t r = make_queryId t' r' ->
          (t = t' -> r = r') /\ (r = r' -> t = t')) as Hinj.
  { unfold make_queryId. intros Heq. split.
    - intros <-. by repeat (apply (inj (String.app _)) in Heq).
    - intros <-. apply (inj (String.app "query-")) in Heq.
      apply (inj pretty).
      by apply (string_app_inv_tail _ _ ("-" +:+ r)). }
  split; [done|].
  intros h sid now Hm. apply matches_claim_true in Hm as (_ & Hq & _).
  rewrite claim_queryId in Hq. apply strict_eq_str_true in Hq.
  injection Hq as Hq. unfold make_queryId in Hq.
  by repeat (apply (inj (String.app _)) in Hq).
Qed.

(* ------------------------------------------------------------------------ *)
(** ** The message factories                                                 *)
(* ------------------------------------------------------------------------ *)

(** What the factories build.  Each factory returns an object with
    exactly the properties its documentation lists, holding the arguments
    and the clock reading: a receiver reads back what the sender passed.
    The four kinds of message have four different [type] tags, so an object
    built by one factory is never taken for another kind. *)
Theorem factories_build_documented_shapes
    (sid h q : string) (now : Z) :
  let registered := createSessionRegisteredMessage sid h now in
  let closed := createSessionClosedMessage sid now in
  let claim := createHashClaimMessage h (Some (VStr q)) sid now in
  let query := createHashQueryMessage h q now in
  (dom registered = ({[ "type"; "timestamp"; "sessionId"; "hash" ]} : gset string)
   /\ registered !! "type" = Some (VStr "session-registered")
   /\ registered !! "timestamp" = Some (VNum now)
   /\ registered !! "sessionId" = Some (VStr sid)
   /\ registered !! "hash" = Some (VStr h))
  /\ (dom closed = ({[ "type"; "timestamp"; "sessionId" ]} : gset string)
      /\ closed !! "type" = Some (VStr "session-closed")
      /\ closed !! "timestamp" = Some (VNum now)
      /\ closed !! "sessionId" = Some (VStr sid))
  /\ (dom claim
      = ({[ "type"; "timestamp"; "hash"; "queryId"; "sessionId" ]} : gset string)
      /\ claim !! "type" = Some (VStr "session-hash-claim")
      /\ claim !! "timestamp" = Some (VNum now)
      /\ claim !! "hash" = Some (VStr h)
      /\ claim !! "queryId" = Some (VStr q)
      /\ claim !! "sessionId" = Some (VStr sid))
  /\ (query !! "type" = Some (VStr "session-hash-query")
      /\ query !! "timestamp" = Some (VNum now)
      /\ query !! "hash" = Some (VStr h)
      /\ query !! "queryId" = Some (VStr q))
  /\ (forall m : Message, forall a b : string,
        has_type m a = true -> has_type m b = true -> a = b).
Proof.
  cbv zeta. repeat apply conj; first [by_computation | reflexivity | idtac].
  apply has_type_unique.
Qed.

(* ======================================================================== *)
(** * Properties of the fan-out demo                                         *)
(* ======================================================================== *)

(** Symbolic execution of the two pages of the demo, as for the session
    page above. *)
Ltac fan_whnf t :=
  eval cbv head beta iota zeta delta
    [Fanout.bind Fanout.ret Fanout.get Fanout.modify Fanout.throw Fanout.when
     Fanout.uncaught
     Fanout.Controller.step Fanout.Controller.task
     Fanout.Controller.log Fanout.Controller.postMessage
     Fanout.Controller.updateSessionList Fanout.Controller.launchSession
     Fanout.Controller.broadcastMessage Fanout.Controller.sendToSession
     Fanout.Controller.closeSession Fanout.Controller.closeAllSessions
     Fanout.Controller.onmessage Fanout.Controller.onmessageerror
     Fanout.Controller.beforeunload Fanout.Controller.initialize
     Fanout.Controller.load Fanout.Controller.module_state
     Fanout.Controller.set_activeSessions Fanout.Controller.set_sessionCounter
     Fanout.Controller.set_channelClosed Fanout.Controller.set_posted
     Fanout.Controller.set_opened Fanout.Controller.set_view
     Fanout.Controller.set_logEntries Fanout.Controller.set_sessionDataInput
     Fanout.Controller.set_broadcastMsgInput
     Fanout.Controller.activeSessions Fanout.Controller.sessionCounter
     Fanout.Controller.channelClosed Fanout.Controller.posted
     Fanout.Controller.opened Fanout.Controller.sessionCountText
     Fanout.Controller.sessionList Fanout.Controller.logEntries
     Fanout.Controller.sessionDataInput Fanout.Controller.broadcastMsgInput
     Fanout.Child.step Fanout.Child.task Fanout.Child.on_page
     Fanout.Child.log Fanout.Child.postMessage Fanout.Child.updateStatus
     Fanout.Child.initializeDisplay Fanout.Child.flashBody
     Fanout.Child.removeClass Fanout.Child.registerSession
     Fanout.Child.closeSession Fanout.Child.sendMessage
     Fanout.Child.onmessage Fanout.Child.onmessageerror
     Fanout.Child.beforeunload Fanout.Child.heartbeat
     Fanout.Child.initialize Fanout.Child.load Fanout.Child.module_state
     Fanout.Child.set_channelClosed Fanout.Child.set_posted
     Fanout.Child.set_display Fanout.Child.set_displayStatus
     Fanout.Child.set_logEntries Fanout.Child.set_classList
     Fanout.Child.set_messageInput Fanout.Child.set_body
     Fanout.Child.set_windowCloseCalls Fanout.Child.set_timers
     Fanout.Child.sessionId Fanout.Child.data Fanout.Child.channelClosed
     Fanout.Child.posted Fanout.Child.documentTitle Fanout.Child.displayData
     Fanout.Child.displayStatus Fanout.Child.logEntries
     Fanout.Child.classList Fanout.Child.messageInput Fanout.Child.body
     Fanout.Child.windowCloseCalls Fanout.Child.timers
     fst snd negb andb] in t.

Ltac fan_loop :=
  repeat match goal with
  | |- ?x = ?T -> ?G =>
      let T' := fan_whnf T in
      change (x = T' -> G);
      let a := stuck_head T' in
      first [ match goal with H : a = _ |- _ => rewrite H end
            | destruct a eqn:? ]
  end;
  match goal with
  | |- ?x = ?T -> ?G =>
      let T' := fan_whnf T in
      change (x = T' -> G); intros ->
  end.

Ltac fan_exec_on t :=
  let x := fresh "x" in
  let Hx := fresh "Hx" in
  remember t as x eqn:Hx; revert Hx; fan_loop.

Ltac fan_fields :=
  cbv [Fanout.Controller.activeSessions Fanout.Controller.sessionCounter
       Fanout.Controller.channelClosed Fanout.Controller.posted
       Fanout.Controller.opened Fanout.Controller.sessionCountText
       Fanout.Controller.sessionList Fanout.Controller.logEntries
       Fanout.Controller.sessionDataInput Fanout.Controller.broadcastMsgInput
       Fanout.Child.sessionId Fanout.Child.data Fanout.Child.channelClosed
       Fanout.Child.posted Fanout.Child.documentTitle Fanout.Child.displayData
       Fanout.Child.displayStatus Fanout.Child.logEntries
       Fanout.Child.classList Fanout.Child.messageInput Fanout.Child.body
       Fanout.Child.windowCloseCalls Fanout.Child.timers fst snd].

Ltac controller_exec :=
  match goal with
  | |- context [Fanout.Controller.step ?enc ?trim ?now ?e ?s] =>
      fan_exec_on (Fanout.Controller.step enc trim now e s)
  end; fan_fields.

Ltac child_exec :=
  match goal with
  | |- context [Fanout.Child.step ?trim ?now ?e ?s] =>
      fan_exec_on (Fanout.Child.step trim now e s)
  end; fan_fields.

(** ** The map of active sessions *)

Lemma map_get_set_eq k v m :
  Fanout.Controller.map_get k (Fanout.Controller.map_set k v m) = Some v.
Proof.
  induction m as [|[k' v'] m IH]; cbn.
  - by rewrite bool_decide_eq_true_2.
  - case_bool_decide as Hk; cbn.
    + by rewrite bool_decide_eq_true_2.
    + by rewrite bool_decide_eq_false_2.
Qed.

Lemma map_get_set_ne k k' v m :
  k' <> k ->
  Fanout.Controller.map_get k (Fanout.Controller.map_set k' v m)
  = Fanout.Controller.map_get k m.
Proof.
  intros Hne. induction m as [|[k'' v''] m IH]; cbn.
  - by rewrite bool_decide_eq_false_2.
  - case_bool_decide as Hk; cbn.
    + subst k''. by rewrite !bool_decide_eq_false_2.
    + by rewrite IH.
Qed.

Lemma map_get_delete_eq k m :
  Fanout.Controller.map_get k (Fanout.Controller.map_delete k m) = None.
Proof.
  induction m as [|[k' v'] m IH]; cbn; [done|].
  case_bool_decide as Hk; cbn; [done|]. by rewrite bool_decide_eq_false_2.
Qed.

Lemma map_get_delete_ne k k' m :
  k' <> k ->
  Fanout.Controller.map_get k (Fanout.Controller.map_delete k' m)
  = Fanout.Controller.map_get k m.
Proof.
  intros Hne. induction m as [|[k'' v''] m IH]; cbn; [done|].
  case_bool_decide as Hk; cbn.
  - subst k''. by rewrite bool_decide_eq_false_2.
  - by rewrite IH.
Qed.

Lemma map_keys_set k v m :
  (exists v0, Fanout.Controller.map_get k m = Some v0) ->
  (Fanout.Controller.map_set k v m).*1 = m.*1.
Proof.
  intros [v0 Hget]. induction m as [|[k' v'] m IH]; cbn in *; [done|].
  case_bool_decide as Hk; cbn; [by subst|]. f_equal. by apply IH.
Qed.

Lemma map_keys_set_new k v m :
  Fanout.Controller.map_get k m = None ->
  (Fanout.Controller.map_set k v m).*1 = m.*1 ++ [k].
Proof.
  intros Hget. induction m as [|[k' v'] m IH]; cbn in *; [done|].
  case_bool_decide as Hk; cbn; [done|]. f_equal. by apply IH.
Qed.

Lemma map_get_None_keys k m :
  Fanout.Controller.map_get k m = None <-> k ∉ m.*1.
Proof.
  induction m as [|[k' v'] m IH]; cbn.
  - split; [intros _; apply not_elem_of_nil|done].
  - case_bool_decide as Hk.
    + subst. split; [done|]. intros Hn. destruct Hn. apply list_elem_of_here.
    + rewrite IH, not_elem_of_cons. intuition congruence.
Qed.


Lemma map_set_NoDup k v m :
  NoDup m.*1 -> NoDup (Fanout.Controller.map_set k v m).*1.
Proof.
  intros Hnd. destruct (Fanout.Controller.map_get k m) as [v0|] eqn:Hget.
  - rewrite map_keys_set; eauto.
  - rewrite map_keys_set_new by done. apply NoDup_app. repeat apply conj.
    + done.
    + intros x Hx Hin. apply list_elem_of_singleton in Hin. subst x.
      by apply map_get_None_keys in Hget.
    + apply NoDup_singleton.
Qed.

Lemma map_delete_keys_subset k k' m :
  k' ∈ (Fanout.Controller.map_delete k m).*1 -> k' ∈ m.*1.
Proof.
  induction m as [|[k0 v0] m IH]; cbn; [done|].
  case_bool_decide; cbn; rewrite ?elem_of_cons; intuition.
Qed.

Lemma map_delete_NoDup k m :
  NoDup m.*1 -> NoDup (Fanout.Controller.map_delete k m).*1.
Proof.
  induction m as [|[k0 v0] m IH]; cbn; [done|].
  rewrite NoDup_cons. intros [Hn Hnd].
  case_bool_decide; cbn; [by apply IH|].
  apply NoDup_cons. split; [|by apply IH].
  intros Hin. apply Hn. by eapply map_delete_keys_subset.
Qed.

Lemma map_set_length_present k v v0 m :
  Fanout.Controller.map_get k m = Some v0 ->
  List.length (Fanout.Controller.map_set k v m) = List.length m.
Proof.
  intros Hget.
  rewrite <- (length_fmap fst), <- (length_fmap fst m).
  f_equal. apply map_keys_set. eauto.
Qed.

(** A ping rewrites an entry without touching what the list shows of it. *)
Lemma view_of_ping k e ts m :
  Fanout.Controller.map_get k m = Some e ->
  Fanout.Controller.view_of
    (Fanout.Controller.map_set k
       (Fanout.Controller.mkEntry (Fanout.Controller.data e)
          (Fanout.Controller.registeredAt e) ts) m)
  = Fanout.Controller.view_of m.
Proof.
  intros Hget.
  assert (List.map Fanout.Controller.render
            (Fanout.Controller.map_set k
               (Fanout.Controller.mkEntry (Fanout.Controller.data e)
                  (Fanout.Controller.registeredAt e) ts) m)
          = List.map Fanout.Controller.render m) as Hmap.
  { induction m as [|[k0 v0] m IH]; cbn in *; [done|].
    case_bool_decide as Hk; cbn.
    - subst k0. by injection Hget as ->.
    - f_equal. by apply IH. }
  unfold Fanout.Controller.view_of.
  destruct m as [|[k0 v0] m]; [done|].
  cbn in Hmap |- *. case_bool_decide; cbn in *; by rewrite <- Hmap.
Qed.

Lemma last_lifecycle_start k msgs :
  Fanout.Controller.last_lifecycle k msgs None = Some true
  <-> Fanout.Controller.last_lifecycle k msgs (Some false) = Some true.
Proof.
  induction msgs as [|data msgs IH]; cbn; [done|].
  by destruct (Fanout.Controller.lifecycle k data).
Qed.

Section ControllerFacts.
Variables encodeURIComponent trim : string -> string.

Lemma controller_message_frame now data s :
  let s' := Fanout.Controller.step encodeURIComponent trim now (Fanout.Controller.EvMessage data) s in
  Fanout.Controller.posted s' = Fanout.Controller.posted s
  /\ Fanout.Controller.opened s' = Fanout.Controller.opened s
  /\ Fanout.Controller.sessionCounter s' = Fanout.Controller.sessionCounter s
  /\ Fanout.Controller.channelClosed s' = Fanout.Controller.channelClosed s
  /\ Fanout.Controller.sessionDataInput s' = Fanout.Controller.sessionDataInput s
  /\ Fanout.Controller.broadcastMsgInput s' = Fanout.Controller.broadcastMsgInput s.
Proof.
  destruct s. intros s'. subst s'. controller_exec.
  all: repeat apply conj; reflexivity.
Qed.

Lemma controller_registry_step k now data s :
  Fanout.Controller.channelClosed s = false ->
  Fanout.Controller.map_has k
    (Fanout.Controller.activeSessions
       (Fanout.Controller.step encodeURIComponent trim now
          (Fanout.Controller.EvMessage data) s))
  = match Fanout.Controller.lifecycle k data with
    | Some b => b
    | None => Fanout.Controller.map_has k (Fanout.Controller.activeSessions s)
    end.
Proof.
  destruct s as [m n c p o ct sl lg i1 i2]. cbn. intros ->.
  unfold Fanout.Controller.lifecycle, Fanout.Controller.map_has.
  controller_exec.
  - case_bool_decide as Hk.
    + subst k. by rewrite map_get_set_eq.
    + by rewrite map_get_set_ne.
  - case_bool_decide as Hk.
    + subst k. by rewrite map_get_delete_eq.
    + by rewrite map_get_delete_ne.
  - by case_bool_decide.
  - case_bool_decide as Hk.
    + subst k. rewrite map_get_set_eq.
      match goal with
      | H : Fanout.Controller.map_get _ _ = Some _ |- _ => by rewrite H
      end.
    + by rewrite map_get_set_ne.
  - by case_bool_decide.
  - by case_bool_decide.
Qed.

(** Only a message changes the map or the list. *)
Lemma controller_other_step now e s :
  match e with
  | Fanout.Controller.EvMessage _ => True
  | _ =>
      let s' := Fanout.Controller.step encodeURIComponent trim now e s in
      Fanout.Controller.activeSessions s' = Fanout.Controller.activeSessions s
      /\ Fanout.Controller.sessionCountText s'
         = Fanout.Controller.sessionCountText s
      /\ Fanout.Controller.sessionList s' = Fanout.Controller.sessionList s
  end.
Proof.
  destruct s as [m n c p o ct sl lg i1 i2].
  destruct e as [data| | | |confirmed|key|key|button answer|value|value|];
    [exact I|..]; cbv zeta; controller_exec; by repeat apply conj.
Qed.

(** The channel is closed by [beforeunload] and by nothing else, and stays
    closed. *)
Lemma controller_channel_step now e s :
  Fanout.Controller.channelClosed
    (Fanout.Controller.step encodeURIComponent trim now e s)
  = match e with
    | Fanout.Controller.EvBeforeUnload => true
    | _ => Fanout.Controller.channelClosed s
    end.
Proof.
  destruct s as [m n c p o ct sl lg i1 i2].
  destruct e as [data| | | |confirmed|key|key|button answer|value|value|];
    controller_exec; reflexivity.
Qed.

(** Once the channel is closed the page handles no message and posts
    nothing. *)
Lemma controller_closed_step now e s :
  Fanout.Controller.channelClosed s = true ->
  let s' := Fanout.Controller.step encodeURIComponent trim now e s in
  Fanout.Controller.channelClosed s' = true
  /\ Fanout.Controller.activeSessions s' = Fanout.Controller.activeSessions s
  /\ Fanout.Controller.posted s' = Fanout.Controller.posted s
  /\ Fanout.Controller.sessionCountText s'
     = Fanout.Controller.sessionCountText s
  /\ Fanout.Controller.sessionList s' = Fanout.Controller.sessionList s.
Proof.
  destruct s as [m n c p o ct sl lg i1 i2]. cbn. intros ->.
  destruct e as [data| | | |confirmed|key|key|button answer|value|value|];
    controller_exec; by repeat apply conj.
Qed.

Lemma controller_closed_run tr :
  forall s,
    Fanout.Controller.channelClosed s = true ->
    let s' := Fanout.Controller.run encodeURIComponent trim tr s in
    Fanout.Controller.channelClosed s' = true
    /\ Fanout.Controller.activeSessions s' = Fanout.Controller.activeSessions s
    /\ Fanout.Controller.posted s' = Fanout.Controller.posted s
    /\ Fanout.Controller.sessionCountText s'
       = Fanout.Controller.sessionCountText s
    /\ Fanout.Controller.sessionList s' = Fanout.Controller.sessionList s.
Proof.
  induction tr as [|[now e] tr IH]; intros s Hc; [done|].
  change (Fanout.Controller.run encodeURIComponent trim ((now, e) :: tr) s)
    with (Fanout.Controller.run encodeURIComponent trim tr
            (Fanout.Controller.step encodeURIComponent trim now e s)).
  destruct (controller_closed_step now e s Hc) as (H1 & H2 & H3 & H4 & H5).
  destruct (IH _ H1) as (G1 & G2 & G3 & G4 & G5).
  cbv zeta in *. by rewrite G1, G2, G3, G4, G5.
Qed.

Lemma controller_registry_run k tr :
  forall s,
    Fanout.Controller.channelClosed s = false ->
    Fanout.Controller.last_lifecycle k (Fanout.Controller.received tr)
      (Some (Fanout.Controller.map_has k (Fanout.Controller.activeSessions s)))
    = Some (Fanout.Controller.map_has k
              (Fanout.Controller.activeSessions
                 (Fanout.Controller.run encodeURIComponent trim tr s))).
Proof.
  induction tr as [|[now e] tr IH]; intros s Hc; [done|].
  pose proof (controller_channel_step now e s) as Hch.
  pose proof (controller_other_step now e s) as Hother.
  change (Fanout.Controller.run encodeURIComponent trim ((now, e) :: tr) s)
    with (Fanout.Controller.run encodeURIComponent trim tr
            (Fanout.Controller.step encodeURIComponent trim now e s)).
  destruct e as [data| | | |confirmed|key|key|button answer|value|value|];
    cbn [Fanout.Controller.received Fanout.Controller.last_lifecycle];
    try (cbv zeta in Hother; destruct Hother as (Ha & _);
         rewrite <- Ha; apply IH; by rewrite Hch).
  - rewrite <- IH by (by rewrite Hch).
    rewrite controller_registry_step by done.
    by destruct (Fanout.Controller.lifecycle k data).
  - cbv zeta in Hother. destruct Hother as (Ha & _).
    destruct (controller_closed_run tr _ Hch) as (_ & G & _).
    cbv zeta in G. by rewrite G, Ha.
Qed.

Lemma controller_in_sync_step now e s :
  Fanout.Controller.in_sync s ->
  Fanout.Controller.in_sync
    (Fanout.Controller.step encodeURIComponent trim now e s).
Proof.
  pose proof (controller_other_step now e s) as Hother.
  destruct e as [data| | | |confirmed|key|key|button answer|value|value|];
    try (cbv zeta in Hother; destruct Hother as (Ha & Hb & Hc);
         unfold Fanout.Controller.in_sync; by rewrite Ha, Hb, Hc).
  clear Hother. destruct s as [m n c p o ct sl lg i1 i2].
  unfold Fanout.Controller.in_sync. cbn. intros [Hnd Hview].
  controller_exec; try (split; assumption).
  - split; [by apply map_set_NoDup|by right].
  - split; [by apply map_delete_NoDup|by right].
  - split; [by apply map_set_NoDup|].
    destruct Hview as [(_ & _ & ->)|[-> ->]]; [done|]. right.
    erewrite map_set_length_present by eassumption.
    by rewrite view_of_ping.
Qed.

Lemma controller_in_sync_run tr :
  forall s,
    Fanout.Controller.in_sync s ->
    Fanout.Controller.in_sync
      (Fanout.Controller.run encodeURIComponent trim tr s).
Proof.
  induction tr as [|[now e] tr IH]; intros s Hs; [done|].
  apply IH. by apply controller_in_sync_step.
Qed.

Lemma controller_counter_step now e s :
  Fanout.Controller.sessionCounter
    (Fanout.Controller.step encodeURIComponent trim now e s)
  = (Fanout.Controller.sessionCounter s
     + Fanout.Controller.launches [(now, e)])%nat.
Proof.
  destruct s as [m n c p o ct sl lg i1 i2].
  destruct e as [data| | | |confirmed|key|key|button answer|value|value|];
    cbn [Fanout.Controller.launches]; controller_exec; lia.
Qed.

Lemma controller_launch_step now e s :
  Fanout.Controller.launched_in_order encodeURIComponent s ->
  Fanout.Controller.launched_in_order encodeURIComponent
    (Fanout.Controller.step encodeURIComponent trim now e s).
Proof.
  assert (forall n o d,
             Fanout.Controller.launched_in_order encodeURIComponent
               (Fanout.Controller.mkState [] n false [] o None
                  Fanout.Controller.AsServed [] "" "") ->
             Fanout.Controller.launched_in_order encodeURIComponent
               (Fanout.Controller.mkState [] (S n) false []
                  (o ++ [Fanout.Controller.Text.url
                           (Fanout.Controller.Text.session_id (S n))
                           (encodeURIComponent d)])
                  None Fanout.Controller.AsServed [] "" "")) as Hlaunch.
  { intros n o d [Hlen Hurl].
    cbn [Fanout.Controller.opened Fanout.Controller.sessionCounter] in *.
    split; cbn [Fanout.Controller.opened Fanout.Controller.sessionCounter].
    - rewrite length_app. cbn. lia.
    - intros i url Hi. apply lookup_app_Some in Hi as [Hi|[Hge Hi]].
      + by apply Hurl.
      + apply list_lookup_singleton_Some in Hi as [Hi <-].
        exists d. do 2 f_equal. lia. }
  destruct s as [m n c p o ct sl lg i1 i2]. intros Hs.
  assert (Fanout.Controller.launched_in_order encodeURIComponent
            (Fanout.Controller.mkState [] n false [] o None
               Fanout.Controller.AsServed [] "" "")) as Hs' by exact Hs.
  destruct e as [data| | | |confirmed|key|key|button answer|value|value|];
    controller_exec; first [exact Hs | exact (Hlaunch _ _ _ Hs')].
Qed.

Lemma controller_stamp_step now e s :
  Forall Fanout.Controller.controller_stamp (Fanout.Controller.posted s) ->
  Forall Fanout.Controller.controller_stamp
    (Fanout.Controller.posted
       (Fanout.Controller.step encodeURIComponent trim now e s)).
Proof.
  destruct s as [m n c p o ct sl lg i1 i2]. cbn. intros Hs.
  destruct e as [data| | | |confirmed|key|key|button answer|value|value|];
    controller_exec; try exact Hs.
  all: repeat (apply Forall_app; split;
               [|apply Forall_singleton; split; reflexivity]); exact Hs.
Qed.

Lemma controller_run_ind (P : Fanout.Controller.State -> Prop) tr :
  (forall now e s, P s ->
     P (Fanout.Controller.step encodeURIComponent trim now e s)) ->
  forall s, P s -> P (Fanout.Controller.run encodeURIComponent trim tr s).
Proof.
  intros Hstep. induction tr as [|[now e] tr IH]; intros s Hs; [done|].
  apply IH. by apply Hstep.
Qed.

Lemma controller_counter_run tr :
  forall s,
    Fanout.Controller.sessionCounter
      (Fanout.Controller.run encodeURIComponent trim tr s)
    = (Fanout.Controller.sessionCounter s + Fanout.Controller.launches tr)%nat.
Proof.
  induction tr as [|[now e] tr IH]; intros s; [cbn; lia|].
  change (Fanout.Controller.run encodeURIComponent trim ((now, e) :: tr) s)
    with (Fanout.Controller.run encodeURIComponent trim tr
            (Fanout.Controller.step encodeURIComponent trim now e s)).
  rewrite IH, controller_counter_step.
  destruct e as [data| | | |confirmed|key|key|button answer|value|value|];
    cbn [Fanout.Controller.launches]; try lia.
  case_bool_decide; lia.
Qed.

(** X13.  The controller's map of sessions holds a key exactly when the last
    registration or closure the page handled for that key is a registration:
    registering and closing are the only ways in and out, pings and session
    messages never add or remove a session, and nothing the user does on the
    page changes the map. *)
Theorem controller_registry_tracks_lifecycle
    (dataInput broadcastInput : string) (now : Z)
    (tr : list (Z * Fanout.Controller.Event)) (k : option JsVal) :
  Fanout.Controller.map_has k
    (Fanout.Controller.activeSessions
       (Fanout.Controller.run encodeURIComponent trim tr
          (Fanout.Controller.load dataInput broadcastInput now))) = true
  <-> Fanout.Controller.last_lifecycle k (Fanout.Controller.received tr) None
      = Some true.
Proof.
  rewrite last_lifecycle_start.
  change (Some false)
    with (Some (Fanout.Controller.map_has k
                  (Fanout.Controller.activeSessions
                     (Fanout.Controller.load dataInput broadcastInput now)))).
  rewrite controller_registry_run by reflexivity.
  split; [by intros ->|by intros [= ->]].
Qed.

(** X14.  What the controller shows is what its map holds: at every moment
    no session is in the map twice, and, once the list has been drawn, the
    count is the size of the map and the list is the empty-state text for an
    empty map or one item per session, in the order of the map; until the
    first drawing the map is empty. *)
Theorem controller_list_in_sync
    (dataInput broadcastInput : string) (now : Z)
    (tr : list (Z * Fanout.Controller.Event)) :
  Fanout.Controller.in_sync
    (Fanout.Controller.run encodeURIComponent trim tr
       (Fanout.Controller.load dataInput broadcastInput now)).
Proof.
  apply controller_in_sync_run. split; [apply NoDup_nil_2|by left].
Qed.

(** X15.  The controller never answers: handling a message, whatever it
    holds, posts nothing, opens no tab, and leaves the counter, the channel
    and the two inputs as they were. *)
Theorem controller_never_answers
    (now : Z) (data : Message) (s : Fanout.Controller.State) :
  let s' := Fanout.Controller.step encodeURIComponent trim now
              (Fanout.Controller.EvMessage data) s in
  Fanout.Controller.posted s' = Fanout.Controller.posted s
  /\ Fanout.Controller.opened s' = Fanout.Controller.opened s
  /\ Fanout.Controller.sessionCounter s' = Fanout.Controller.sessionCounter s
  /\ Fanout.Controller.channelClosed s' = Fanout.Controller.channelClosed s
  /\ Fanout.Controller.sessionDataInput s'
     = Fanout.Controller.sessionDataInput s
  /\ Fanout.Controller.broadcastMsgInput s'
     = Fanout.Controller.broadcastMsgInput s.
Proof. exact (controller_message_frame now data s). Qed.

(** X16.  Sessions are launched in order: after any run the counter is the
    number of launches (clicks on the button and Enter in the data field),
    as many tabs were opened, the i-th of them with the id Session-i
    (counting from one), and a launch neither posts a message nor registers
    the session. *)
Theorem controller_launches_in_order
    (dataInput broadcastInput : string) (now t : Z)
    (tr : list (Z * Fanout.Controller.Event)) :
  let c := Fanout.Controller.run encodeURIComponent trim tr
             (Fanout.Controller.load dataInput broadcastInput now) in
  let c' := Fanout.Controller.step encodeURIComponent trim t
              Fanout.Controller.EvLaunchClick c in
  Fanout.Controller.sessionCounter c = Fanout.Controller.launches tr
  /\ List.length (Fanout.Controller.opened c) = Fanout.Controller.launches tr
  /\ (forall (i : nat) (url : string),
        Fanout.Controller.opened c !! i = Some url ->
        exists data,
          url = Fanout.Controller.Text.url
                  (Fanout.Controller.Text.session_id (S i))
                  (encodeURIComponent data))
  /\ Fanout.Controller.posted c' = Fanout.Controller.posted c
  /\ Fanout.Controller.activeSessions c' = Fanout.Controller.activeSessions c.
Proof.
  intros c c'.
  assert (Fanout.Controller.launched_in_order encodeURIComponent c)
    as [Hlen Hurl].
  { apply controller_run_ind; [apply controller_launch_step|].
    split; [reflexivity|]. intros i url Hi. by destruct i. }
  assert (Fanout.Controller.sessionCounter c = Fanout.Controller.launches tr)
    as Hcount by (unfold c; by rewrite controller_counter_run).
  split; [exact Hcount|]. split; [by rewrite Hlen|]. split; [exact Hurl|].
  split.
  - subst c'. destruct c. controller_exec. reflexivity.
  - exact (proj1 (controller_other_step t Fanout.Controller.EvLaunchClick c)).
Qed.

(** X17.  Nothing is sent without text or consent.  On an open channel the
    broadcast button posts one broadcast of the trimmed text and clears the
    field, unless the trimmed text is empty: then it posts nothing, keeps the
    field and logs a warning.  A prompt that is cancelled or left empty, a
    confirmation that is declined and a click in the list that hits no
    button leave the page exactly as it was. *)
Theorem controller_sends_only_with_text_or_consent
    (now : Z) (s : Fanout.Controller.State)
    (sessionId : string) (answer : option string) :
  Fanout.Controller.channelClosed s = false ->
  let message := trim (Fanout.Controller.broadcastMsgInput s) in
  let s' := Fanout.Controller.step encodeURIComponent trim now
              Fanout.Controller.EvBroadcastClick s in
  (message = "" ->
     Fanout.Controller.posted s' = Fanout.Controller.posted s
     /\ Fanout.Controller.broadcastMsgInput s'
        = Fanout.Controller.broadcastMsgInput s
     /\ Fanout.Controller.logEntries s'
        = (Fanout.Controller.Text.enter_message, Fanout.LOG_TYPES.WARNING)
            :: Fanout.Controller.logEntries s)
  /\ (message <> "" ->
      Fanout.Controller.posted s'
      = Fanout.Controller.posted s
          ++ [Fanout.createBroadcastMessage message now]
      /\ Fanout.Controller.broadcastMsgInput s' = "")
  /\ Fanout.Controller.step encodeURIComponent trim now
       (Fanout.Controller.EvListClick (Some ("send", sessionId)) None) s = s
  /\ Fanout.Controller.step encodeURIComponent trim now
       (Fanout.Controller.EvListClick (Some ("send", sessionId)) (Some "")) s
     = s
  /\ Fanout.Controller.step encodeURIComponent trim now
       (Fanout.Controller.EvCloseAllClick false) s = s
  /\ Fanout.Controller.step encodeURIComponent trim now
       (Fanout.Controller.EvListClick None answer) s = s.
Proof.
  destruct s as [m n c p o ct sl lg i1 i2]. cbn. intros ->.
  repeat apply conj.
  - intros Hm.
    assert (bool_decide (trim i2 = "") = true)
      by (by apply bool_decide_eq_true_2).
    controller_exec. by repeat apply conj.
  - intros Hm.
    assert (bool_decide (trim i2 = "") = false)
      by (by apply bool_decide_eq_false_2).
    controller_exec. by repeat apply conj.
  - reflexivity.
  - reflexivity.
  - reflexivity.
  - reflexivity.
Qed.

(** X18.  Unloading ends the controller: from the [beforeunload] task on,
    whatever is delivered or clicked, the page posts nothing more and its
    map and list stay as they were. *)
Theorem controller_unloaded_is_inert
    (now : Z) (s : Fanout.Controller.State)
    (tr : list (Z * Fanout.Controller.Event)) :
  let u := Fanout.Controller.step encodeURIComponent trim now
             Fanout.Controller.EvBeforeUnload s in
  let s' := Fanout.Controller.run encodeURIComponent trim tr u in
  Fanout.Controller.posted s' = Fanout.Controller.posted u
  /\ Fanout.Controller.activeSessions s' = Fanout.Controller.activeSessions u
  /\ Fanout.Controller.sessionList s' = Fanout.Controller.sessionList u
  /\ Fanout.Controller.sessionCountText s'
     = Fanout.Controller.sessionCountText u.
Proof.
  intros u s'.
  assert (Fanout.Controller.channelClosed u = true) as Hu
    by (unfold u; by rewrite controller_channel_step).
  destruct (controller_closed_run tr u Hu) as (_ & H1 & H2 & H3 & H4).
  by repeat apply conj.
Qed.

(** X19.  Every message the controller posts is stamped as its own: it has
    the source [controller] and no [sessionId], so that no session page can
    take it for one of its own messages. *)
Theorem controller_messages_are_stamped
    (dataInput broadcastInput : string) (now : Z)
    (tr : list (Z * Fanout.Controller.Event)) :
  Forall
    (fun m => Fanout.Controller.controller_stamp m
              /\ forall sid, strict_eq_str (m !! "sessionId") sid = false)
    (Fanout.Controller.posted
       (Fanout.Controller.run encodeURIComponent trim tr
          (Fanout.Controller.load dataInput broadcastInput now))).
Proof.
  eapply Forall_impl.
  - apply controller_run_ind; [apply controller_stamp_step|].
    apply Forall_singleton. split; reflexivity.
  - intros m [Hsrc Hsid]. split; [by split|]. intros sid. by rewrite Hsid.
Qed.

End ControllerFacts.

(** ** The session page of the demo *)

Ltac fan_clash :=
  match goal with
  | H1 : strict_eq_str (?m !! "type") ?a = true,
    H2 : strict_eq_str (?m !! "type") ?b = true |- _ =>
      exfalso; pose proof (has_type_unique m a b H1 H2); discriminate
  end.

Section ChildFacts.
Variable trim : string -> string.

Lemma child_run_ind (P : Fanout.Child.State -> Prop) tr :
  (forall now e s, P s -> P (Fanout.Child.step trim now e s)) ->
  forall s, P s -> P (Fanout.Child.run trim tr s).
Proof.
  intros Hstep. induction tr as [|[now e] tr IH]; intros s Hs; [done|].
  apply IH. by apply Hstep.
Qed.

(** The identity and the data of a page never change. *)
Lemma child_identity_step now e s :
  Fanout.Child.sessionId (Fanout.Child.step trim now e s)
  = Fanout.Child.sessionId s
  /\ Fanout.Child.data (Fanout.Child.step trim now e s) = Fanout.Child.data s
  /\ Fanout.Child.documentTitle (Fanout.Child.step trim now e s)
     = Fanout.Child.documentTitle s
  /\ Fanout.Child.displayData (Fanout.Child.step trim now e s)
     = Fanout.Child.displayData s.
Proof.
  destruct s as [sid d c p ti dd st lg cl mi bd wc tm].
  destruct e as [m| |timer| | | |key|value|]; try destruct timer;
    child_exec; by repeat apply conj.
Qed.

Lemma child_closed_step now e s :
  Fanout.Child.channelClosed s = true ->
  Fanout.Child.channelClosed (Fanout.Child.step trim now e s) = true
  /\ Fanout.Child.posted (Fanout.Child.step trim now e s)
     = Fanout.Child.posted s.
Proof.
  destruct s as [sid d c p ti dd st lg cl mi bd wc tm]. cbn. intros ->.
  destruct e as [m| |timer| | | |key|value|]; try destruct timer;
    child_exec; by repeat apply conj.
Qed.

Lemma child_posted_types sid d message now :
  strict_eq_str (Fanout.createSessionRegisteredMessage sid d now !! "type")
    Fanout.MESSAGE_TYPES.SESSION_CLOSED = false
  /\ strict_eq_str (Fanout.createSessionMessage sid message now !! "type")
       Fanout.MESSAGE_TYPES.SESSION_CLOSED = false
  /\ strict_eq_str (Fanout.createSessionPingMessage sid now !! "type")
       Fanout.MESSAGE_TYPES.SESSION_CLOSED = false
  /\ strict_eq_str (Fanout.createSessionClosedMessage sid now !! "type")
       Fanout.MESSAGE_TYPES.SESSION_CLOSED = true.
Proof. repeat apply conj; reflexivity. Qed.

Lemma child_closed_count_snoc (b : bool) s p m :
  Fanout.Child.posted s = p ++ [m] ->
  strict_eq_str (m !! "type") Fanout.MESSAGE_TYPES.SESSION_CLOSED = b ->
  Fanout.Child.closed_count s
  = (List.length
       (List.filter
          (fun m => strict_eq_str (m !! "type")
                      Fanout.MESSAGE_TYPES.SESSION_CLOSED) p)
     + if b then 1 else 0)%nat.
Proof.
  intros Hp Hb. unfold Fanout.Child.closed_count.
  rewrite Hp, List.filter_app, length_app. cbn [List.filter].
  rewrite Hb. by destruct b.
Qed.

(** The channel is closed exactly when the page has posted its one
    session-closed message, and that message is then the last one. *)
Lemma child_closing_step now e s :
  (Fanout.Child.closed_count s
   = if Fanout.Child.channelClosed s then 1%nat else 0%nat)
  /\ (Fanout.Child.channelClosed s = true ->
      exists t, last (Fanout.Child.posted s)
                = Some (Fanout.createSessionClosedMessage
                          (Fanout.Child.sessionId s) t)) ->
  let s' := Fanout.Child.step trim now e s in
  (Fanout.Child.closed_count s'
   = if Fanout.Child.channelClosed s' then 1%nat else 0%nat)
  /\ (Fanout.Child.channelClosed s' = true ->
      exists t, last (Fanout.Child.posted s')
                = Some (Fanout.createSessionClosedMessage
                          (Fanout.Child.sessionId s') t)).
Proof.
  intros [Hcount Hlast] s'.
  destruct (Fanout.Child.channelClosed s) eqn:Hc.
  - destruct (child_closed_step now e s Hc) as [Hc' Hp'].
    destruct (child_identity_step now e s) as (Hid & _).
    subst s'. rewrite Hc', Hp', Hid. split; [|auto].
    unfold Fanout.Child.closed_count in *. by rewrite Hp'.
  - clear Hlast. subst s'.
    destruct s as [sid d c p ti dd st lg cl mi bd wc tm].
    cbn in Hc. subst c. unfold Fanout.Child.closed_count in Hcount.
    cbn in Hcount.
    destruct (child_posted_types sid d (trim mi) now) as (T1 & T2 & T3 & T4).
    destruct e as [m| |timer| | | |key|value|]; try destruct timer;
      child_exec;
      try (split; [exact Hcount|discriminate]);
      try (split; [|discriminate];
           erewrite (child_closed_count_snoc false) by (reflexivity || eassumption);
           rewrite Hcount; reflexivity);
      try (split; [|intros _; exists now; apply last_snoc];
           erewrite (child_closed_count_snoc true) by (reflexivity || eassumption);
           rewrite Hcount; reflexivity).
Qed.

Lemma child_own_id_step now e s :
  Forall (fun m => m !! "sessionId" = Some (VStr (Fanout.Child.sessionId s)))
    (Fanout.Child.posted s) ->
  Forall (fun m => m !! "sessionId" = Some (VStr (Fanout.Child.sessionId s)))
    (Fanout.Child.posted (Fanout.Child.step trim now e s)).
Proof.
  destruct s as [sid d c p ti dd st lg cl mi bd wc tm]. cbn. intros Hs.
  destruct e as [m| |timer| | | |key|value|]; try destruct timer;
    child_exec; try exact Hs.
  all: apply Forall_app; split; [exact Hs|]; apply Forall_singleton;
    reflexivity.
Qed.

(** The status badge shows one of two texts, each with its own class. *)
Lemma child_status_step now e s :
  (Fanout.Child.displayStatus s
   = Some (Fanout.Child.Text.status_connected, badge_class true)
   \/ Fanout.Child.displayStatus s
      = Some (Fanout.Child.Text.status_disconnected, badge_class false)) ->
  Fanout.Child.displayStatus (Fanout.Child.step trim now e s)
  = Some (Fanout.Child.Text.status_connected, badge_class true)
  \/ Fanout.Child.displayStatus (Fanout.Child.step trim now e s)
     = Some (Fanout.Child.Text.status_disconnected, badge_class false).
Proof.
  destruct s as [sid d c p ti dd st lg cl mi bd wc tm]. cbn. intros Hs.
  destruct e as [m| |timer| | | |key|value|]; try destruct timer;
    child_exec; first [exact Hs | by left | by right].
Qed.

(** What a message does to an open page, by its type. *)
Lemma child_on_controller_ready now m s :
  Fanout.Child.channelClosed s = false ->
  strict_eq_str (m !! "sessionId") (Fanout.Child.sessionId s) = false ->
  strict_eq_str (m !! "type") Fanout.MESSAGE_TYPES.CONTROLLER_READY = true ->
  let s' := Fanout.Child.step trim now (Fanout.Child.EvMessage m) s in
  Fanout.Child.posted s'
  = Fanout.Child.posted s
      ++ [Fanout.createSessionRegisteredMessage (Fanout.Child.sessionId s)
            (Fanout.Child.data s) now]
  /\ Fanout.Child.displayStatus s'
     = Some (Fanout.Child.Text.status_connected, badge_class true)
  /\ Fanout.Child.channelClosed s' = false.
Proof.
  destruct s as [sid d c p ti dd st lg cl mi bd wc tm]. cbn.
  intros -> Hown Hty. child_exec; try fan_clash. by repeat apply conj.
Qed.

Lemma child_on_close_request now m s :
  Fanout.Child.channelClosed s = false ->
  strict_eq_str (m !! "sessionId") (Fanout.Child.sessionId s) = false ->
  strict_eq_str (m !! "type") Fanout.MESSAGE_TYPES.CLOSE_ALL = true
  \/ (strict_eq_str (m !! "type") Fanout.MESSAGE_TYPES.CLOSE_SESSION = true
      /\ strict_eq_str (m !! "targetSession") (Fanout.Child.sessionId s)
         = true) ->
  let s' := Fanout.Child.step trim now (Fanout.Child.EvMessage m) s in
  Fanout.Child.timers s'
  = Fanout.Child.timers s ++ [Fanout.Child.CloseSession]
  /\ Fanout.Child.posted s' = Fanout.Child.posted s
  /\ Fanout.Child.channelClosed s' = false
  /\ Fanout.Child.sessionId s' = Fanout.Child.sessionId s.
Proof.
  destruct s as [sid d c p ti dd st lg cl mi bd wc tm]. cbn.
  intros -> Hown [Hty|[Hty Htarget]]; child_exec; try fan_clash;
    by repeat apply conj.
Qed.

Lemma take_timer_app t l :
  exists rest, Fanout.Child.take_timer t (l ++ [t]) = Some rest.
Proof.
  induction l as [|t' l [rest IH]]; cbn.
  - rewrite bool_decide_eq_true_2 by done. eauto.
  - case_bool_decide; [eauto|]. rewrite IH. eauto.
Qed.

Lemma child_close_timer now s rest :
  Fanout.Child.channelClosed s = false ->
  Fanout.Child.take_timer Fanout.Child.CloseSession (Fanout.Child.timers s)
  = Some rest ->
  let s' := Fanout.Child.step trim now
              (Fanout.Child.EvTimeout Fanout.Child.CloseSession) s in
  Fanout.Child.posted s'
  = Fanout.Child.posted s
      ++ [Fanout.createSessionClosedMessage (Fanout.Child.sessionId s) now]
  /\ Fanout.Child.channelClosed s' = true
  /\ Fanout.Child.body s' = ClosedNotice
  /\ Fanout.Child.windowCloseCalls s' = S (Fanout.Child.windowCloseCalls s).
Proof.
  destruct s as [sid d c p ti dd st lg cl mi bd wc tm]. cbn.
  intros -> Htake. child_exec. by repeat apply conj.
Qed.

(** X20.  A session page of the demo tells the controller that it closes
    exactly once: after any run its channel is closed if and only if it has
    posted a session-closed message, it has posted one at most, and that
    message is the last thing it posted and carries its own id.  A second
    close request, a late timer or the unload after a close post nothing. *)
Theorem child_closes_exactly_once
    (sessionIdParam dataParam : option string) (nowId : Z) (input : string)
    (now : Z) (tr : list (Z * Fanout.Child.Event)) :
  let s := Fanout.Child.run trim tr
             (Fanout.Child.load sessionIdParam dataParam nowId input now) in
  (Fanout.Child.closed_count s
   = if Fanout.Child.channelClosed s then 1%nat else 0%nat)
  /\ (Fanout.Child.channelClosed s = true ->
      exists t, last (Fanout.Child.posted s)
                = Some (Fanout.createSessionClosedMessage
                          (Fanout.Child.sessionId s) t)).
Proof.
  apply (child_run_ind
           (fun s =>
              (Fanout.Child.closed_count s
               = if Fanout.Child.channelClosed s then 1%nat else 0%nat)
              /\ (Fanout.Child.channelClosed s = true ->
                  exists t, last (Fanout.Child.posted s)
                            = Some (Fanout.createSessionClosedMessage
                                      (Fanout.Child.sessionId s) t)))).
  - intros t e s Hs. exact (child_closing_step t e s Hs).
  - split; [reflexivity|discriminate].
Qed.

(** X21.  The session page of the demo tests the sender before the type: a
    message that carries the page's own id is dropped whatever its type,
    without a log entry, a flash, a timer or an answer. *)
Theorem child_skips_its_own_id
    (now : Z) (msgData : Message) (s : Fanout.Child.State) :
  msgData !! "sessionId" = Some (VStr (Fanout.Child.sessionId s)) ->
  Fanout.Child.onmessage now msgData s = (Normal tt, s).
Proof.
  destruct s as [sid d c p ti dd st lg cl mi bd wc tm]. cbn. intros Hown.
  apply strict_eq_str_true in Hown.
  fan_exec_on (Fanout.Child.onmessage now msgData
                 (Fanout.Child.mkState sid d c p ti dd st lg cl mi bd wc tm)).
  reflexivity.
Qed.

(** X22.  A direct message or a close request acts on its target only: on
    any other session page it changes nothing at all. *)
Theorem child_ignores_other_targets
    (now : Z) (msgData : Message) (s : Fanout.Child.State) :
  strict_eq_str (msgData !! "type") Fanout.MESSAGE_TYPES.DIRECT_MESSAGE = true
  \/ strict_eq_str (msgData !! "type") Fanout.MESSAGE_TYPES.CLOSE_SESSION
     = true ->
  msgData !! "targetSession" <> Some (VStr (Fanout.Child.sessionId s)) ->
  Fanout.Child.step trim now (Fanout.Child.EvMessage msgData) s = s.
Proof.
  destruct s as [sid d c p ti dd st lg cl mi bd wc tm]. cbn.
  intros Hty Htarget. apply strict_eq_str_false in Htarget.
  destruct Hty as [Hty|Hty]; child_exec; try fan_clash; reflexivity.
Qed.

(** X23.  A message never closes a session page at once and is answered in
    one case only: whatever is delivered, the channel, the page body and the
    input stay as they were, and nothing is posted unless the message is a
    controller-ready that does not carry the page's id and the channel is
    open; then the page posts one registration with its id and data. *)
Theorem child_answers_only_controller_ready
    (now : Z) (msgData : Message) (s : Fanout.Child.State) :
  let s' := Fanout.Child.step trim now (Fanout.Child.EvMessage msgData) s in
  Fanout.Child.channelClosed s' = Fanout.Child.channelClosed s
  /\ Fanout.Child.body s' = Fanout.Child.body s
  /\ Fanout.Child.windowCloseCalls s' = Fanout.Child.windowCloseCalls s
  /\ Fanout.Child.messageInput s' = Fanout.Child.messageInput s
  /\ Fanout.Child.posted s'
     = Fanout.Child.posted s
         ++ (if negb (Fanout.Child.channelClosed s)
                && negb (strict_eq_str (msgData !! "sessionId")
                           (Fanout.Child.sessionId s))
                && strict_eq_str (msgData !! "type")
                     Fanout.MESSAGE_TYPES.CONTROLLER_READY
             then [Fanout.createSessionRegisteredMessage
                     (Fanout.Child.sessionId s) (Fanout.Child.data s) now]
             else []).
Proof.
  destruct s as [sid d c p ti dd st lg cl mi bd wc tm]. cbv zeta. fan_fields.
  child_exec; cbn [negb andb];
    try (destruct (strict_eq_str (msgData !! "type")
                     Fanout.MESSAGE_TYPES.CONTROLLER_READY) eqn:?;
         try fan_clash);
    repeat apply conj; rewrite ?app_nil_r; try reflexivity; try congruence.
Qed.

(** X24.  Every message a session page of the demo posts carries the page's
    id, which is the [sessionId] parameter of its URL or, when that is
    missing or empty, [Session-] followed by the time of loading; so the page
    drops each of its own messages if it is delivered to it. *)
Theorem child_messages_carry_its_id
    (sessionIdParam dataParam : option string) (nowId : Z) (input : string)
    (now t : Z) (tr : list (Z * Fanout.Child.Event)) :
  let s := Fanout.Child.run trim tr
             (Fanout.Child.load sessionIdParam dataParam nowId input now) in
  Fanout.Child.sessionId s = Fanout.Child.sessionId_of sessionIdParam nowId
  /\ Fanout.Child.sessionId s <> ""
  /\ Forall
       (fun m => m !! "sessionId" = Some (VStr (Fanout.Child.sessionId s))
                 /\ Fanout.Child.onmessage t m s = (Normal tt, s))
       (Fanout.Child.posted s).
Proof.
  intros s.
  assert (Fanout.Child.sessionId s
          = Fanout.Child.sessionId_of sessionIdParam nowId
          /\ Forall
               (fun m => m !! "sessionId"
                         = Some (VStr (Fanout.Child.sessionId s)))
               (Fanout.Child.posted s)) as [Hid Hall].
  { apply (child_run_ind
             (fun s =>
                Fanout.Child.sessionId s
                = Fanout.Child.sessionId_of sessionIdParam nowId
                /\ Forall
                     (fun m => m !! "sessionId"
                               = Some (VStr (Fanout.Child.sessionId s)))
                     (Fanout.Child.posted s))).
    - intros t' e s0 [Hid Hall].
      destruct (child_identity_step t' e s0) as (Hsame & _).
      rewrite Hsame. split; [exact Hid|]. by apply child_own_id_step.
    - split; [reflexivity|]. apply Forall_singleton. reflexivity. }
  split; [exact Hid|]. split.
  - rewrite Hid. unfold Fanout.Child.sessionId_of.
    destruct sessionIdParam as [v|]; [case_bool_decide; [|done]|];
      discriminate.
  - eapply Forall_impl; [exact Hall|]. intros m Hm. split; [exact Hm|].
    destruct s as [sid d c p ti dd st lg cl mi bd wc tm]. cbn in Hm.
    apply strict_eq_str_true in Hm.
    fan_exec_on (Fanout.Child.onmessage t m
                   (Fanout.Child.mkState sid d c p ti dd st lg cl mi bd wc tm)).
    reflexivity.
Qed.

(** X25.  What a session page of the demo shows about itself is fixed at
    loading: the title is [Session - ] and its id, the data cell shows the
    [data] parameter of the URL, or [None] when that is missing or empty,
    and the status badge always shows either [Connected] with the connected
    class or [Disconnected] with the disconnected class. *)
Theorem child_display_is_fixed_at_load
    (sessionIdParam dataParam : option string) (nowId : Z) (input : string)
    (now : Z) (tr : list (Z * Fanout.Child.Event)) :
  let s := Fanout.Child.run trim tr
             (Fanout.Child.load sessionIdParam dataParam nowId input now) in
  Fanout.Child.documentTitle s
  = Fanout.Child.Text.title
      (Fanout.Child.sessionId_of sessionIdParam nowId)
  /\ Fanout.Child.displayData s
     = match dataParam with
       | Some v => if bool_decide (v = "") then "None" else v
       | None => "None"
       end
  /\ (Fanout.Child.displayStatus s
      = Some ("Connected", "status-badge connected")
      \/ Fanout.Child.displayStatus s
         = Some ("Disconnected", "status-badge disconnected")).
Proof.
  apply (child_run_ind
           (fun s =>
              Fanout.Child.documentTitle s
              = Fanout.Child.Text.title
                  (Fanout.Child.sessionId_of sessionIdParam nowId)
              /\ Fanout.Child.displayData s
                 = match dataParam with
                   | Some v => if bool_decide (v = "") then "None" else v
                   | None => "None"
                   end
              /\ (Fanout.Child.displayStatus s
                  = Some ("Connected", "status-badge connected")
                  \/ Fanout.Child.displayStatus s
                     = Some ("Disconnected", "status-badge disconnected")))).
  - intros t e s (Htitle & Hdata & Hstatus).
    destruct (child_identity_step t e s) as (_ & _ & Ht & Hd).
    rewrite Ht, Hd. split; [exact Htitle|]. split; [exact Hdata|].
    exact (child_status_step t e s Hstatus).
  - split; [reflexivity|]. split; [|by left].
    destruct dataParam as [v|]; [|reflexivity].
    unfold Fanout.Child.load. cbn. by case_bool_decide.
Qed.

End ChildFacts.

(** ** The two pages together *)

Lemma map_get_render k e m :
  Fanout.Controller.map_get k m = Some e ->
  Fanout.Controller.render (k, e) ∈ List.map Fanout.Controller.render m.
Proof.
  induction m as [|[k0 v0] m IH]; cbn; [done|].
  case_bool_decide as Hk.
  - intros [= ->]. subst k0. apply list_elem_of_here.
  - intros Hget. apply list_elem_of_further. by apply IH.
Qed.

Section PagesTogether.
Variables encodeURIComponent trim : string -> string.

(** What a message of each type does to the map of an open controller. *)
Lemma controller_on_registered now m c :
  Fanout.Controller.channelClosed c = false ->
  strict_eq_str (m !! "type") Fanout.MESSAGE_TYPES.SESSION_REGISTERED = true ->
  let c' := Fanout.Controller.step encodeURIComponent trim now
              (Fanout.Controller.EvMessage m) c in
  Fanout.Controller.activeSessions c'
  = Fanout.Controller.map_set (m !! "sessionId")
      (Fanout.Controller.mkEntry (m !! "data") (m !! "timestamp") None)
      (Fanout.Controller.activeSessions c)
  /\ Fanout.Controller.sessionList c'
     = Fanout.Controller.view_of (Fanout.Controller.activeSessions c')
  /\ Fanout.Controller.channelClosed c' = false.
Proof.
  destruct c as [mp n cl p o ct sl lg i1 i2]. cbn. intros -> Hty.
  controller_exec. by repeat apply conj.
Qed.

Lemma controller_on_closed now m c :
  Fanout.Controller.channelClosed c = false ->
  strict_eq_str (m !! "type") Fanout.MESSAGE_TYPES.SESSION_CLOSED = true ->
  let c' := Fanout.Controller.step encodeURIComponent trim now
              (Fanout.Controller.EvMessage m) c in
  Fanout.Controller.activeSessions c'
  = Fanout.Controller.map_delete (m !! "sessionId")
      (Fanout.Controller.activeSessions c)
  /\ Fanout.Controller.channelClosed c' = false.
Proof.
  destruct c as [mp n cl p o ct sl lg i1 i2]. cbn. intros -> Hty.
  controller_exec; try fan_clash. by repeat apply conj.
Qed.

Lemma controller_on_ping now m c :
  Fanout.Controller.channelClosed c = false ->
  strict_eq_str (m !! "type") Fanout.MESSAGE_TYPES.SESSION_PING = true ->
  let c' := Fanout.Controller.step encodeURIComponent trim now
              (Fanout.Controller.EvMessage m) c in
  match Fanout.Controller.map_get (m !! "sessionId")
          (Fanout.Controller.activeSessions c) with
  | Some e =>
      Fanout.Controller.activeSessions c'
      = Fanout.Controller.map_set (m !! "sessionId")
          (Fanout.Controller.mkEntry (Fanout.Controller.data e)
             (Fanout.Controller.registeredAt e) (m !! "timestamp"))
          (Fanout.Controller.activeSessions c)
      /\ Fanout.Controller.sessionList c' = Fanout.Controller.sessionList c
      /\ Fanout.Controller.sessionCountText c'
         = Fanout.Controller.sessionCountText c
      /\ Fanout.Controller.logEntries c' = Fanout.Controller.logEntries c
  | None => c' = c
  end.
Proof.
  destruct c as [mp n cl p o ct sl lg i1 i2]. cbn. intros -> Hty.
  controller_exec; try fan_clash.
  all: by repeat apply conj.
Qed.

Lemma controller_on_session_message now m c :
  Fanout.Controller.channelClosed c = false ->
  strict_eq_str (m !! "type") Fanout.MESSAGE_TYPES.SESSION_MESSAGE = true ->
  let c' := Fanout.Controller.step encodeURIComponent trim now
              (Fanout.Controller.EvMessage m) c in
  Fanout.Controller.logEntries c'
  = (Fanout.Controller.Text.from (m !! "sessionId") (m !! "message"),
     Fanout.LOG_TYPES.RECEIVED) :: Fanout.Controller.logEntries c
  /\ Fanout.Controller.activeSessions c' = Fanout.Controller.activeSessions c
  /\ Fanout.Controller.sessionList c' = Fanout.Controller.sessionList c.
Proof.
  destruct c as [mp n cl p o ct sl lg i1 i2]. cbn. intros -> Hty.
  controller_exec; try fan_clash. by repeat apply conj.
Qed.

(** X26.  Registration and closure are a round trip between the two pages.
    The message a session page posts when it loads makes an open controller
    hold the page's id with the page's data and the time of the message, and
    show the id in its list, with the data or [N/A] when there is none.
    When the page then closes, by its button or by unloading, the messages
    it has posted leave the controller without that id. *)
Theorem session_registers_and_unregisters
    (sessionIdParam dataParam : option string) (nowId : Z) (input : string)
    (now t : Z) (how : Fanout.Child.Event) (c : Fanout.Controller.State) :
  Fanout.Controller.channelClosed c = false ->
  how = Fanout.Child.EvCloseClick \/ how = Fanout.Child.EvBeforeUnload ->
  let child := Fanout.Child.load sessionIdParam dataParam nowId input now in
  let k := Some (VStr (Fanout.Child.sessionId child)) in
  let deliver := List.map (fun m => (t, Fanout.Controller.EvMessage m)) in
  let c1 := Fanout.Controller.run encodeURIComponent trim
              (deliver (Fanout.Child.posted child)) c in
  let child' := Fanout.Child.step trim t how child in
  let c2 := Fanout.Controller.run encodeURIComponent trim
              (deliver (Fanout.Child.posted child')) c in
  Fanout.Controller.map_get k (Fanout.Controller.activeSessions c1)
  = Some (Fanout.Controller.mkEntry
            (Some (VStr (Fanout.Child.data_of dataParam)))
            (Some (VNum now)) None)
  /\ (exists items,
        Fanout.Controller.sessionList c1 = Fanout.Controller.Items items
        /\ (Fanout.Child.sessionId child,
            if bool_decide (Fanout.Child.data_of dataParam = "")
            then "N/A" else Fanout.Child.data_of dataParam) ∈ items)
  /\ Fanout.Child.channelClosed child' = true
  /\ Fanout.Controller.map_has k (Fanout.Controller.activeSessions c2) = false.
Proof.
  intros Hc Hhow child k deliver c1 child' c2.
  set (sid := Fanout.Child.sessionId_of sessionIdParam nowId).
  set (d := Fanout.Child.data_of dataParam).
  set (reg := Fanout.createSessionRegisteredMessage sid d now).
  set (cls := Fanout.createSessionClosedMessage sid t).
  assert (Fanout.Child.posted child = [reg]) as Hp by reflexivity.
  assert (Fanout.Child.posted child' = [reg; cls]
          /\ Fanout.Child.channelClosed child' = true) as [Hp' Hcl'].
  { subst child'. destruct Hhow as [-> | ->]; split; reflexivity. }
  destruct (controller_on_registered t reg c Hc eq_refl) as (Hm1 & Hv1 & Ho1).
  cbv zeta in Hm1, Hv1, Ho1.
  assert (c1 = Fanout.Controller.step encodeURIComponent trim t
                 (Fanout.Controller.EvMessage reg) c) as Hc1
    by (unfold c1; by rewrite Hp).
  assert (Fanout.Controller.map_get k (Fanout.Controller.activeSessions c1)
          = Some (Fanout.Controller.mkEntry (Some (VStr d))
                    (Some (VNum now)) None)) as Hget.
  { rewrite Hc1, Hm1. exact (map_get_set_eq _ _ _). }
  split; [exact Hget|]. split.
  - rewrite Hc1, Hv1, <- Hc1. unfold Fanout.Controller.view_of.
    pose proof (map_get_render _ _ _ Hget) as Hin.
    destruct (Fanout.Controller.activeSessions c1) as [|kv rest] eqn:Hact;
      [by apply elem_of_nil in Hin|].
    eexists. split; [reflexivity|].
    replace (Fanout.Child.sessionId child,
             if bool_decide (d = "") then "N/A" else d)
      with (Fanout.Controller.render
              (k, Fanout.Controller.mkEntry (Some (VStr d))
                    (Some (VNum now)) None)); [exact Hin|].
    unfold Fanout.Controller.render, Fanout.truthy. cbn.
    by case_bool_decide.
  - split; [exact Hcl'|].
    assert (c2 = Fanout.Controller.step encodeURIComponent trim t
                   (Fanout.Controller.EvMessage cls) c1) as ->
      by (unfold c2; rewrite Hp', Hc1; reflexivity).
    rewrite Hc1 in *.
    destruct (controller_on_closed t cls _ Ho1 eq_refl) as (Hm2 & _).
    cbv zeta in Hm2. rewrite Hm2. unfold Fanout.Controller.map_has.
    change (cls !! "sessionId") with k.
    by rewrite map_get_delete_eq.
Qed.

(** X27.  A controller that (re)loads finds the sessions that are open: the
    controller-ready message it posts at loading makes every open session
    page post its registration again, with its id and data, and show
    [Connected]; handling that registration the controller holds the
    session. *)
Theorem controller_ready_reregisters
    (dataInput broadcastInput : string) (now t t' : Z)
    (s : Fanout.Child.State) :
  Fanout.Child.channelClosed s = false ->
  let ctl := Fanout.Controller.load dataInput broadcastInput now in
  let s' := Fanout.Child.run trim
              (List.map (fun m => (t, Fanout.Child.EvMessage m))
                 (Fanout.Controller.posted ctl)) s in
  let fresh := drop (List.length (Fanout.Child.posted s))
                 (Fanout.Child.posted s') in
  let ctl' := Fanout.Controller.run encodeURIComponent trim
                (List.map (fun m => (t', Fanout.Controller.EvMessage m)) fresh)
                ctl in
  fresh = [Fanout.createSessionRegisteredMessage (Fanout.Child.sessionId s)
             (Fanout.Child.data s) t]
  /\ Fanout.Child.displayStatus s'
     = Some ("Connected", "status-badge connected")
  /\ Fanout.Controller.map_get (Some (VStr (Fanout.Child.sessionId s)))
       (Fanout.Controller.activeSessions ctl')
     = Some (Fanout.Controller.mkEntry (Some (VStr (Fanout.Child.data s)))
               (Some (VNum t)) None).
Proof.
  intros Hs ctl s' fresh ctl'.
  set (ready := Fanout.createControllerReadyMessage now).
  assert (s' = Fanout.Child.step trim t (Fanout.Child.EvMessage ready) s)
    as Hs' by reflexivity.
  destruct (child_on_controller_ready trim t ready s Hs eq_refl eq_refl)
    as (Hp & Hst & _).
  cbv zeta in Hp, Hst. rewrite <- Hs' in Hp, Hst.
  assert (fresh
          = [Fanout.createSessionRegisteredMessage (Fanout.Child.sessionId s)
               (Fanout.Child.data s) t]) as Hfresh.
  { unfold fresh. rewrite Hp. by rewrite drop_app_length. }
  split; [exact Hfresh|]. split; [exact Hst|].
  unfold ctl'. rewrite Hfresh.
  destruct (controller_on_registered t'
              (Fanout.createSessionRegisteredMessage
                 (Fanout.Child.sessionId s) (Fanout.Child.data s) t)
              ctl eq_refl eq_refl) as (Hm & _).
  cbv zeta in Hm.
  change (Fanout.Controller.run encodeURIComponent trim
            (List.map (fun m => (t', Fanout.Controller.EvMessage m))
               [Fanout.createSessionRegisteredMessage
                  (Fanout.Child.sessionId s) (Fanout.Child.data s) t]) ctl)
    with (Fanout.Controller.step encodeURIComponent trim t'
            (Fanout.Controller.EvMessage
               (Fanout.createSessionRegisteredMessage
                  (Fanout.Child.sessionId s) (Fanout.Child.data s) t)) ctl).
  rewrite Hm. exact (map_get_set_eq _ _ _).
Qed.

(** X28.  Closing from the controller is a round trip too.  When the user
    confirms [Close All], or clicks the [Close] button of a session, on an
    open controller, an open session page that handles what the controller
    posted sets its one-second timer; when the timer fires the page posts its
    session-closed, closes its channel and shows the closed notice; and the
    controller that handles what the page posted no longer holds the
    session. *)
Theorem controller_close_request_round_trip
    (t1 t2 t3 t4 : Z) (all : bool) (answer : option string)
    (c : Fanout.Controller.State) (s : Fanout.Child.State) :
  Fanout.Controller.channelClosed c = false ->
  Fanout.Child.channelClosed s = false ->
  let request :=
    if all then Fanout.Controller.EvCloseAllClick true
    else Fanout.Controller.EvListClick
           (Some ("close", Fanout.Child.sessionId s)) answer in
  let c1 := Fanout.Controller.step encodeURIComponent trim t1 request c in
  let sent := drop (List.length (Fanout.Controller.posted c))
                (Fanout.Controller.posted c1) in
  let s1 := Fanout.Child.run trim
              (List.map (fun m => (t2, Fanout.Child.EvMessage m)) sent
               ++ [(t3, Fanout.Child.EvTimeout Fanout.Child.CloseSession)])
              s in
  let back := drop (List.length (Fanout.Child.posted s))
                (Fanout.Child.posted s1) in
  let c2 := Fanout.Controller.run encodeURIComponent trim
              (List.map (fun m => (t4, Fanout.Controller.EvMessage m)) back)
              c1 in
  back = [Fanout.createSessionClosedMessage (Fanout.Child.sessionId s) t3]
  /\ Fanout.Child.channelClosed s1 = true
  /\ Fanout.Child.body s1 = ClosedNotice
  /\ Fanout.Controller.map_has (Some (VStr (Fanout.Child.sessionId s)))
       (Fanout.Controller.activeSessions c2) = false.
Proof.
  intros Hc Hs request c1 sent s1 back c2.
  set (sid := Fanout.Child.sessionId s) in *.
  set (msg := if all then Fanout.createCloseAllMessage t1
              else Fanout.createCloseSessionMessage sid t1).
  assert (Fanout.Controller.posted c1 = Fanout.Controller.posted c ++ [msg]
          /\ Fanout.Controller.channelClosed c1 = false) as [Hp1 Ho1].
  { subst c1 request msg. destruct c as [mp n cl p o ct sl lg i1 i2].
    cbn in Hc. subst cl. destruct all; controller_exec;
      try (split; reflexivity).
    all: exfalso;
      match goal with
      | H : bool_decide (_ = _) = _ |- _ => by vm_compute in H
      end. }
  assert (sent = [msg]) as Hsent
    by (unfold sent; rewrite Hp1; by rewrite drop_app_length).
  set (s0 := Fanout.Child.step trim t2 (Fanout.Child.EvMessage msg) s).
  assert (s1 = Fanout.Child.step trim t3
                 (Fanout.Child.EvTimeout Fanout.Child.CloseSession) s0)
    as Hs1 by (unfold s1; rewrite Hsent; reflexivity).
  assert (strict_eq_str (msg !! "sessionId") sid = false) as Hown
    by (unfold msg; by destruct all).
  assert (strict_eq_str (msg !! "type") Fanout.MESSAGE_TYPES.CLOSE_ALL = true
          \/ (strict_eq_str (msg !! "type")
                Fanout.MESSAGE_TYPES.CLOSE_SESSION = true
              /\ strict_eq_str (msg !! "targetSession") sid = true)) as Hty.
  { unfold msg. destruct all; [by left|right]. split; [reflexivity|].
    apply strict_eq_str_true. reflexivity. }
  destruct (child_on_close_request trim t2 msg s Hs Hown Hty)
    as (Htm & Hp0 & Ho0 & Hid0).
  cbv zeta in Htm, Hp0, Ho0, Hid0. fold s0 in Htm, Hp0, Ho0, Hid0.
  destruct (take_timer_app Fanout.Child.CloseSession (Fanout.Child.timers s))
    as [rest Hrest].
  rewrite <- Htm in Hrest.
  destruct (child_close_timer trim t3 s0 rest Ho0 Hrest)
    as (Hp & Hcl & Hbody & _).
  cbv zeta in Hp, Hcl, Hbody. rewrite <- Hs1 in Hp, Hcl, Hbody.
  rewrite Hp0, Hid0 in Hp. fold sid in Hp.
  assert (back = [Fanout.createSessionClosedMessage sid t3]) as Hback
    by (unfold back; rewrite Hp; by rewrite drop_app_length).
  split; [exact Hback|]. split; [exact Hcl|]. split; [exact Hbody|].
  unfold c2. rewrite Hback.
  change (Fanout.Controller.run encodeURIComponent trim
            (List.map (fun m => (t4, Fanout.Controller.EvMessage m))
               [Fanout.createSessionClosedMessage sid t3]) c1)
    with (Fanout.Controller.step encodeURIComponent trim t4
            (Fanout.Controller.EvMessage
               (Fanout.createSessionClosedMessage sid t3)) c1).
  destruct (controller_on_closed t4
              (Fanout.createSessionClosedMessage sid t3) c1 Ho1 eq_refl)
    as (Hm & _).
  cbv zeta in Hm. rewrite Hm. unfold Fanout.Controller.map_has.
  change (Fanout.createSessionClosedMessage sid t3 !! "sessionId")
    with (Some (VStr sid)).
  by rewrite map_get_delete_eq.
Qed.

(** X29.  The heartbeat of an open session page reaches the controller as a
    ping that only stamps the time: a controller that holds the session
    keeps its data and registration time and sets its last ping to the time
    of the ping, with the same sessions in the same order and the same list
    and log; a controller that does not hold the session is left exactly as
    it was, so a ping never registers a session. *)
Theorem heartbeat_only_stamps_the_entry
    (t t' : Z) (s : Fanout.Child.State) (c : Fanout.Controller.State) :
  Fanout.Child.channelClosed s = false ->
  Fanout.Controller.channelClosed c = false ->
  let s' := Fanout.Child.step trim t Fanout.Child.EvHeartbeat s in
  let fresh := drop (List.length (Fanout.Child.posted s))
                 (Fanout.Child.posted s') in
  let c' := Fanout.Controller.run encodeURIComponent trim
              (List.map (fun m => (t', Fanout.Controller.EvMessage m)) fresh)
              c in
  let k := Some (VStr (Fanout.Child.sessionId s)) in
  Fanout.Controller.map_get k (Fanout.Controller.activeSessions c')
  = (fun e => Fanout.Controller.mkEntry (Fanout.Controller.data e)
                (Fanout.Controller.registeredAt e) (Some (VNum t)))
      <$> Fanout.Controller.map_get k (Fanout.Controller.activeSessions c)
  /\ (Fanout.Controller.activeSessions c').*1
     = (Fanout.Controller.activeSessions c).*1
  /\ Fanout.Controller.sessionList c' = Fanout.Controller.sessionList c
  /\ Fanout.Controller.logEntries c' = Fanout.Controller.logEntries c
  /\ (Fanout.Controller.map_get k (Fanout.Controller.activeSessions c) = None
      -> c' = c).
Proof.
  intros Hs Hc s' fresh c' k.
  set (sid := Fanout.Child.sessionId s) in *.
  set (ping := Fanout.createSessionPingMessage sid t).
  assert (fresh = [ping]) as Hfresh.
  { unfold fresh, s'. destruct s as [sid0 d cl p ti dd st lg cls mi bd wc tm].
    cbn in Hs. subst cl. child_exec. by rewrite drop_app_length. }
  assert (c' = Fanout.Controller.step encodeURIComponent trim t'
                 (Fanout.Controller.EvMessage ping) c) as ->
    by (unfold c'; rewrite Hfresh; reflexivity).
  pose proof (controller_on_ping t' ping c Hc eq_refl) as Hping.
  cbv zeta in Hping.
  change (ping !! "sessionId") with k in Hping.
  change (ping !! "timestamp") with (Some (VNum t)) in Hping.
  destruct (Fanout.Controller.map_get k (Fanout.Controller.activeSessions c))
    as [e|] eqn:Hget.
  - destruct Hping as (Hm & Hl & _ & Hlog). rewrite Hm.
    split; [exact (map_get_set_eq _ _ _)|].
    split; [apply map_keys_set; eauto|]. by repeat apply conj.
  - rewrite Hping. by repeat apply conj.
Qed.

(** X30.  A session message needs text and ends in the controller's log.
    On an open session page the send button posts nothing for an input that
    is empty once trimmed: it logs a warning and keeps the input.  Otherwise
    it posts one session message with the page's id and the trimmed text and
    clears the input, and an open controller that handles it adds one
    [received] line naming the id and the text to its log, and changes
    neither its sessions nor its list. *)
Theorem session_message_reaches_the_log
    (t t' : Z) (s : Fanout.Child.State) (c : Fanout.Controller.State) :
  Fanout.Child.channelClosed s = false ->
  Fanout.Child.body s = PageMarkup ->
  Fanout.Controller.channelClosed c = false ->
  let message := trim (Fanout.Child.messageInput s) in
  let s' := Fanout.Child.step trim t Fanout.Child.EvSendClick s in
  let fresh := drop (List.length (Fanout.Child.posted s))
                 (Fanout.Child.posted s') in
  let c' := Fanout.Controller.run encodeURIComponent trim
              (List.map (fun m => (t', Fanout.Controller.EvMessage m)) fresh)
              c in
  (message = "" ->
     fresh = []
     /\ Fanout.Child.messageInput s' = Fanout.Child.messageInput s
     /\ Fanout.Child.logEntries s'
        = (Fanout.Child.Text.enter_message, Fanout.LOG_TYPES.WARNING)
            :: Fanout.Child.logEntries s)
  /\ (message <> "" ->
      fresh = [Fanout.createSessionMessage (Fanout.Child.sessionId s)
                 message t]
      /\ Fanout.Child.messageInput s' = ""
      /\ Fanout.Controller.logEntries c'
         = ("From " +:+ Fanout.Child.sessionId s +:+ ": " +:+ message,
            "received") :: Fanout.Controller.logEntries c
      /\ Fanout.Controller.activeSessions c'
         = Fanout.Controller.activeSessions c
      /\ Fanout.Controller.sessionList c' = Fanout.Controller.sessionList c).
Proof.
  intros Hs Hbody Hc message s' fresh c'.
  destruct s as [sid d cl p ti dd st lg cls mi bd wc tm].
  cbn in Hs, Hbody, message. subst cl bd. split; intros Hm.
  - assert (bool_decide (trim mi = "") = true)
      by (by apply bool_decide_eq_true_2).
    subst c' fresh s'. child_exec.
    rewrite drop_all. by repeat apply conj.
  - assert (bool_decide (trim mi = "") = false)
      by (by apply bool_decide_eq_false_2).
    assert (fresh = [Fanout.createSessionMessage sid message t]
            /\ Fanout.Child.messageInput s' = "") as [Hfresh Hin].
    { subst fresh s'. child_exec. rewrite drop_app_length. by split. }
    split; [exact Hfresh|]. split; [exact Hin|].
    assert (c' = Fanout.Controller.step encodeURIComponent trim t'
                   (Fanout.Controller.EvMessage
                      (Fanout.createSessionMessage sid message t)) c) as ->
      by (unfold c'; rewrite Hfresh; reflexivity).
    destruct (controller_on_session_message t'
                (Fanout.createSessionMessage sid message t) c Hc eq_refl)
      as (Hlog & Hact & Hlist).
    cbv zeta in Hlog, Hact, Hlist. rewrite Hlog, Hact, Hlist.
    by repeat apply conj.
Qed.

End PagesTogether.

(** ** The properties at concrete inputs *)

Lemma controller_sends_only_with_text_or_consent_witness :
  let s := Fanout.Controller.load "" "  " 10 in
  Fanout.Controller.posted
    (Fanout.Controller.step (fun x => x) (fun _ => "") 20
       Fanout.Controller.EvBroadcastClick s)
  = Fanout.Controller.posted s.
Proof.
  intros s.
  destruct (controller_sends_only_with_text_or_consent
              (fun x => x) (fun _ => "") 20 s "Session-1" None eq_refl)
    as (Hblank & _).
  exact (proj1 (Hblank eq_refl)).
Defined.

Lemma child_skips_its_own_id_witness :
  let s := Fanout.Child.load (Some "Session-1") (Some "blue") 5 "" 10 in
  Fanout.Child.onmessage 20
    (Fanout.createSessionClosedMessage "Session-1" 15) s
  = (Normal tt, s).
Proof.
  intros s.
  apply (child_skips_its_own_id 20
           (Fanout.createSessionClosedMessage "Session-1" 15) s).
  reflexivity.
Defined.

Lemma child_ignores_other_targets_witness :
  let s := Fanout.Child.load (Some "Session-1") (Some "blue") 5 "" 10 in
  Fanout.Child.step (fun x => x) 20
    (Fanout.Child.EvMessage (Fanout.createCloseSessionMessage "Session-2" 15))
    s
  = s.
Proof.
  intros s.
  apply (child_ignores_other_targets (fun x => x) 20
           (Fanout.createCloseSessionMessage "Session-2" 15) s).
  - right. reflexivity.
  - by_computation.
Defined.

Lemma session_registers_and_unregisters_witness :
  let child := Fanout.Child.load (Some "Session-1") None 5 "" 10 in
  let k := Some (VStr (Fanout.Child.sessionId child)) in
  let deliver := List.map (fun m => (20, Fanout.Controller.EvMessage m)) in
  let c := Fanout.Controller.load "" "" 0 in
  let c1 := Fanout.Controller.run (fun x => x) (fun x => x)
              (deliver (Fanout.Child.posted child)) c in
  let child' := Fanout.Child.step (fun x => x) 20 Fanout.Child.EvCloseClick
                  child in
  let c2 := Fanout.Controller.run (fun x => x) (fun x => x)
              (deliver (Fanout.Child.posted child')) c in
  Fanout.Controller.map_get k (Fanout.Controller.activeSessions c1)
  = Some (Fanout.Controller.mkEntry
            (Some (VStr (Fanout.Child.data_of None)))
            (Some (VNum 10)) None)
  /\ (exists items,
        Fanout.Controller.sessionList c1 = Fanout.Controller.Items items
        /\ (Fanout.Child.sessionId child,
            if bool_decide (Fanout.Child.data_of None = "")
            then "N/A" else Fanout.Child.data_of None) ∈ items)
  /\ Fanout.Child.channelClosed child' = true
  /\ Fanout.Controller.map_has k (Fanout.Controller.activeSessions c2) = false.
Proof.
  exact (session_registers_and_unregisters (fun x => x) (fun x => x)
           (Some "Session-1") None 5 "" 10 20 Fanout.Child.EvCloseClick
           (Fanout.Controller.load "" "" 0) eq_refl (or_introl eq_refl)).
Defined.

Lemma controller_ready_reregisters_witness :
  let s := Fanout.Child.load (Some "Session-1") (Some "blue") 5 "" 10 in
  let ctl := Fanout.Controller.load "" "" 30 in
  let s' := Fanout.Child.run (fun x => x)
              (List.map (fun m => (40, Fanout.Child.EvMessage m))
                 (Fanout.Controller.posted ctl)) s in
  drop (List.length (Fanout.Child.posted s)) (Fanout.Child.posted s')
  = [Fanout.createSessionRegisteredMessage (Fanout.Child.sessionId s)
       (Fanout.Child.data s) 40].
Proof.
  intros s.
  exact (proj1 (controller_ready_reregisters (fun x => x) (fun x => x)
                  "" "" 30 40 50 s eq_refl)).
Defined.

Lemma controller_close_request_round_trip_witness :
  let s := Fanout.Child.load (Some "Session-1") (Some "blue") 5 "" 10 in
  let c := Fanout.Controller.step (fun x => x) (fun x => x) 12
             (Fanout.Controller.EvMessage
                (Fanout.createSessionRegisteredMessage "Session-1" "blue" 10))
             (Fanout.Controller.load "" "" 0) in
  let c1 := Fanout.Controller.step (fun x => x) (fun x => x) 20
              (Fanout.Controller.EvCloseAllClick true) c in
  let sent := drop (List.length (Fanout.Controller.posted c))
                (Fanout.Controller.posted c1) in
  let s1 := Fanout.Child.run (fun x => x)
              (List.map (fun m => (21, Fanout.Child.EvMessage m)) sent
               ++ [(1021, Fanout.Child.EvTimeout Fanout.Child.CloseSession)])
              s in
  Fanout.Child.channelClosed s1 = true.
Proof.
  intros s c.
  exact (proj1 (proj2
           (controller_close_request_round_trip (fun x => x) (fun x => x)
              20 21 1021 1022 true None c s eq_refl eq_refl))).
Defined.

Lemma heartbeat_only_stamps_the_entry_witness :
  let s := Fanout.Child.load (Some "Session-1") (Some "blue") 5 "" 10 in
  let c := Fanout.Controller.load "" "" 0 in
  let s' := Fanout.Child.step (fun x => x) 30010 Fanout.Child.EvHeartbeat s in
  let fresh := drop (List.length (Fanout.Child.posted s))
                 (Fanout.Child.posted s') in
  let c' := Fanout.Controller.run (fun x => x) (fun x => x)
              (List.map (fun m => (30011, Fanout.Controller.EvMessage m))
                 fresh) c in
  (Fanout.Controller.activeSessions c').*1
  = (Fanout.Controller.activeSessions c).*1.
Proof.
  intros s c.
  exact (proj1 (proj2
           (heartbeat_only_stamps_the_entry (fun x => x) (fun x => x)
              30010 30011 s c eq_refl eq_refl))).
Defined.

Lemma session_message_reaches_the_log_witness :
  let s := Fanout.Child.load (Some "Session-1") (Some "blue") 5 "hello" 10 in
  let c := Fanout.Controller.load "" "" 0 in
  let s' := Fanout.Child.step (fun x => x) 20 Fanout.Child.EvSendClick s in
  Fanout.Child.messageInput s' = "".
Proof.
  intros s c.
  destruct (session_message_reaches_the_log (fun x => x) (fun x => x)
              20 21 s c eq_refl eq_refl eq_refl) as (_ & Hsend).
  exact (proj1 (proj2 (Hsend ltac:(discriminate)))).
Defined.
